(** * IPA-alarmsystem-YOLO: camera sensor, PIN panel, dispatch worker, remote alarm client

    A shallow embedding of the four Python modules of the alarm system
    ([cameraSensor/main.py], [pinGui/main.py], [pinGui/threads.py],
    [pinGui/instasolution.py]) and the properties of their coordination
    layer.

    The Python code is effectful: it reads and writes a Redis store, sleeps,
    logs, prints, talks to a REST backend and raises exceptions.  Every
    function is embedded as a computation in a state-and-exception monad over
    a "world" that holds the state the function can touch and the trace of
    the effects it performed.  Durations and clock readings are integers,
    in milliseconds.  Where the code sleeps, the other threads and processes
    run: a sleep applies to the shared state an arbitrary function
    [others], over which the properties are quantified. *)

From Stdlib Require Import ZArith String Ascii List Bool Lia DecimalString.
From Stdlib Require Import DecimalZ DecimalPos.
From stdpp Require Import gmap strings list.
Import ListNotations.

Local Open Scope Z_scope.
Local Open Scope string_scope.

(** ** Python runtime *)

Module Py.

(** The exception classes the modelled code can raise. *)
Inductive exn : Type :=
| ConnectionError      (* redis.ConnectionError: the store is unreachable *)
| AttributeError       (* attribute access on None *)
| ValueError           (* malformed literal, malformed hash *)
| TypeError            (* str + None; [in] or a subscript on a value without it *)
| KeyError             (* missing key of a decoded JSON object *)
| JSONDecodeError.     (* json.loads on a body that is not JSON *)

Inductive result (A : Type) : Type :=
| Ok (a : A)
| Raise (e : exn).
Arguments Ok {A} a.
Arguments Raise {A} e.

(** A computation over a world [W]: the world is kept when an exception
    is raised, as the effects performed before the raise stay performed. *)
Definition M (W A : Type) : Type := W -> result A * W.

Definition ret {W A} (a : A) : M W A := fun w => (Ok a, w).

Definition bind {W A B} (m : M W A) (k : A -> M W B) : M W B :=
  fun w => match m w with
           | (Ok a, w') => k a w'
           | (Raise e, w') => (Raise e, w')
           end.

Definition throw {W A} (e : exn) : M W A := fun w => (Raise e, w).

(** An operation of the language that returns or raises and has no other
    effect. *)
Definition lift {W A} (r : result A) : M W A := fun w => (r, w).

Definition gets {W A} (f : W -> A) : M W A := fun w => (Ok (f w), w).

Definition modify {W} (f : W -> W) : M W unit := fun w => (Ok tt, f w).

(** [if c: body] with no else branch. *)
Definition when {W} (c : bool) (body : M W unit) : M W unit :=
  if c then body else ret tt.

(** [for x in xs: body x]. *)
Fixpoint for_each {W A} (xs : list A) (body : A -> M W unit) : M W unit :=
  match xs with
  | [] => ret tt
  | x :: xs' => bind (body x) (fun _ => for_each xs' body)
  end.

(** [str(n)] for an int. *)
Definition str (n : Z) : string := NilZero.string_of_int (Z.to_int n).

(** [ast.literal_eval] on the texts this system stores under
    [trigger_status]: [set_status] is the only writer of that key and stores
    [str] of an int, so only the canonical decimal rendering of an int is
    evaluated; any other text is modelled as the [ValueError] of a
    malformed literal. *)
Definition literal_eval (s : string) : result Z :=
  match NilZero.int_of_string s with
  | Some i => if String.eqb (str (Z.of_int i)) s
              then Ok (Z.of_int i) else Raise ValueError
  | None => Raise ValueError
  end.

(** The double quote character, for the JSON texts. *)
Definition dquote : string := String (ascii_of_nat 34) EmptyString.

(** Logging levels and the effects a run leaves in its trace. *)
Inductive level : Type := DEBUG | INFO | WARNING | ERROR.

(** Arguments of [print]. *)
Inductive pyval : Type :=
| PStr (s : string)
| PInt (n : Z).

(** The commands sent to the store. *)
Inductive redis_op : Type :=
| RExists (key : string)
| RGet (key : string)
| RSet (key value : string)
| RFlushAll.

(** The Redis connection: unreachable, or answering from a key-value map. *)
Inductive conn : Type :=
| Down
| Up (db : gmap string string).

(** A [requests.request('POST', ...)] call and what comes back: one of the
    three exception classes the callers distinguish, or a response. *)
Record request : Type := {
  url : string;
  headers : list (string * string);
  payload : list (string * string)
}.

Inductive http_result : Type :=
| HTimeout (e : string)           (* requests.exceptions.Timeout, with str(e) *)
| HRequestException (e : string)  (* requests.exceptions.RequestException *)
| HException (e : string)         (* any other Exception *)
| HResponse (status_code : Z) (text : string).

Inductive event : Type :=
| ELog (l : level) (msg : string)
| EPrint (args : list pyval)
| ESleep (ms : Z)
| ERedis (op : redis_op)
| EHttp (req : request) (res : http_result)
| EFileWrite (path content : string)
| EThreadDied (e : exn).

(** Observations on a trace: the sleeps, the store writes, the messages
    logged at a level, the frame persistence steps ([save_frame] begins
    by reading [frame] and may write a file). *)
Definition sleeps (t : list event) : list Z :=
  flat_map (fun e => match e with ESleep d => [d] | _ => [] end) t.

Definition writes (t : list event) : list (string * string) :=
  flat_map (fun e => match e with ERedis (RSet k v) => [(k, v)] | _ => [] end) t.

Definition level_eqb (a b : level) : bool :=
  match a, b with
  | DEBUG, DEBUG | INFO, INFO | WARNING, WARNING | ERROR, ERROR => true
  | _, _ => false
  end.

Definition logged (l : level) (t : list event) : list string :=
  flat_map (fun e => match e with
                     | ELog l' msg => if level_eqb l l' then [msg] else []
                     | _ => []
                     end) t.

Definition is_persistence (e : event) : bool :=
  match e with
  | ERedis (RGet k) => String.eqb k "frame"
  | EFileWrite _ _ => true
  | _ => false
  end.

Definition persistence (t : list event) : list event :=
  List.filter is_persistence t.

(** The requests sent to the backend, and the commands sent to the store. *)
Definition sent (t : list event) : list request :=
  flat_map (fun e => match e with EHttp req _ => [req] | _ => [] end) t.

Definition store_ops (t : list event) : list redis_op :=
  flat_map (fun e => match e with ERedis op => [op] | _ => [] end) t.

End Py.

Import Py.

Declare Scope py_scope.
Delimit Scope py_scope with py.
Notation "'do' x <- m ; k" := (bind m (fun x => k))
  (at level 10, x name, m at level 100, k at level 200) : py_scope.
Notation "m ;; k" := (bind m (fun _ => k))
  (at level 100, k at level 200, right associativity) : py_scope.
Local Open Scope py_scope.

(** ** cameraSensor/main.py: the presence monitor and its debounce gate *)

Module CameraSensor.

(** An image is opaque: the detector, the drawing and the codec are
    external collaborators. *)
Definition image : Type := string.

(** One entry of [indices] after the confidence filter and
    [cv.dnn.NMSBoxes]: the class name [classes[classIDs[i]]] and the box. *)
Record detection : Type := {
  label : string;
  box : Z * Z * Z * Z
}.

(** The state of the monitor process: the store connection, the wall
    clock in milliseconds, and the effects performed so far. *)
Record world : Type := {
  redis : conn;
  clock : Z;
  trace : list event
}.

Definition emit (e : event) : M world unit :=
  modify (fun w => {| redis := redis w; clock := clock w; trace := trace w ++ [e] |}).

Definition logger (l : level) (msg : string) : M world unit := emit (ELog l msg).
Definition print (args : list pyval) : M world unit := emit (EPrint args).

Section Monitor.

(** [settings["Alarm"]["timeout"]], in milliseconds, and
    [settings["Device"]["name"]]. *)
Variable timeout : Z.
Variable device_name : string.

(** What the other processes do to the store while this one is busy for
    [d] milliseconds from time [t] on (the control panel arms and
    disarms, the store comes and goes). *)
Variable others : Z -> Z -> conn -> conn.

(** [video.read()] followed by [imutils.resize], at a given time; [None]
    when the camera delivers no frame. *)
Variable video_read : Z -> option image.

(** The detector: how long [net.forward] takes on an image, and the
    detections it keeps. *)
Variable forward_ms : image -> Z.
Variable kept : image -> list detection.

(** [cvtColor] twice and [cv.rectangle]; [imencode] and [b64encode];
    [datetime.now().strftime]. *)
Variable draw : image -> Z * Z * Z * Z -> image.
Variable jpg_b64 : image -> string.
Variable strftime : Z -> string.

(** Line 57: the module-level [runtime = 0].  No function declares
    [global runtime], so this binding is never assigned again. *)
Definition runtime : Z := 0.

(** Time passes: the clock advances and the other processes act. *)
Definition pass_time (d : Z) : M world unit :=
  modify (fun w => {| redis := others (clock w) d (redis w);
                      clock := clock w + d;
                      trace := trace w |}).

Definition time_time : M world Z := gets clock.

Definition time_sleep (d : Z) : M world unit :=
  emit (ESleep d) ;; pass_time d.

(** The Redis client: every command is sent (and traced) and raises
    [ConnectionError] when the store is unreachable. *)
Definition r_exists (key : string) : M world bool :=
  emit (ERedis (RExists key)) ;;
  do c <- gets redis;
  match c with
  | Down => throw ConnectionError
  | Up db => ret (bool_decide (is_Some (db !! key)))
  end.

Definition r_get (key : string) : M world (option string) :=
  emit (ERedis (RGet key)) ;;
  do c <- gets redis;
  match c with
  | Down => throw ConnectionError
  | Up db => ret (db !! key)
  end.

Definition r_set (key value : string) : M world unit :=
  emit (ERedis (RSet key value)) ;;
  do c <- gets redis;
  match c with
  | Down => throw ConnectionError
  | Up db => modify (fun w => {| redis := Up (<[key := value]> db);
                                 clock := clock w; trace := trace w |})
  end.

(** [r.get('trigger_status').decode('utf8')] through [ast.literal_eval]. *)
Definition read_status : M world Z :=
  do v <- r_get "trigger_status";
  match v with
  | None => throw AttributeError
  | Some b => match literal_eval b with
              | Ok n => ret n
              | Raise e => throw e
              end
  end.

(** [json.dumps({"timestamp": curdate, "frame": im_b64})]. *)
Definition frame_json (curdate im_b64 : string) : string :=
  "{" ++ dquote ++ "timestamp" ++ dquote ++ ": " ++ dquote ++ curdate ++ dquote
      ++ ", " ++ dquote ++ "frame" ++ dquote ++ ": " ++ dquote ++ im_b64 ++ dquote ++ "}".

(** Lines 142-145: the wait of the debounce gate. *)
Definition gate_wait : M world unit :=
  print [PStr "Wait timeout"] ;;
  when (0 <=? timeout - runtime)%Z (time_sleep (timeout - runtime)) ;;
  print [PInt runtime].

(** Lines 141-168. *)
Definition save_image (img : image) : M world unit :=
  gate_wait ;;
  let im_b64 := jpg_b64 img in
  do now <- time_time;
  let curdate := strftime now in
  let frame := frame_json curdate im_b64 in
  let dev := device_name in
  do trigger_status <- read_status;
  if (trigger_status =? 1)%Z then
    r_set "trigger_dev" dev ;;
    r_set "frame" frame ;;
    print [PStr "frame saved to redis"] ;;
    print [PStr "time: "; PInt runtime] ;;
    logger DEBUG ("Runtime: " ++ str runtime) ;;
    logger INFO "Frame saved to redis."
  else
    logger INFO "Person was detected, but system was deactivated" ;;
    print [PStr "Person was detected, but system was deactivated"].

(** Lines 126-138: the loop over the kept detections; [img] is rebound
    by every person found. *)
Fixpoint persons (ds : list detection) (img : image) : M world unit :=
  match ds with
  | [] => ret tt
  | d :: ds' =>
      if String.eqb (label d) "person" then
        let img' := draw img (box d) in
        print [PStr "person detected"] ;;
        logger WARNING "Person detected!" ;;
        save_image img' ;;
        persons ds' img'
      else persons ds' img
  end.

(** Lines 80-138.  [runtime] on line 103 is a local of [detect_person]:
    it is computed and dropped when the function returns. *)
Definition detect_person (img : image) : M world unit :=
  do start_time <- time_time;
  pass_time (forward_ms img) ;;
  do end_time <- time_time;
  let runtime := end_time - start_time in
  persons (kept img) img.

(** The locals of [main]. *)
Record locals : Type := {
  is_last_frame : Z;
  trigger_status : Z
}.

Definition init : locals := {| is_last_frame := 0; trigger_status := 0 |}.

(** Lines 67-77: one iteration of [while True]. *)
Definition main_iter (l : locals) : M world locals :=
  do ex <- r_exists "trigger_status";
  do ts <- (if ex : bool then read_status else ret (trigger_status l));
  if (ts =? 1)%Z then
    if (5 <=? is_last_frame l)%Z then
      do now <- time_time;
      match video_read now with
      | None => throw AttributeError
      | Some img =>
          detect_person img ;;
          ret {| is_last_frame := 0; trigger_status := ts |}
      end
    else ret {| is_last_frame := is_last_frame l + 1; trigger_status := ts |}
  else ret {| is_last_frame := is_last_frame l; trigger_status := ts |}.


(** A world with further effects in its trace, and the trace of [n] polls
    that read the status and do nothing else. *)
Definition extend (w : world) (t : list event) : world :=
  {| redis := redis w; clock := clock w; trace := (trace w ++ t)%list |}.

Definition polls (n : nat) : list event :=
  concat (repeat [ERedis (RExists "trigger_status");
                  ERedis (RGet "trigger_status")] n).

(** The persons among the kept detections. *)
Definition persons_in (ds : list detection) : nat :=
  length (List.filter (fun d => String.eqb (label d) "person") ds).

(** A store that answers and says armed under [b]. *)
Definition says (b : string) (c : conn) : Prop :=
  exists db, c = Up db /\ db !! "trigger_status" = Some b.

(** [n] iterations of the loop; the loop ends only by an exception. *)
Fixpoint main_loop (n : nat) (l : locals) : M world locals :=
  match n with
  | O => ret l
  | S n' => do l' <- main_iter l; main_loop n' l'
  end.

End Monitor.

End CameraSensor.

(** ** The control panel process: state shared by [pinGui/main.py],
    [pinGui/threads.py] and [pinGui/instasolution.py] *)

Module Process.

(** The images of the star indicator, of the status bar and of the
    progress loader ([dots0] .. [dots9], by index). *)
Inductive stars : Type :=
| stars_0 | stars_1 | stars_2 | stars_3 | stars_4 | stars_g | stars_r.
Inductive camera : Type := camera_off | camera_on.

(** The attributes of [PinGuiApp] that its methods read and write. *)
Module Gui.
Record t : Type := {
  pin_entry : string;
  cooldown : bool;
  cooldown_counter : Z;
  stop_cooldown : bool;
  alarm_status : bool;
  full_screen_state : bool;
  fullscreen : bool;          (* root.attributes("-fullscreen") *)
  display : stars;
  status_bar : camera;
  progress : nat
}.
End Gui.

(** The attributes of [InstaThreads] and of its [Insta] object that only
    the worker thread touches. *)
Module Thr.
Record t : Type := {
  alarm_status : string;
  alarm_status_old : string;
  sensor_activator : option string;
  alarm_system_status : option string
}.
End Thr.

(** What several threads or processes can change: the panel attributes
    (main thread and every [compare_pin] thread), the command queue, the
    stop event and the store. *)
Record shared : Type := {
  gui : Gui.t;
  alarm_queue : list string;
  stop_event : bool;
  redis : conn
}.

Record world : Type := {
  sh : shared;
  thr : Thr.t;
  clock : Z;                    (* milliseconds *)
  requests : nat;               (* HTTP requests sent so far *)
  trace : list event
}.

Definition initial_gui : Gui.t :=
  {| Gui.pin_entry := ""; Gui.cooldown := false; Gui.cooldown_counter := 0;
     Gui.stop_cooldown := false; Gui.alarm_status := false;
     Gui.full_screen_state := false; Gui.fullscreen := true;
     Gui.display := stars_0; Gui.status_bar := camera_off; Gui.progress := 0%nat |}.

Definition initial_thr : Thr.t :=
  {| Thr.alarm_status := ""; Thr.alarm_status_old := "";
     Thr.sensor_activator := None; Thr.alarm_system_status := None |}.

Definition initial (r : conn) : world :=
  {| sh := {| gui := initial_gui; alarm_queue := []; stop_event := false; redis := r |};
     thr := initial_thr; clock := 0; requests := 0%nat; trace := [] |}.

(** Field updates. *)
Definition with_sh (f : shared -> shared) (w : world) : world :=
  {| sh := f (sh w); thr := thr w; clock := clock w;
     requests := requests w; trace := trace w |}.
Definition with_thr (f : Thr.t -> Thr.t) (w : world) : world :=
  {| sh := sh w; thr := f (thr w); clock := clock w;
     requests := requests w; trace := trace w |}.
Definition with_gui (f : Gui.t -> Gui.t) : world -> world :=
  with_sh (fun s => {| gui := f (gui s); alarm_queue := alarm_queue s;
                       stop_event := stop_event s; redis := redis s |}).
Definition with_queue (f : list string -> list string) : world -> world :=
  with_sh (fun s => {| gui := gui s; alarm_queue := f (alarm_queue s);
                       stop_event := stop_event s; redis := redis s |}).
Definition with_stop_event (f : bool -> bool) : world -> world :=
  with_sh (fun s => {| gui := gui s; alarm_queue := alarm_queue s;
                       stop_event := f (stop_event s); redis := redis s |}).
Definition with_redis (f : conn -> conn) : world -> world :=
  with_sh (fun s => {| gui := gui s; alarm_queue := alarm_queue s;
                       stop_event := stop_event s; redis := f (redis s) |}).

Definition emit (e : event) : M world unit :=
  modify (fun w => {| sh := sh w; thr := thr w; clock := clock w;
                      requests := requests w; trace := trace w ++ [e] |}).

Definition logger (l : level) (msg : string) : M world unit := emit (ELog l msg).
Definition print (args : list pyval) : M world unit := emit (EPrint args).

(** Reads and assignments of the panel attributes. *)
Definition self {A} (f : Gui.t -> A) : M world A := gets (fun w => f (gui (sh w))).

Definition set_pin_entry (v : string) : M world unit :=
  modify (with_gui (fun g =>
    {| Gui.pin_entry := v; Gui.cooldown := Gui.cooldown g;
       Gui.cooldown_counter := Gui.cooldown_counter g;
       Gui.stop_cooldown := Gui.stop_cooldown g; Gui.alarm_status := Gui.alarm_status g;
       Gui.full_screen_state := Gui.full_screen_state g; Gui.fullscreen := Gui.fullscreen g;
       Gui.display := Gui.display g; Gui.status_bar := Gui.status_bar g;
       Gui.progress := Gui.progress g |})).
Definition set_cooldown (v : bool) : M world unit :=
  modify (with_gui (fun g =>
    {| Gui.pin_entry := Gui.pin_entry g; Gui.cooldown := v;
       Gui.cooldown_counter := Gui.cooldown_counter g;
       Gui.stop_cooldown := Gui.stop_cooldown g; Gui.alarm_status := Gui.alarm_status g;
       Gui.full_screen_state := Gui.full_screen_state g; Gui.fullscreen := Gui.fullscreen g;
       Gui.display := Gui.display g; Gui.status_bar := Gui.status_bar g;
       Gui.progress := Gui.progress g |})).
Definition set_cooldown_counter (v : Z) : M world unit :=
  modify (with_gui (fun g =>
    {| Gui.pin_entry := Gui.pin_entry g; Gui.cooldown := Gui.cooldown g;
       Gui.cooldown_counter := v;
       Gui.stop_cooldown := Gui.stop_cooldown g; Gui.alarm_status := Gui.alarm_status g;
       Gui.full_screen_state := Gui.full_screen_state g; Gui.fullscreen := Gui.fullscreen g;
       Gui.display := Gui.display g; Gui.status_bar := Gui.status_bar g;
       Gui.progress := Gui.progress g |})).
Definition set_stop_cooldown (v : bool) : M world unit :=
  modify (with_gui (fun g =>
    {| Gui.pin_entry := Gui.pin_entry g; Gui.cooldown := Gui.cooldown g;
       Gui.cooldown_counter := Gui.cooldown_counter g;
       Gui.stop_cooldown := v; Gui.alarm_status := Gui.alarm_status g;
       Gui.full_screen_state := Gui.full_screen_state g; Gui.fullscreen := Gui.fullscreen g;
       Gui.display := Gui.display g; Gui.status_bar := Gui.status_bar g;
       Gui.progress := Gui.progress g |})).
Definition set_alarm_status (v : bool) : M world unit :=
  modify (with_gui (fun g =>
    {| Gui.pin_entry := Gui.pin_entry g; Gui.cooldown := Gui.cooldown g;
       Gui.cooldown_counter := Gui.cooldown_counter g;
       Gui.stop_cooldown := Gui.stop_cooldown g; Gui.alarm_status := v;
       Gui.full_screen_state := Gui.full_screen_state g; Gui.fullscreen := Gui.fullscreen g;
       Gui.display := Gui.display g; Gui.status_bar := Gui.status_bar g;
       Gui.progress := Gui.progress g |})).
Definition set_full_screen_state (v : bool) : M world unit :=
  modify (with_gui (fun g =>
    {| Gui.pin_entry := Gui.pin_entry g; Gui.cooldown := Gui.cooldown g;
       Gui.cooldown_counter := Gui.cooldown_counter g;
       Gui.stop_cooldown := Gui.stop_cooldown g; Gui.alarm_status := Gui.alarm_status g;
       Gui.full_screen_state := v; Gui.fullscreen := Gui.fullscreen g;
       Gui.display := Gui.display g; Gui.status_bar := Gui.status_bar g;
       Gui.progress := Gui.progress g |})).
Definition set_fullscreen (v : bool) : M world unit :=
  modify (with_gui (fun g =>
    {| Gui.pin_entry := Gui.pin_entry g; Gui.cooldown := Gui.cooldown g;
       Gui.cooldown_counter := Gui.cooldown_counter g;
       Gui.stop_cooldown := Gui.stop_cooldown g; Gui.alarm_status := Gui.alarm_status g;
       Gui.full_screen_state := Gui.full_screen_state g; Gui.fullscreen := v;
       Gui.display := Gui.display g; Gui.status_bar := Gui.status_bar g;
       Gui.progress := Gui.progress g |})).
Definition display_configure (v : stars) : M world unit :=
  modify (with_gui (fun g =>
    {| Gui.pin_entry := Gui.pin_entry g; Gui.cooldown := Gui.cooldown g;
       Gui.cooldown_counter := Gui.cooldown_counter g;
       Gui.stop_cooldown := Gui.stop_cooldown g; Gui.alarm_status := Gui.alarm_status g;
       Gui.full_screen_state := Gui.full_screen_state g; Gui.fullscreen := Gui.fullscreen g;
       Gui.display := v; Gui.status_bar := Gui.status_bar g;
       Gui.progress := Gui.progress g |})).
Definition status_bar_configure (v : camera) : M world unit :=
  modify (with_gui (fun g =>
    {| Gui.pin_entry := Gui.pin_entry g; Gui.cooldown := Gui.cooldown g;
       Gui.cooldown_counter := Gui.cooldown_counter g;
       Gui.stop_cooldown := Gui.stop_cooldown g; Gui.alarm_status := Gui.alarm_status g;
       Gui.full_screen_state := Gui.full_screen_state g; Gui.fullscreen := Gui.fullscreen g;
       Gui.display := Gui.display g; Gui.status_bar := v;
       Gui.progress := Gui.progress g |})).
Definition progress_configure (v : nat) : M world unit :=
  modify (with_gui (fun g =>
    {| Gui.pin_entry := Gui.pin_entry g; Gui.cooldown := Gui.cooldown g;
       Gui.cooldown_counter := Gui.cooldown_counter g;
       Gui.stop_cooldown := Gui.stop_cooldown g; Gui.alarm_status := Gui.alarm_status g;
       Gui.full_screen_state := Gui.full_screen_state g; Gui.fullscreen := Gui.fullscreen g;
       Gui.display := Gui.display g; Gui.status_bar := Gui.status_bar g;
       Gui.progress := v |})).

(** Assignments of the worker attributes. *)
Definition set_thr_alarm_status (v : string) : M world unit :=
  modify (with_thr (fun t =>
    {| Thr.alarm_status := v; Thr.alarm_status_old := Thr.alarm_status_old t;
       Thr.sensor_activator := Thr.sensor_activator t;
       Thr.alarm_system_status := Thr.alarm_system_status t |})).
Definition set_alarm_status_old (v : string) : M world unit :=
  modify (with_thr (fun t =>
    {| Thr.alarm_status := Thr.alarm_status t; Thr.alarm_status_old := v;
       Thr.sensor_activator := Thr.sensor_activator t;
       Thr.alarm_system_status := Thr.alarm_system_status t |})).
Definition set_sensor_activator (v : option string) : M world unit :=
  modify (with_thr (fun t =>
    {| Thr.alarm_status := Thr.alarm_status t;
       Thr.alarm_status_old := Thr.alarm_status_old t;
       Thr.sensor_activator := v;
       Thr.alarm_system_status := Thr.alarm_system_status t |})).
Definition set_alarm_system_status (v : option string) : M world unit :=
  modify (with_thr (fun t =>
    {| Thr.alarm_status := Thr.alarm_status t;
       Thr.alarm_status_old := Thr.alarm_status_old t;
       Thr.sensor_activator := Thr.sensor_activator t;
       Thr.alarm_system_status := v |})).

(** Time passes for the running thread: the clock advances and the other
    threads and processes act on the shared state. *)
Definition pass_time (others : Z -> Z -> shared -> shared) (d : Z) : M world unit :=
  modify (fun w => {| sh := others (clock w) d (sh w); thr := thr w;
                      clock := clock w + d; requests := requests w;
                      trace := trace w |}).

Definition time_sleep (others : Z -> Z -> shared -> shared) (d : Z) : M world unit :=
  emit (ESleep d) ;; pass_time others d.

(** What a computation of the remote alarm client leaves alone: the shared
    state (panel, queue, stop event, store), the clock and the standing
    command of the worker; it only adds to the trace. *)
Definition frame (w w' : world) : Prop :=
  sh w' = sh w /\
  clock w' = clock w /\
  Thr.alarm_status (thr w') = Thr.alarm_status (thr w) /\
  Thr.alarm_status_old (thr w') = Thr.alarm_status_old (thr w) /\
  exists t, trace w' = (trace w ++ t)%list.

Definition keeps {A} (m : M world A) : Prop := forall w, frame w (snd (m w)).

End Process.

Import Process.

(** ** pinGui/instasolution.py: the remote alarm client *)

Module Instasolution.

(** [settings["API"]]. *)
Record api : Type := {
  api_url : string;
  api_key : string;
  api_dev_type : string;
  api_email : string;
  api_password : string;
  alarm_event_id : string;
  sos_event_id : string
}.

(** What [json.loads] returns: a str, an int, a float, a bool, [None], a
    list or a dict.  A float is kept by the two things the client can see
    of it: its [repr], and whether it compares equal to the int [-1]
    (as [-1.0] does).  A dict is kept by its items, in order. *)
#[warnings="-register-all"] Inductive jval : Type :=
| JStr (s : string)
| JNum (n : Z)
| JFloat (repr : string) (minus_one : bool)
| JBool (b : bool)
| JNull
| JArr (items : list jval)
| JObj (items : list (string * jval)).

(** [a == b], for the one comparison the client makes, with the int [-1]
    on the right, and for two strs and two ints.  A bool is the int 1 or
    0; a str, [None], a list and a dict equal no int. *)
Definition jval_eqb (a b : jval) : bool :=
  match a, b with
  | JStr s, JStr t => String.eqb s t
  | JNum n, JNum m => (n =? m)%Z
  | JFloat _ minus_one, JNum m => minus_one && (m =? -1)%Z
  | JBool c, JNum m => (m =? (if c then 1 else 0))%Z
  | _, _ => false
  end.

(** [repr(a)], with the strs in single quotes and without escapes. *)
Fixpoint jval_repr (a : jval) : string :=
  match a with
  | JStr s => "'" ++ s ++ "'"
  | JNum n => str n
  | JFloat repr _ => repr
  | JBool b => if b then "True" else "False"
  | JNull => "None"
  | JArr items =>
      "[" ++ (fix go (l : list jval) : string :=
                match l with
                | [] => ""
                | x :: [] => jval_repr x
                | x :: rest => jval_repr x ++ ", " ++ go rest
                end) items ++ "]"
  | JObj items =>
      "{" ++ (fix go (l : list (string * jval)) : string :=
                match l with
                | [] => ""
                | (k, v) :: [] => "'" ++ k ++ "': " ++ jval_repr v
                | (k, v) :: rest => "'" ++ k ++ "': " ++ jval_repr v ++ ", " ++ go rest
                end) items ++ "}"
  end.

(** [str(a)]. *)
Definition jval_str (a : jval) : string :=
  match a with JStr s => s | _ => jval_repr a end.

(** [d.get(key)] on the items of a dict. *)
Fixpoint obj_get (key : string) (items : list (string * jval)) : option jval :=
  match items with
  | [] => None
  | (k, v) :: rest => if String.eqb k key then Some v else obj_get key rest
  end.

(** [key in v] for a str [key]: a key of a dict, an element of a list, a
    substring of a str; any other value is not iterable. *)
Definition py_in (key : string) (v : jval) : result bool :=
  match v with
  | JObj items => Ok (bool_decide (is_Some (obj_get key items)))
  | JArr items => Ok (existsb (fun x => jval_eqb x (JStr key)) items)
  | JStr s => Ok (bool_decide (is_Some (String.index 0 key s)))
  | JNum _ | JFloat _ _ | JBool _ | JNull => Raise TypeError
  end.

(** [v[key]] for a str [key]: the value under the key of a dict, or
    [KeyError]; a list and a str take integer indices only, and any other
    value is not subscriptable. *)
Definition py_getitem (v : jval) (key : string) : result jval :=
  match v with
  | JObj items =>
      match obj_get key items with
      | Some x => Ok x
      | None => Raise KeyError
      end
  | _ => Raise TypeError
  end.

(** [str] of a dict of strings (values without quotes or escapes). *)
Fixpoint repr_items (kvs : list (string * string)) : string :=
  match kvs with
  | [] => ""
  | [(k, v)] => "'" ++ k ++ "': '" ++ v ++ "'"
  | (k, v) :: rest => "'" ++ k ++ "': '" ++ v ++ "', " ++ repr_items rest
  end.
Definition repr_dict (kvs : list (string * string)) : string :=
  "{" ++ repr_items kvs ++ "}".

Section Client.

Variable settings : api.

(** The backend: its answer to the [n]-th request of this process. *)
Variable backend : nat -> request -> http_result.

(** [json.loads] on the text of a session response: the decoded value,
    or [None] when the text is not JSON. *)
Variable loads_session : string -> option jval.

(** The [try] block of [save_frame] on the text stored under [frame]:
    the file name stem and the decoded bytes it writes, or the text of
    the exception it catches. *)
Variable try_decode : string -> (string * string) + string.

Definition r_get (key : string) : M world (option string) :=
  emit (ERedis (RGet key)) ;;
  do c <- gets (fun w => redis (sh w));
  match c with
  | Down => throw ConnectionError
  | Up db => ret (db !! key)
  end.

Definition r_set (key value : string) : M world unit :=
  emit (ERedis (RSet key value)) ;;
  do c <- gets (fun w => redis (sh w));
  match c with
  | Down => throw ConnectionError
  | Up db => modify (with_redis (fun _ => Up (<[key := value]> db)))
  end.

Definition r_flushall : M world unit :=
  emit (ERedis RFlushAll) ;;
  do c <- gets (fun w => redis (sh w));
  match c with
  | Down => throw ConnectionError
  | Up _ => modify (with_redis (fun _ => Up ∅))
  end.

(** [requests.request('POST', url, headers=headers, data=payload)]. *)
Definition requests_post (req : request) : M world http_result :=
  do n <- gets requests;
  let res := backend n req in
  emit (EHttp req res) ;;
  modify (fun w => {| sh := sh w; thr := thr w; clock := clock w;
                      requests := S (requests w); trace := trace w |}) ;;
  ret res.

(** Lines 82-90: the login request. *)
Definition login_payload : list (string * string) :=
  [("apiKey", api_key settings);
   ("deviceType", api_dev_type settings);
   ("email", api_email settings);
   ("password", api_password settings)].

Definition login_request : request :=
  {| url := api_url settings ++ "system/session?embedded=user";
     headers := [];
     payload := login_payload |}.

(** Lines 73-125.  The pair [(-1, -1)] is the failure value. *)
Definition get_session_id : M world (jval * jval) :=
  let payload := login_payload in
  do response <- requests_post login_request;
  match response with
  | HTimeout e =>
      logger ERROR ("There was a Timeout error while sending the request to get the sessionId: " ++ e) ;;
      ret (JNum (-1), JNum (-1))
  | HRequestException e =>
      logger ERROR ("There was an error while sending the request to get the sessionId: " ++ e) ;;
      ret (JNum (-1), JNum (-1))
  | HException e =>
      logger ERROR ("There was an error while sending the request to get the sessionId: " ++ e) ;;
      ret (JNum (-1), JNum (-1))
  | HResponse status_code text =>
      if negb (status_code =? 200)%Z then
        logger ERROR ("An error happened when getting / creating session Id: " ++ text) ;;
        logger WARNING ("An error happened when getting / creating session id: " ++ text) ;;
        logger DEBUG ("payload: " ++ repr_dict payload) ;;
        ret (JNum (-1), JNum (-1))
      else
        match loads_session text with
        | None => throw JSONDecodeError
        | Some response_value =>
            do found <- lift (py_in "sessionId" response_value);
            if negb found then
              logger ERROR ("An error happened; No sessionId: " ++ text) ;;
              logger DEBUG ("payload: " ++ repr_dict payload) ;;
              ret (JNum (-1), JNum (-1))
            else
              do session_id <- lift (py_getitem response_value "sessionId");
              do user <- lift (py_getitem response_value "user");
              do user_id <- lift (py_getitem user "id");
              ret (session_id, user_id)
        end
  end.

(** Lines 127-152. *)
Definition save_frame : M world unit :=
  do frame <- r_get "frame";
  match frame with
  | Some f =>
      match try_decode f with
      | inl (stem, frame_decoded) =>
          emit (EFileWrite ("frames/" ++ stem ++ ".jpg") frame_decoded)
      | inr e => logger WARNING ("Save frame error: " ++ e)
      end ;;
      logger INFO "Successfully triggered the alarm"
  | None =>
      logger WARNING "No frame in Redis" ;;
      logger WARNING "Triggered the alarm without save frame"
  end.

(** Lines 154-171; falls off the end, returning [None], for a type that
    is neither ['alarm'] nor ['sos']. *)
Definition get_alarm_type (alarm_type : option string) : M world (option string) :=
  match alarm_type with
  | Some t =>
      if String.eqb t "alarm" then ret (Some (alarm_event_id settings))
      else if String.eqb t "sos" then ret (Some (sos_event_id settings))
      else ret None
  | None =>
      logger WARNING "Redis key trigger_msg was empty" ;;
      logger WARNING "Canceling the alarm triggering" ;;
      ret None
  end.

(** [str(x)] of an optional string, as an f-string renders it. *)
Definition fmt (o : option string) : string :=
  match o with Some s => s | None => "None" end.

(** [x == "literal"] for an optional string. *)
Definition is_str (o : option string) (lit : string) : bool :=
  match o with Some s => String.eqb s lit | None => false end.

(** Lines 204-211: the episode request for an event, under a session. *)
Definition episode_request (event_id : option string) (session_id : jval) : request :=
  {| url := api_url settings ++ "events/" ++ fmt event_id ++ "/episodes";
     headers := [("sessionId", jval_str session_id)];
     payload := [("message", "Es wurde eingebrochen")] |}.

(** Lines 173-244. *)
Definition activate_alarm (alarm_type : option string) : M world unit :=
  logger DEBUG "Preparing alarm request" ;;
  do event_id <- get_alarm_type alarm_type;
  do again <- get_alarm_type alarm_type;
  match again with
  | None =>
      print [PStr "Event not defined"] ;;
      logger DEBUG "Trigger_msg not recognized" ;;
      match alarm_type with
      | Some t => logger DEBUG ("Trigger_msg was: " ++ t)
      | None => throw TypeError
      end ;;
      logger DEBUG "Canceling the alarm triggering because of event"
  | Some _ =>
      do session <- get_session_id;
      let (session_id, user_id) := session in
      if jval_eqb session_id (JNum (-1)) then
        logger ERROR "Could not get Session Id from IS API" ;;
        logger ERROR "Canceling the alarm triggering"
      else
        let payload := payload (episode_request event_id session_id) in
        logger DEBUG "Now sending alarm request" ;;
        do response <- requests_post (episode_request event_id session_id);
        match response with
        | HTimeout e =>
            logger ERROR ("There was a Timeout error while sending alarm request: " ++ e)
        | HRequestException e =>
            logger ERROR ("There was an error while sending the alarm request: " ++ e)
        | HException e =>
            (* this handler does not return: [response] is still None
               when [response.status_code] is read *)
            logger ERROR ("There was a general error while sending the alarm requests" ++ e) ;;
            throw AttributeError
        | HResponse status_code text =>
            if negb ((status_code =? 200)%Z || (status_code =? 201)%Z) then
              if (status_code =? 400)%Z then
                logger DEBUG "Alarm is still active"
              else
                logger WARNING "An error happened when creating alarm request!" ;;
                logger DEBUG ("payload: " ++ repr_dict payload)
            else
              save_frame
        end
  end.

(** Lines 46-71. *)
Definition check_alarm_queue (alarm_system_status : string) : M world unit :=
  set_alarm_system_status (Some alarm_system_status) ;;
  do v <- r_get "trigger_dev";
  set_sensor_activator v ;;
  do status <- gets (fun w => Thr.alarm_system_status (thr w));
  do activator <- gets (fun w => Thr.sensor_activator (thr w));
  if is_str status "alarm" && bool_decide (is_Some activator) then
    logger INFO ("Alarmsystem is active and a movement was detected at the "
                 ++ fmt activator ++ " door") ;;
    activate_alarm (Some "alarm")
  else if is_str status "sos" then
    logger INFO "SOS alarm was sent!" ;;
    activate_alarm (Some "sos")
  else ret tt.

(** A session body from which the client reads a session id and a user
    id: a JSON object with [sid] under "sessionId" and, under "user", an
    object with [uid] under "id". *)
Definition reads_session (text : string) (sid uid : jval) : Prop :=
  exists body user,
    loads_session text = Some (JObj body) /\
    obj_get "sessionId" body = Some sid /\
    obj_get "user" body = Some (JObj user) /\
    obj_get "id" user = Some uid.

(** A decoded body in which the test for "sessionId" finds nothing: a
    dict without that key, a list without that element, a str without
    that substring. *)
Definition without_session (v : jval) : Prop :=
  match v with
  | JObj items => obj_get "sessionId" items = None
  | JArr items => Forall (fun x => x <> JStr "sessionId") items
  | JStr s => String.index 0 "sessionId" s = None
  | _ => False
  end.

(** The bodies at which the reading of the session raises, with the
    exception: a text that is not JSON; a number, a bool or [null], on
    which [in] is not defined; a list or a str that holds "sessionId",
    which take no str subscript; a dict with "sessionId" and without
    "user"; a dict whose "user" is not a dict; a dict whose "user" is a
    dict without "id". *)
Inductive unreadable : option jval -> exn -> Prop :=
| not_json : unreadable None JSONDecodeError
| not_iterable v :
    match v with JNum _ | JFloat _ _ | JBool _ | JNull => True | _ => False end ->
    unreadable (Some v) TypeError
| list_with_session items :
    In (JStr "sessionId") items -> unreadable (Some (JArr items)) TypeError
| str_with_session s n :
    String.index 0 "sessionId" s = Some n -> unreadable (Some (JStr s)) TypeError
| without_user items sid :
    obj_get "sessionId" items = Some sid -> obj_get "user" items = None ->
    unreadable (Some (JObj items)) KeyError
| user_not_a_dict items sid user :
    obj_get "sessionId" items = Some sid -> obj_get "user" items = Some user ->
    match user with JObj _ => False | _ => True end ->
    unreadable (Some (JObj items)) TypeError
| user_without_id items sid user :
    obj_get "sessionId" items = Some sid -> obj_get "user" items = Some (JObj user) ->
    obj_get "id" user = None ->
    unreadable (Some (JObj items)) KeyError.

(** The two kinds with an event id, and a login that the backend accepts
    with a usable session id, as the next request of the process. *)
Definition event_of (alarm_type event_id : string) : Prop :=
  (alarm_type = "alarm" /\ event_id = alarm_event_id settings) \/
  (alarm_type = "sos" /\ event_id = sos_event_id settings).

Definition accepted (w : world) (text : string) (sid uid : jval) : Prop :=
  backend (requests w) login_request = HResponse 200 text /\
  reads_session text sid uid /\
  jval_eqb sid (JNum (-1)) = false.

(** The effects of a submission up to the answer to the episode POST. *)
Definition submitted (w : world) (text : string) (event_id : string) (sid : jval)
    (res : http_result) : list event :=
  [ELog DEBUG "Preparing alarm request";
   EHttp login_request (HResponse 200 text);
   ELog DEBUG "Now sending alarm request";
   EHttp (episode_request (Some event_id) sid) res].

(** The world after a check that called for no alarm, on a store [db]. *)
Definition checked (status : string) (db : gmap string string) (w : world) : world :=
  {| sh := sh w;
     thr := {| Thr.alarm_status := Thr.alarm_status (thr w);
               Thr.alarm_status_old := Thr.alarm_status_old (thr w);
               Thr.sensor_activator := db !! "trigger_dev";
               Thr.alarm_system_status := Some status |};
     clock := clock w; requests := requests w;
     trace := (trace w ++ [ERedis (RGet "trigger_dev")])%list |}.

(** Lines 246-262. *)
Definition clear_redis : M world unit :=
  r_flushall ;;
  logger DEBUG "Redis was cleared".

Definition set_status (new_status : Z) : M world unit :=
  r_set "trigger_status" (str new_status) ;;
  logger DEBUG ("Status was updated to " ++ str new_status).

End Client.

End Instasolution.

(** ** pinGui/threads.py: the dispatch worker *)

Module Threads.

Section Worker.

Variable settings : Instasolution.api.
Variable backend : nat -> request -> http_result.
Variable loads_session : string -> option Instasolution.jval.
Variable try_decode : string -> (string * string) + string.

(** What the panel threads and the camera process do to the shared
    state while the worker waits. *)
Variable others : Z -> Z -> shared -> shared.

Definition check_alarm_queue : string -> M world unit :=
  Instasolution.check_alarm_queue settings backend loads_session try_decode.

(** Lines 47-57: the command taken from the queue, if there is one. *)
Definition take_command : M world unit :=
  do q <- gets (fun w => alarm_queue (sh w));
  match q with
  | [] => ret tt
  | status :: rest =>
      modify (with_queue (fun _ => rest)) ;;
      if String.eqb status "sos" then
        do cur <- gets (fun w => Thr.alarm_status (thr w));
        set_alarm_status_old cur ;;
        set_thr_alarm_status status ;;
        do a <- gets (fun w => Thr.alarm_status (thr w));
        check_alarm_queue a ;;
        do old <- gets (fun w => Thr.alarm_status_old (thr w));
        set_thr_alarm_status old
      else
        set_thr_alarm_status status
  end.

(** The world in which the check of an SOS command taken from the queue
    begins: the queue is [rest], the standing command is remembered in
    [alarm_status_old] and "sos" is current. *)
Definition sos_taken (w : world) (rest : list string) : world :=
  {| sh := {| gui := gui (sh w); alarm_queue := rest;
              stop_event := stop_event (sh w); redis := redis (sh w) |};
     thr := {| Thr.alarm_status := "sos";
               Thr.alarm_status_old := Thr.alarm_status (thr w);
               Thr.sensor_activator := Thr.sensor_activator (thr w);
               Thr.alarm_system_status := Thr.alarm_system_status (thr w) |};
     clock := clock w; requests := requests w; trace := trace w |}.

(** Lines 47-59: the body of the [while] loop of [run]. *)
Definition run_body : M world unit :=
  take_command ;;
  do a <- gets (fun w => Thr.alarm_status (thr w));
  check_alarm_queue a.

(** The first millisecond of a wait of [d] that starts at [t] in the
    shared state [s] at which the others have set the stop event. *)
Definition woken (t d : Z) (s : shared) : option Z :=
  List.find (fun e => stop_event (others t e s))
            (map Z.of_nat (seq 0 (S (Z.to_nat d)))).

(** [self.stop_event.wait(timeout)]: [True] at once when the event is
    set; else the others run, and the wait ends with [True] as soon as
    they set the event, or with [False] when the timeout has passed. *)
Definition stop_event_wait (d : Z) : M world bool :=
  do set <- gets (fun w => stop_event (sh w));
  if set : bool then ret true
  else
    do t <- gets clock;
    do s <- gets sh;
    match woken t d s with
    | Some e => pass_time others e ;; ret true
    | None => pass_time others d ;; ret false
    end.

(** Line 45: [while not self.stop_event.wait(1)], for at most [n]
    iterations. *)
Fixpoint run (n : nat) : M world unit :=
  match n with
  | O => ret tt
  | S n' =>
      do stop <- stop_event_wait 1000;
      if stop : bool then ret tt else run_body ;; run n'
  end.

(** Lines 61-73. *)
Definition flusher : M world unit := Instasolution.clear_redis.

Definition change_status (new_status : Z) : M world unit :=
  Instasolution.set_status new_status.

End Worker.

End Threads.

(** ** pinGui/main.py: the control panel *)

Module PinGui.

(** [settings["Passwords"]]: the three bcrypt hashes. *)
Record passwords : Type := {
  on_off : string;
  silent : string;
  resize : string
}.

Definition digits : list string :=
  ["1"; "2"; "3"; "4"; "5"; "6"; "7"; "8"; "9"; "0"].

Definition is_digit (key : string) : bool := existsb (String.eqb key) digits.

Definition len (s : string) : Z := Z.of_nat (String.length s).

(** The bound on the PIN buffer, and the computations that keep it. *)
Definition pin_ok (s : shared) : Prop :=
  (String.length (Gui.pin_entry (gui s)) <= 4)%nat.

Definition bounded {A} (m : M world A) : Prop :=
  forall w, pin_ok (sh w) -> pin_ok (sh (snd (m w))).

(** The trace of the nine ticks of a countdown. *)
Definition ticks (l : list nat) : list event :=
  flat_map (fun i => [EPrint [PInt (Z.of_nat i)]; ESleep 1000]) l.

(** [threading.Thread(target=m).start()]: the thread runs [m]; an
    exception it raises ends that thread only. *)
Definition thread_start (m : M world unit) : M world unit :=
  fun w => match m w with
           | (Ok _, w') => (Ok tt, w')
           | (Raise e, w') => emit (EThreadDied e) w'
           end.

Section Panel.

Variable pw : passwords.

(** [bcrypt.verify(secret, hash)]: [None] when it raises. *)
Variable verify : string -> string -> option bool.

(** What the other threads (key presses on the main thread, other
    [compare_pin] threads, the worker) and the camera process do to the
    shared state while the running thread sleeps. *)
Variable others : Z -> Z -> shared -> shared.

Definition bcrypt_verify (secret hash : string) : M world bool :=
  match verify secret hash with
  | Some b => ret b
  | None => throw ValueError
  end.

(** Lines 462-480. *)
Definition toggle_full_screen : M world unit :=
  do st <- self Gui.full_screen_state;
  set_fullscreen st ;;
  set_full_screen_state false.

Definition quit_full_screen : M world unit :=
  do st <- self Gui.full_screen_state;
  set_fullscreen st ;;
  set_full_screen_state true.

(** Lines 448-460. *)
Definition change_screen_state : M world unit :=
  do st <- self Gui.full_screen_state;
  if st : bool then
    toggle_full_screen ;;
    print [PStr "entry full screen"]
  else
    do st' <- self Gui.full_screen_state;
    when (negb st')
      (quit_full_screen ;;
       print [PStr "esc full screen"] ;;
       logger DEBUG "esc full screen").

(** Lines 408-426. *)
Definition start_redis_script (alarm_kind : string) : M world unit :=
  Threads.flusher ;;
  modify (with_queue (fun q => (q ++ [alarm_kind])%list)) ;;
  do st <- self Gui.full_screen_state;
  when st toggle_full_screen ;;
  Threads.change_status 1 ;;
  logger INFO "alarm system started".

(** Lines 428-432. *)
Definition start_sos : M world unit :=
  modify (with_queue (fun q => (q ++ ["sos"])%list)) ;;
  logger INFO "sos alarm was send".

(** Lines 434-446. *)
Definition stop_redis_script : M world unit :=
  modify (with_queue (fun q => (q ++ [""])%list)) ;;
  status_bar_configure camera_off ;;
  Threads.change_status 0 ;;
  logger WARNING "alarm system stopped".

(** Lines 490-503: the preparation and the countdown.  [range(1, 10)]
    is [1 .. 9]; a tick is [time.sleep(1)]. *)
Definition countdown : M world unit :=
  set_pin_entry "" ;;
  display_configure stars_g ;;
  do c <- self Gui.cooldown_counter;
  set_cooldown_counter (c + 1) ;;
  for_each (seq 1 9) (fun i =>
    print [PInt (Z.of_nat i)] ;;
    progress_configure i ;;
    time_sleep others 1000 ;;
    when (Nat.eqb i 9) (progress_configure 0)).

(** Lines 482-516. *)
Definition do_cooldown : M world bool :=
  countdown ;;
  do stop <- self Gui.stop_cooldown;
  if negb stop then
    print [PStr "cooldown done"] ;;
    set_stop_cooldown false ;;
    set_cooldown_counter 0 ;;
    ret true
  else
    print [PStr "cooldown quit"] ;;
    set_stop_cooldown false ;;
    set_cooldown_counter 0 ;;
    ret false.

(** Lines 345-406. *)
Definition compare_pin : M world unit :=
  do pin <- self Gui.pin_entry;
  do m1 <- bcrypt_verify pin (on_off pw);
  (if m1 : bool then
     do active <- self Gui.alarm_status;
     if active : bool then
       print [PStr "alarm_status was True"] ;;
       stop_redis_script ;;
       set_alarm_status false ;;
       print [PStr "alarm system stopped"]
     else
       do active' <- self Gui.alarm_status;
       when (negb active')
         (print [PStr "alarm_status was False"] ;;
          do c <- self Gui.cooldown_counter;
          print [PStr "stop_cooldown"; PInt c] ;;
          do c' <- self Gui.cooldown_counter;
          if (c' <=? 0)%Z then
            do r <- do_cooldown;
            set_cooldown r ;;
            do cd <- self Gui.cooldown;
            if cd : bool then
              start_redis_script "alarm" ;;
              status_bar_configure camera_on ;;
              set_alarm_status true ;;
              print [PStr "alarm system started"]
            else
              print [PStr "alarm system was`t started"]
          else
            set_stop_cooldown true ;;
            set_cooldown_counter 0 ;;
            display_configure stars_0 ;;
            status_bar_configure camera_off ;;
            print [PStr "stop cooldown"])
   else
     do pin2 <- self Gui.pin_entry;
     do m2 <- bcrypt_verify pin2 (silent pw);
     if m2 : bool then
       start_sos ;;
       logger INFO "SOS alarm sent" ;;
       progress_configure 5 ;;
       time_sleep others 500 ;;
       progress_configure 9 ;;
       time_sleep others 1000 ;;
       progress_configure 0 ;;
       print [PStr "send sos alarm!"]
     else
       do pin3 <- self Gui.pin_entry;
       do m3 <- bcrypt_verify pin3 (resize pw);
       if m3 : bool then
         change_screen_state
       else
         print [PStr "all wrong"] ;;
         display_configure stars_r ;;
         time_sleep others 1000) ;;
  display_configure stars_0 ;;
  set_pin_entry "".

(** Lines 297-343. *)
Definition pressed (pressed_key : string) : M world unit :=
  if is_digit pressed_key then
    do n0 <- self (fun g => len (Gui.pin_entry g));
    when (n0 =? 0)%Z (display_configure stars_1) ;;
    do n1 <- self (fun g => len (Gui.pin_entry g));
    when (n1 =? 1)%Z (display_configure stars_2) ;;
    do n2 <- self (fun g => len (Gui.pin_entry g));
    when (n2 =? 2)%Z (display_configure stars_3) ;;
    do n3 <- self (fun g => len (Gui.pin_entry g));
    when (n3 =? 3)%Z (display_configure stars_4) ;;
    do n4 <- self (fun g => len (Gui.pin_entry g));
    when (3 <? n4)%Z
      (display_configure stars_r ;;
       set_pin_entry "" ;;
       display_configure stars_1) ;;
    do cur <- self Gui.pin_entry;
    set_pin_entry (cur ++ pressed_key)
  else if String.eqb pressed_key "del" then
    display_configure stars_0 ;;
    set_pin_entry ""
  else if String.eqb pressed_key "ok" then
    thread_start compare_pin
  else ret tt.

(** Lines 518-533.  [insta_thread.join()] blocks, for [join_ms], while the
    worker comes to its end; [root.destroy()] closes the window, of which
    the model keeps no state. *)
Definition on_closing (join_ms : Z) : M world unit :=
  stop_redis_script ;;
  modify (with_stop_event (fun _ => true)) ;;
  pass_time others join_ms ;;
  logger WARNING "alarm app was stopped" ;;
  print [PStr "deactivate alarm system before exit"].

(** A sequence of key presses, each handled to completion. *)
Definition press_all (keys : list string) : M world unit :=
  for_each keys pressed.

End Panel.

End PinGui.

(** ** Concrete situations used by the examples below *)

Module Scenario.

(** Nothing else acts on the shared state. *)
Definition idle {S : Type} : Z -> Z -> S -> S := fun _ _ s => s.

(** A camera setup: a quiet window of 10 s, one person in every image,
    an inference of [ms] milliseconds. *)
Definition one_person (img : CameraSensor.image) : list CameraSensor.detection :=
  [ {| CameraSensor.label := "person"; CameraSensor.box := (10, 20, 30, 40) |} ].

Definition armed_store : conn := Up {[ "trigger_status" := "1" ]}.
Definition disarmed_store : conn := Up {[ "trigger_status" := "0" ]}.

Definition camera_world (r : conn) : CameraSensor.world :=
  {| CameraSensor.redis := r; CameraSensor.clock := 0; CameraSensor.trace := [] |}.

Definition detect (ms : Z) (others : Z -> Z -> conn -> conn) :=
  CameraSensor.detect_person 10000 "front" others (fun _ => ms) one_person
    (fun img _ => img) (fun img => "QUJD") (fun _ => "2021_06_01_12_00_00") "img".

Definition save (others : Z -> Z -> conn -> conn) :=
  CameraSensor.save_image 10000 "front" others
    (fun img => "QUJD") (fun _ => "2021_06_01_12_00_00") "img".

(** The panel disarms while the monitor waits. *)
Definition disarm_meanwhile : Z -> Z -> conn -> conn :=
  fun _ _ _ => disarmed_store.

(** Three detections in one image, two of them persons. *)
Definition two_persons (img : CameraSensor.image) : list CameraSensor.detection :=
  [ {| CameraSensor.label := "person"; CameraSensor.box := (10, 20, 30, 40) |};
    {| CameraSensor.label := "dog"; CameraSensor.box := (50, 60, 20, 20) |};
    {| CameraSensor.label := "person"; CameraSensor.box := (90, 20, 30, 40) |} ].

Definition no_person (img : CameraSensor.image) : list CameraSensor.detection :=
  [ {| CameraSensor.label := "dog"; CameraSensor.box := (50, 60, 20, 20) |};
    {| CameraSensor.label := "chair"; CameraSensor.box := (0, 0, 20, 40) |} ].

Definition poll_with (kept : CameraSensor.image -> list CameraSensor.detection)
    (n : nat) (l : CameraSensor.locals) :=
  CameraSensor.main_loop 10000 "front" idle (fun _ => Some "img") (fun _ => 300)
    kept (fun img _ => img) (fun img => "QUJD")
    (fun _ => "2021_06_01_12_00_00") n l.

Definition detect_with (kept : CameraSensor.image -> list CameraSensor.detection) :=
  CameraSensor.detect_person 10000 "front" idle (fun _ => 300) kept
    (fun img _ => img) (fun img => "QUJD") (fun _ => "2021_06_01_12_00_00") "img".

(** The store goes away while the monitor waits. *)
Definition store_lost : Z -> Z -> conn -> conn := fun _ _ _ => Down.

(** The store is flushed while the monitor waits. *)
Definition flushed_meanwhile : Z -> Z -> conn -> conn := fun _ _ _ => Up ∅.

Definition poll (n : nat) (l : CameraSensor.locals) :=
  CameraSensor.main_loop 10000 "front" idle (fun _ => Some "img") (fun _ => 300)
    one_person (fun img _ => img) (fun img => "QUJD")
    (fun _ => "2021_06_01_12_00_00") n l.

(** The panel process: backend addresses and event ids, a backend that
    accepts every login and answers every episode POST with one status, a
    session body with an id, a frame that decodes. *)
Definition api0 : Instasolution.api :=
  {| Instasolution.api_url := "https://backend.example/api/";
     Instasolution.api_key := "key";
     Instasolution.api_dev_type := "panel";
     Instasolution.api_email := "guard@example.org";
     Instasolution.api_password := "secret";
     Instasolution.alarm_event_id := "17";
     Instasolution.sos_event_id := "18" |}.

Definition backend_with (episode_status : Z) : nat -> request -> http_result :=
  fun _ req =>
    if String.eqb (url req) (url (Instasolution.login_request api0))
    then HResponse 200 "session"
    else HResponse episode_status "".

(** A backend that accepts every login and gives [episode] for every
    episode POST; a backend that times out on everything. *)
Definition backend_reply (episode : http_result) : nat -> request -> http_result :=
  fun _ req =>
    if String.eqb (url req) (url (Instasolution.login_request api0))
    then HResponse 200 "session"
    else episode.

Definition backend_timeout : nat -> request -> http_result :=
  fun _ _ => HTimeout "read timed out".

(** Session bodies: without a session id, not JSON, without a user id. *)
Definition body_without_session (text : string) : option Instasolution.jval :=
  Some (Instasolution.JObj [("message", Instasolution.JStr "unknown device")]).

Definition body_not_json (text : string) : option Instasolution.jval := None.

Definition body_without_user (text : string) : option Instasolution.jval :=
  Some (Instasolution.JObj [("sessionId", Instasolution.JStr "S1")]).

(** More session bodies: the JSON text [null]; an error text that quotes
    the missing key; a session whose user is [null]. *)
Definition body_null (text : string) : option Instasolution.jval :=
  Some Instasolution.JNull.

Definition body_quoting_key (text : string) : option Instasolution.jval :=
  Some (Instasolution.JStr "sessionId expired").

Definition body_with_null_user (text : string) : option Instasolution.jval :=
  Some (Instasolution.JObj [("sessionId", Instasolution.JStr "S1");
                            ("user", Instasolution.JNull)]).

(** A frame text that does not decode. *)
Definition decode_bad (text : string) : (string * string) + string :=
  inr "Incorrect padding".

Definition session_body (text : string) : option Instasolution.jval :=
  Some (Instasolution.JObj
          [("sessionId", Instasolution.JStr "S1");
           ("user", Instasolution.JObj [("id", Instasolution.JNum 7)])]).

Definition decode_ok (text : string) : (string * string) + string :=
  inl ("2021_06_01_12_00_00", "jpeg bytes").

(** The store after the camera published a detection. *)
Definition detection_store : conn :=
  Up (<["frame" := CameraSensor.frame_json "2021_06_01_12_00_00" "QUJD"]>
        (<["trigger_dev" := "front"]> {[ "trigger_status" := "1" ]})).

(** The worker with a standing command and a queue. *)
Definition worker_world (standing : string) (queue : list string) (r : conn) : world :=
  with_queue (fun _ => queue)
    (with_thr (fun t => {| Thr.alarm_status := standing;
                           Thr.alarm_status_old := Thr.alarm_status_old t;
                           Thr.sensor_activator := Thr.sensor_activator t;
                           Thr.alarm_system_status := Thr.alarm_system_status t |})
       (initial r)).

Definition tick (episode_status : Z) : M world unit :=
  Threads.run_body api0 (backend_with episode_status) session_body decode_ok.

(** The panel: three hashes, a verifier under which "1234" arms and
    disarms, "9999" is the SOS PIN and "0000" toggles the screen, and a
    verifier that raises on every hash (the configured hashes are not
    bcrypt hashes). *)
Definition hashes : PinGui.passwords :=
  {| PinGui.on_off := "$2b$on_off"; PinGui.silent := "$2b$silent";
     PinGui.resize := "$2b$resize" |}.

Definition verifier (secret hash : string) : option bool :=
  if String.eqb hash "$2b$on_off" then Some (String.eqb secret "1234")
  else if String.eqb hash "$2b$silent" then Some (String.eqb secret "9999")
  else Some (String.eqb secret "0000").

Definition broken_verifier (secret hash : string) : option bool := None.

(** The panel with a PIN typed in, armed or not, with [counter]
    countdowns under way. *)
Definition panel_world (pin : string) (armed : bool) (counter : Z) (r : conn) : world :=
  with_gui (fun g => {| Gui.pin_entry := pin; Gui.cooldown := Gui.cooldown g;
                        Gui.cooldown_counter := counter;
                        Gui.stop_cooldown := Gui.stop_cooldown g;
                        Gui.alarm_status := armed;
                        Gui.full_screen_state := Gui.full_screen_state g;
                        Gui.fullscreen := Gui.fullscreen g;
                        Gui.display := Gui.display g;
                        Gui.status_bar := Gui.status_bar g;
                        Gui.progress := Gui.progress g |})
    (initial r).

Definition press (verify : string -> string -> option bool)
    (others : Z -> Z -> shared -> shared) (keys : list string) : M world unit :=
  PinGui.press_all hashes verify others keys.

(** The operator enters the PIN again and confirms during the sleep that
    starts at time [t0]. *)
Definition reconfirm_at (t0 : Z) : Z -> Z -> shared -> shared :=
  fun t d s =>
    if (t =? t0)%Z then
      sh (snd (press verifier idle ["1"; "2"; "3"; "4"; "ok"]
                 {| sh := s; thr := initial_thr; clock := t;
                    requests := 0%nat; trace := [] |}))
    else s.

End Scenario.

(** ** Facts about the monad *)

Local Open Scope list_scope.

Module PyFacts.

Lemma bind_ok {W A B} (m : M W A) (k : A -> M W B) w a w1 :
  m w = (Ok a, w1) -> bind m k w = k a w1.
Proof. intros H. unfold bind. now rewrite H. Qed.

(** A sequence that returns went through both of its parts. *)
Lemma bind_ok_inv {W A B} (m : M W A) (k : A -> M W B) w b w2 :
  bind m k w = (Ok b, w2) ->
  exists a w1, m w = (Ok a, w1) /\ k a w1 = (Ok b, w2).
Proof.
  unfold bind. destruct (m w) as [[a|e] w1]; intros H.
  - exists a, w1. auto.
  - discriminate.
Qed.

Lemma bind_assoc {W A B C} (m : M W A) (f : A -> M W B) (g : B -> M W C) w :
  bind (bind m f) g w = bind m (fun x => bind (f x) g) w.
Proof. unfold bind. destruct (m w) as [[a|e] w1]; reflexivity. Qed.

Lemma sleeps_app t u : sleeps (t ++ u) = sleeps t ++ sleeps u.
Proof. unfold sleeps. apply flat_map_app. Qed.

Lemma writes_app t u : writes (t ++ u) = writes t ++ writes u.
Proof. unfold writes. apply flat_map_app. Qed.

Lemma logged_app l t u : logged l (t ++ u) = logged l t ++ logged l u.
Proof. unfold logged. apply flat_map_app. Qed.

Lemma persistence_app t u : persistence (t ++ u) = persistence t ++ persistence u.
Proof. unfold persistence. apply List.filter_app. Qed.

Lemma sent_app t u : sent (t ++ u) = sent t ++ sent u.
Proof. unfold sent. apply flat_map_app. Qed.

Lemma store_ops_app t u : store_ops (t ++ u) = store_ops t ++ store_ops u.
Proof. unfold store_ops. apply flat_map_app. Qed.

End PyFacts.

(** ** Properties of the presence monitor *)

Module CameraSensorProofs.

Import CameraSensor PyFacts.

Section Gate.

Variables (timeout : Z) (device_name : string) (others : Z -> Z -> conn -> conn).
Variables (jpg_b64 : image -> string) (strftime : Z -> string).

(** The wait of the gate never raises; it sleeps the whole quiet window
    when that is not negative, and not at all otherwise. *)
Lemma gate_wait_spec w :
  gate_wait timeout others w =
    (Ok tt,
     if (0 <=? timeout)%Z then
       {| redis := others (clock w) timeout (redis w);
          clock := clock w + timeout;
          trace := trace w ++ [EPrint [PStr "Wait timeout"]; ESleep timeout; EPrint [PInt 0]] |}
     else
       {| redis := redis w; clock := clock w;
          trace := trace w ++ [EPrint [PStr "Wait timeout"]; EPrint [PInt 0]] |}).
Proof.
  unfold gate_wait, runtime. rewrite Z.sub_0_r.
  unfold when, time_sleep, pass_time, print, emit, bind, modify, ret.
  destruct (0 <=? timeout)%Z; cbn; rewrite <- !app_assoc; reflexivity.
Qed.

(** The sleep of the gate does not depend on the inference: no duration
    of [net.forward] is among the arguments of [gate_wait]. *)
Lemma gate_wait_sleeps w :
  sleeps (trace (snd (gate_wait timeout others w))) =
    sleeps (trace w) ++ (if (0 <=? timeout)%Z then [timeout] else []).
Proof.
  rewrite gate_wait_spec. cbn [snd].
  destruct (0 <=? timeout)%Z; cbn [trace]; rewrite sleeps_app; reflexivity.
Qed.

Lemma gate_wait_ok w : fst (gate_wait timeout others w) = Ok tt.
Proof. now rewrite gate_wait_spec. Qed.

Lemma gate_wait_writes w :
  writes (trace (snd (gate_wait timeout others w))) = writes (trace w).
Proof.
  rewrite gate_wait_spec. cbn [snd].
  destruct (0 <=? timeout)%Z; cbn [trace]; rewrite writes_app; cbn; apply app_nil_r.
Qed.

Lemma gate_wait_logged l w :
  logged l (trace (snd (gate_wait timeout others w))) = logged l (trace w).
Proof.
  rewrite gate_wait_spec. cbn [snd].
  destruct (0 <=? timeout)%Z; cbn [trace]; rewrite logged_app; cbn; apply app_nil_r.
Qed.

(** C4.  After the wait of the debounce gate the armed status is read
    again from the store as it is then.  When the value read is not 1,
    [save_image] writes nothing (the store is left as found, no [set] is
    sent) and logs that a person was detected but the system was
    deactivated; when it is 1, it writes the device identity and then
    the frame, in that order. *)
Theorem save_image_rereads_status img w db b v :
  let w1 := snd (gate_wait timeout others w) in
  let frame := frame_json (strftime (clock w1)) (jpg_b64 img) in
  let out := save_image timeout device_name others jpg_b64 strftime img w in
  redis w1 = Up db ->
  db !! "trigger_status" = Some b ->
  literal_eval b = Ok v ->
  fst out = Ok tt /\
  if (v =? 1)%Z then
    redis (snd out) = Up (<["frame" := frame]> (<["trigger_dev" := device_name]> db)) /\
    writes (trace (snd out)) =
      writes (trace w) ++ [("trigger_dev", device_name); ("frame", frame)] /\
    logged INFO (trace (snd out)) = logged INFO (trace w) ++ ["Frame saved to redis."]
  else
    redis (snd out) = Up db /\
    writes (trace (snd out)) = writes (trace w) /\
    logged INFO (trace (snd out)) =
      logged INFO (trace w) ++ ["Person was detected, but system was deactivated"].
Proof.
  intros w1 frame out Hup Hkey Hlit.
  pose proof (gate_wait_ok w) as Hok.
  pose proof (gate_wait_writes w) as Hw.
  pose proof (gate_wait_logged INFO w) as Hl.
  subst out. unfold save_image.
  destruct (gate_wait timeout others w) as [r1 w1'] eqn:Hg.
  cbn [fst snd] in *. subst r1 w1.
  rewrite (bind_ok _ _ _ _ _ Hg).
  destruct w1' as [rd ck tr]. cbn [redis clock trace] in *. subst rd.
  unfold read_status, r_get, r_set, time_time, print, logger, emit,
    bind, modify, gets, ret, throw.
  cbn [redis clock trace fst snd]. rewrite Hkey, Hlit.
  destruct (v =? 1)%Z; cbn [redis clock trace fst snd];
    rewrite ?writes_app, ?logged_app, Hw, Hl; cbn;
    rewrite ?app_nil_r, <- ?app_assoc; auto.
Qed.

End Gate.

(** The panel disarms during the wait: nothing is published.  The store
    still says armed after the wait: device identity, then frame. *)
Lemma save_image_rereads_status_witness :
  (let out := Scenario.save Scenario.disarm_meanwhile
                (Scenario.camera_world Scenario.armed_store) in
   fst out = Ok tt /\
   redis (snd out) = Scenario.disarmed_store /\
   writes (trace (snd out)) = [] /\
   logged INFO (trace (snd out)) = ["Person was detected, but system was deactivated"]) /\
  (let out := Scenario.save Scenario.idle
                (Scenario.camera_world Scenario.armed_store) in
   fst out = Ok tt /\
   writes (trace (snd out)) =
     [("trigger_dev", "front");
      ("frame", frame_json "2021_06_01_12_00_00" "QUJD")]).
Proof.
  split.
  - exact (save_image_rereads_status 10000 "front" Scenario.disarm_meanwhile
             (fun _ => "QUJD") (fun _ => "2021_06_01_12_00_00") "img"
             (Scenario.camera_world Scenario.armed_store)
             {[ "trigger_status" := "0" ]} "0" 0 eq_refl eq_refl eq_refl).
  - pose proof (save_image_rereads_status 10000 "front" Scenario.idle
             (fun _ => "QUJD") (fun _ => "2021_06_01_12_00_00") "img"
             (Scenario.camera_world Scenario.armed_store)
             {[ "trigger_status" := "1" ]} "1" 1 eq_refl eq_refl eq_refl) as H.
    cbv zeta in H. cbn [Z.eqb Pos.eqb] in H.
    destruct H as (H1 & _ & H2 & _). split; [exact H1 | exact H2].
Defined.

(** C3 (the code departs from the claim).  The quiet window is 10 s.  An
    inference of 12 s is followed by a sleep of the whole 10 s, where the
    claim has no sleep; an inference of 3 s is followed by a sleep of 10 s,
    where the claim has 7 s.  The duration measured in [detect_person] is
    a local of that function, and [save_image] reads the module-level
    [runtime], which stays 0. *)
Theorem detect_person_sleeps_whole_window :
  (let out := Scenario.detect 12000 Scenario.idle
                (Scenario.camera_world Scenario.armed_store) in
   fst out = Ok tt /\ sleeps (trace (snd out)) = [10000] /\ clock (snd out) = 22000) /\
  (let out := Scenario.detect 3000 Scenario.idle
                (Scenario.camera_world Scenario.armed_store) in
   fst out = Ok tt /\ sleeps (trace (snd out)) = [10000] /\ clock (snd out) = 13000).
Proof. vm_compute. repeat split. Qed.


Section Polling.

Variables (timeout : Z) (device_name : string) (others : Z -> Z -> conn -> conn).
Variables (video_read : Z -> option image) (forward_ms : image -> Z).
Variables (kept : image -> list detection) (draw : image -> Z * Z * Z * Z -> image).
Variables (jpg_b64 : image -> string) (strftime : Z -> string).


End Polling.


End CameraSensorProofs.


(** ** Properties of the remote alarm client *)

Module ClientProofs.

Import Instasolution PyFacts.

Lemma frame_refl w : frame w w.
Proof. unfold frame. repeat split. exists []. now rewrite app_nil_r. Qed.

Lemma frame_trans w1 w2 w3 : frame w1 w2 -> frame w2 w3 -> frame w1 w3.
Proof.
  intros (Hs & Hc & Ha & Ho & t & Ht) (Hs' & Hc' & Ha' & Ho' & t' & Ht').
  unfold frame. repeat split; try congruence.
  exists (t ++ t'). rewrite Ht', Ht. now rewrite app_assoc.
Qed.

Lemma keeps_ret {A} (a : A) : keeps (ret a).
Proof. intros w. apply frame_refl. Qed.

Lemma keeps_throw {A} e : keeps (@throw world A e).
Proof. intros w. apply frame_refl. Qed.

Lemma keeps_gets {A} (f : world -> A) : keeps (gets f).
Proof. intros w. apply frame_refl. Qed.

Lemma keeps_lift {A} (r : result A) : keeps (lift r).
Proof. intros w. apply frame_refl. Qed.

Lemma keeps_bind {A B} (m : M world A) (k : A -> M world B) :
  keeps m -> (forall a, keeps (k a)) -> keeps (bind m k).
Proof.
  intros Hm Hk w. unfold bind. specialize (Hm w).
  destruct (m w) as [[a|e] w1]; cbn [snd] in *.
  - eapply frame_trans; [exact Hm | apply Hk].
  - exact Hm.
Qed.

Lemma keeps_emit e : keeps (emit e).
Proof. intros w. unfold frame. cbn. repeat split. now exists [e]. Qed.

Lemma keeps_logger l msg : keeps (logger l msg).
Proof. apply keeps_emit. Qed.

Lemma keeps_print args : keeps (print args).
Proof. apply keeps_emit. Qed.

Lemma keeps_set_sensor_activator v : keeps (set_sensor_activator v).
Proof. intros w. unfold frame. cbn. repeat split. exists []. now rewrite app_nil_r. Qed.

Lemma keeps_set_alarm_system_status v : keeps (set_alarm_system_status v).
Proof. intros w. unfold frame. cbn. repeat split. exists []. now rewrite app_nil_r. Qed.

Create HintDb keeps discriminated.
#[local] Hint Resolve keeps_ret keeps_throw keeps_gets keeps_lift keeps_emit keeps_logger
  keeps_print keeps_set_sensor_activator keeps_set_alarm_system_status : keeps.

(** One step of a frame proof: split a sequence, or case on what a branch
    looks at. *)
Ltac keeps_step :=
  match goal with
  | |- keeps (bind _ _) => apply keeps_bind; [| intros ?]
  | |- keeps (when ?c _) => unfold when
  | |- keeps (match ?x with _ => _ end) => destruct x
  | |- keeps _ => solve [auto with keeps]
  end.

Ltac keeps_auto := repeat keeps_step.

Lemma keeps_r_get key : keeps (r_get key).
Proof. unfold r_get. keeps_auto. Qed.

Section Client.

Variable settings : api.
Variable backend : nat -> request -> http_result.
Variable loads_session : string -> option jval.
Variable try_decode : string -> (string * string) + string.

Lemma keeps_requests_post req : keeps (requests_post backend req).
Proof.
  intros w. unfold requests_post, frame, emit, bind, modify, gets, ret. cbn.
  repeat split. eexists. reflexivity.
Qed.

#[local] Hint Resolve keeps_r_get keeps_requests_post : keeps.

Lemma requests_post_spec req w :
  requests_post backend req w =
    (Ok (backend (requests w) req),
     {| sh := sh w; thr := thr w; clock := clock w;
        requests := S (requests w);
        trace := trace w ++ [EHttp req (backend (requests w) req)] |}).
Proof. reflexivity. Qed.

Lemma keeps_get_session_id : keeps (get_session_id settings backend loads_session).
Proof. unfold get_session_id. keeps_auto. Qed.

Lemma keeps_save_frame : keeps (save_frame try_decode).
Proof. unfold save_frame. keeps_auto. Qed.

Lemma keeps_get_alarm_type t : keeps (get_alarm_type settings t).
Proof. unfold get_alarm_type. keeps_auto. Qed.

#[local] Hint Resolve keeps_get_session_id keeps_save_frame keeps_get_alarm_type : keeps.

Lemma keeps_activate_alarm t :
  keeps (activate_alarm settings backend loads_session try_decode t).
Proof. unfold activate_alarm. keeps_auto. Qed.

#[local] Hint Resolve keeps_activate_alarm : keeps.

Lemma keeps_check_alarm_queue s :
  keeps (check_alarm_queue settings backend loads_session try_decode s).
Proof. unfold check_alarm_queue. keeps_auto. Qed.

(** A login that the backend answers with status 200 and a body that
    holds a session: the ids are read from the body. *)
Lemma get_session_id_reads w text sid uid :
  backend (requests w) (login_request settings) = HResponse 200 text ->
  reads_session loads_session text sid uid ->
  get_session_id settings backend loads_session w =
    (Ok (sid, uid),
     {| sh := sh w; thr := thr w; clock := clock w;
        requests := S (requests w);
        trace := trace w ++ [EHttp (login_request settings) (HResponse 200 text)] |}).
Proof.
  intros Hlogin (body & user & Hl & Hs & Hu & Hi).
  unfold get_session_id. rewrite (bind_ok _ _ _ _ _ (requests_post_spec _ w)).
  rewrite Hlogin. cbn [negb Z.eqb Pos.eqb]. rewrite Hl.
  unfold lift, bind, ret, py_in, py_getitem. rewrite Hs, Hu, Hi. reflexivity.
Qed.

(** C7.  When the login succeeds and the episode POST comes back with
    status 400, [activate_alarm] returns normally; what it did is exactly:
    three DEBUG entries (the last is "Alarm is still active") around the
    two requests.  So no frame persistence step is taken ([save_frame] is
    not called: [frame] is not read, no file is written), nothing is logged
    at ERROR level, and the shared state is untouched. *)
Theorem conflict_is_benign alarm_type event_id w text sid uid text' :
  let out := activate_alarm settings backend loads_session try_decode (Some alarm_type) w in
  let login := login_request settings in
  let episode := episode_request settings (Some event_id) sid in
  (alarm_type = "alarm" /\ event_id = alarm_event_id settings) \/
  (alarm_type = "sos" /\ event_id = sos_event_id settings) ->
  backend (requests w) login = HResponse 200 text ->
  reads_session loads_session text sid uid ->
  jval_eqb sid (JNum (-1)) = false ->
  backend (S (requests w)) episode = HResponse 400 text' ->
  fst out = Ok tt /\
  trace (snd out) =
    trace w ++ [ELog DEBUG "Preparing alarm request";
                EHttp login (HResponse 200 text);
                ELog DEBUG "Now sending alarm request";
                EHttp episode (HResponse 400 text');
                ELog DEBUG "Alarm is still active"] /\
  persistence (trace (snd out)) = persistence (trace w) /\
  logged ERROR (trace (snd out)) = logged ERROR (trace w) /\
  sh (snd out) = sh w.
Proof.
  intros out login episode Hty Hlogin Hjson Hsid Hpost.
  assert (Hrun : out =
    (Ok tt,
     {| sh := sh w; thr := thr w; clock := clock w;
        requests := S (S (requests w));
        trace := trace w ++ [ELog DEBUG "Preparing alarm request";
                             EHttp login (HResponse 200 text);
                             ELog DEBUG "Now sending alarm request";
                             EHttp episode (HResponse 400 text');
                             ELog DEBUG "Alarm is still active"] |})).
  { subst out login episode.
    unfold activate_alarm, get_alarm_type, requests_post,
      logger, emit, bind, modify, gets, ret.
    destruct Hty as [[-> ->]|[-> ->]];
      cbn -[login_request episode_request get_session_id];
      (erewrite get_session_id_reads; [| exact Hlogin | exact Hjson]);
      cbn -[login_request episode_request];
      rewrite Hsid; cbn -[login_request episode_request];
      rewrite Hpost; cbn -[login_request episode_request];
      rewrite <- !app_assoc; reflexivity. }
  rewrite Hrun. cbn [fst snd trace sh].
  rewrite persistence_app, logged_app. cbn. rewrite !app_nil_r. auto.
Qed.

(** What [activate_alarm] starts with for the two kinds it is called
    with: the announcement and the login request. *)
Lemma activate_alarm_head t w :
  t = "alarm" \/ t = "sos" ->
  exists tl,
    trace (snd (activate_alarm settings backend loads_session try_decode (Some t) w)) =
      trace w ++ [ELog DEBUG "Preparing alarm request";
                  EHttp (login_request settings)
                        (backend (requests w) (login_request settings))] ++ tl.
Proof.
  intros Ht. unfold activate_alarm.
  erewrite bind_ok by reflexivity.
  assert (Hty : exists id, forall w0, get_alarm_type settings (Some t) w0 = (Ok (Some id), w0)).
  { destruct Ht as [-> | ->]; eexists; intros w0; reflexivity. }
  destruct Hty as [id Hty].
  erewrite bind_ok by apply Hty. erewrite bind_ok by apply Hty.
  cbv iota beta. unfold get_session_id at 1. rewrite bind_assoc.
  erewrite bind_ok by apply requests_post_spec.
  match goal with
  | |- context [snd (?R ?w2)] =>
      assert (HR : keeps R) by keeps_auto; destruct (HR w2) as (_ & _ & _ & _ & tl & Htl)
  end.
  exists tl. rewrite Htl. cbn [trace]. rewrite <- !app_assoc. reflexivity.
Qed.

(** A check against an unreachable store raises at the read. *)
Lemma check_alarm_queue_down s w :
  redis (sh w) = Down ->
  fst (check_alarm_queue settings backend loads_session try_decode s w) = Raise ConnectionError.
Proof.
  intros Hd. unfold check_alarm_queue, r_get, set_alarm_system_status, emit,
    bind, modify, gets, throw. cbn. rewrite Hd. reflexivity.
Qed.

(** The check of an SOS command forwards it whatever the store holds. *)
Lemma check_alarm_queue_sos_head w db :
  redis (sh w) = Up db ->
  exists tl,
    trace (snd (check_alarm_queue settings backend loads_session try_decode "sos" w)) =
      trace w ++ [ERedis (RGet "trigger_dev");
                  ELog INFO "SOS alarm was sent!";
                  ELog DEBUG "Preparing alarm request";
                  EHttp (login_request settings)
                        (backend (requests w) (login_request settings))] ++ tl.
Proof.
  intros Hup. destruct w as [[g q se rd] th ck n tr]. cbn in Hup. subst rd.
  unfold check_alarm_queue, r_get, set_alarm_system_status, set_sensor_activator,
    logger, emit, bind, modify, gets, ret.
  cbn -[activate_alarm].
  match goal with
  | |- context [activate_alarm _ _ _ _ ?t ?w1] =>
      destruct (activate_alarm_head "sos" w1 (or_intror eq_refl)) as [tl Htl]
  end.
  exists tl. rewrite Htl. cbn [trace requests]. rewrite <- !app_assoc. reflexivity.
Qed.

(** The check of the standard command submits when a device identity is
    in the store. *)
Lemma check_alarm_queue_alarm_head w db dev :
  redis (sh w) = Up db ->
  db !! "trigger_dev" = Some dev ->
  exists tl,
    trace (snd (check_alarm_queue settings backend loads_session try_decode "alarm" w)) =
      trace w ++ [ERedis (RGet "trigger_dev");
                  ELog INFO ("Alarmsystem is active and a movement was detected at the "
                             ++ dev ++ " door")%string;
                  ELog DEBUG "Preparing alarm request";
                  EHttp (login_request settings)
                        (backend (requests w) (login_request settings))] ++ tl.
Proof.
  intros Hup Hdev. destruct w as [[g q se rd] th ck n tr]. cbn in Hup. subst rd.
  unfold check_alarm_queue, r_get, set_alarm_system_status, set_sensor_activator,
    logger, emit, bind, modify, gets, ret.
  cbn -[activate_alarm String.append]. rewrite Hdev.
  cbn -[activate_alarm String.append].
  match goal with
  | |- context [activate_alarm _ _ _ _ ?t ?w1] =>
      destruct (activate_alarm_head "alarm" w1 (or_introl eq_refl)) as [tl Htl]
  end.
  exists tl. rewrite Htl. cbn [trace requests]. rewrite <- !app_assoc. reflexivity.
Qed.

(** What a submission has done when the answer to the episode POST is in:
    the rest depends on that answer only. *)
Lemma submission_reaches_episode alarm_type event_id w text sid uid :
  event_of settings alarm_type event_id ->
  accepted settings backend loads_session w text sid uid ->
  let res := backend (S (requests w)) (episode_request settings (Some event_id) sid) in
  let w2 := {| sh := sh w; thr := thr w; clock := clock w;
               requests := S (S (requests w));
               trace := trace w ++ submitted settings w text event_id sid res |} in
  activate_alarm settings backend loads_session try_decode (Some alarm_type) w =
    match res with
    | HTimeout e =>
        logger ERROR ("There was a Timeout error while sending alarm request: " ++ e) w2
    | HRequestException e =>
        logger ERROR ("There was an error while sending the alarm request: " ++ e) w2
    | HException e =>
        bind (logger ERROR ("There was a general error while sending the alarm requests" ++ e))
             (fun _ => throw AttributeError) w2
    | HResponse code _ =>
        if negb ((code =? 200)%Z || (code =? 201)%Z) then
          if (code =? 400)%Z then logger DEBUG "Alarm is still active" w2
          else bind (logger WARNING "An error happened when creating alarm request!")
                    (fun _ => logger DEBUG
                                ("payload: " ++ repr_dict [("message",
                                                            "Es wurde eingebrochen")])) w2
        else save_frame try_decode w2
    end.
Proof.
  intros Hkind (Hlogin & Hjson & Hsid) res w2. subst res w2.
  unfold activate_alarm at 1, get_alarm_type, requests_post,
    submitted, logger, emit, bind, modify, gets, ret, throw.
  destruct Hkind as [[-> ->]|[-> ->]];
    cbn -[get_session_id login_request episode_request save_frame String.append repr_dict];
    (erewrite get_session_id_reads; [| exact Hlogin | exact Hjson]);
    cbn -[login_request episode_request save_frame String.append repr_dict];
    rewrite Hsid; cbn -[login_request episode_request save_frame String.append repr_dict];
    rewrite <- !app_assoc; cbn [app];
    match goal with
    | |- context [backend ?n ?r] => destruct (backend n r) as [e|e|e|code tx]
    end;
    cbn -[login_request episode_request save_frame String.append repr_dict];
    rewrite <- ?app_assoc; cbn [app]; try reflexivity;
    destruct (negb ((code =? 200)%Z || (code =? 201)%Z)); try reflexivity;
    destruct (code =? 400)%Z;
    cbn -[login_request episode_request save_frame String.append repr_dict];
    rewrite <- ?app_assoc; reflexivity.
Qed.

(** A submission whose login is accepted and whose episode POST does not
    raise a generic exception returns, on a reachable store, having sent
    the login and the episode request and nothing else. *)
Lemma submission_sends_both alarm_type event_id w text sid uid db :
  event_of settings alarm_type event_id ->
  accepted settings backend loads_session w text sid uid ->
  (forall e, backend (S (requests w)) (episode_request settings (Some event_id) sid)
             <> HException e) ->
  redis (sh w) = Up db ->
  let out := activate_alarm settings backend loads_session try_decode (Some alarm_type) w in
  fst out = Ok tt /\
  sent (trace (snd out)) =
    sent (trace w) ++ [login_request settings;
                       episode_request settings (Some event_id) sid] /\
  requests (snd out) = S (S (requests w)).
Proof.
  intros Hkind Hacc Hres Hup out. subst out.
  rewrite (submission_reaches_episode alarm_type event_id w text sid uid Hkind Hacc).
  destruct (backend (S (requests w)) (episode_request settings (Some event_id) sid))
    as [e|e|e|code tx] eqn:E.
  - unfold logger, emit, modify, submitted. cbn [fst snd trace requests].
    rewrite <- !app_assoc, !sent_app. cbn. rewrite ?app_nil_r. auto.
  - unfold logger, emit, modify, submitted. cbn [fst snd trace requests].
    rewrite <- !app_assoc, !sent_app. cbn. rewrite ?app_nil_r. auto.
  - exfalso. exact (Hres e eq_refl).
  - destruct (negb ((code =? 200)%Z || (code =? 201)%Z)).
    + destruct (code =? 400)%Z;
        unfold logger, emit, bind, modify, submitted; cbn [fst snd trace requests];
        rewrite <- !app_assoc, !sent_app; cbn; rewrite ?app_nil_r; auto.
    + unfold save_frame, r_get, logger, emit, bind, modify, gets, ret, submitted.
      cbn [fst snd trace requests sh]. rewrite Hup.
      destruct (db !! "frame") as [f|]; [destruct (try_decode f) as [[stem bytes]|err]|];
        cbn [fst snd trace requests];
        rewrite <- !app_assoc, !sent_app; cbn; rewrite ?app_nil_r; auto.
Qed.

(** On a reachable store the check of an SOS command announces it and
    submits it; the check of the standard command does so when a device
    identity is in the store. *)
Lemma check_alarm_queue_sos_eq w db :
  redis (sh w) = Up db ->
  check_alarm_queue settings backend loads_session try_decode "sos" w =
    activate_alarm settings backend loads_session try_decode (Some "sos")
      (snd (logger INFO "SOS alarm was sent!" (checked "sos" db w))).
Proof.
  intros Hup. destruct w as [[g q se rd] th ck n tr]. cbn in Hup. subst rd.
  unfold check_alarm_queue, r_get, set_alarm_system_status, set_sensor_activator,
    logger, emit, bind, modify, gets, ret.
  cbn -[activate_alarm]. reflexivity.
Qed.

Lemma check_alarm_queue_alarm_eq w db dev :
  redis (sh w) = Up db ->
  db !! "trigger_dev" = Some dev ->
  check_alarm_queue settings backend loads_session try_decode "alarm" w =
    activate_alarm settings backend loads_session try_decode (Some "alarm")
      (snd (logger INFO ("Alarmsystem is active and a movement was detected at the "
                         ++ dev ++ " door")
              (checked "alarm" db w))).
Proof.
  intros Hup Hdev. destruct w as [[g q se rd] th ck n tr]. cbn in Hup. subst rd.
  unfold check_alarm_queue, r_get, set_alarm_system_status, set_sensor_activator,
    logger, emit, bind, modify, gets, ret, checked.
  cbn -[activate_alarm String.append]. rewrite Hdev.
  cbn -[activate_alarm String.append]. reflexivity.
Qed.

End Client.

Lemma session_body_reads text :
  reads_session Scenario.session_body text (JStr "S1") (JNum 7).
Proof.
  exists [("sessionId", JStr "S1"); ("user", JObj [("id", JNum 7)])], [("id", JNum 7)].
  repeat split.
Defined.

Lemma conflict_is_benign_witness :
  let out := activate_alarm Scenario.api0 (Scenario.backend_with 400)
               Scenario.session_body Scenario.decode_ok (Some "alarm")
               (initial Scenario.detection_store) in
  fst out = Ok tt /\
  persistence (trace (snd out)) = [] /\
  logged ERROR (trace (snd out)) = [] /\
  logged DEBUG (trace (snd out)) =
    ["Preparing alarm request"; "Now sending alarm request"; "Alarm is still active"].
Proof.
  pose proof (conflict_is_benign Scenario.api0 (Scenario.backend_with 400)
                Scenario.session_body Scenario.decode_ok "alarm" "17"
                (initial Scenario.detection_store) "session"
                (JStr "S1") (JNum 7) ""
                (or_introl (conj eq_refl eq_refl)) eq_refl (session_body_reads _)
                eq_refl eq_refl)
    as (H1 & H2 & H3 & H4 & _).
  cbv zeta. split; [exact H1 | split; [exact H3 | split; [exact H4 |]]].
  rewrite H2. reflexivity.
Defined.

End ClientProofs.


(** ** Properties of the dispatch worker *)

Module WorkerProofs.

Import Instasolution Threads PyFacts ClientProofs.

Section Worker.

Variable settings : api.
Variable backend : nat -> request -> http_result.
Variable loads_session : string -> option jval.
Variable try_decode : string -> (string * string) + string.

(** After the command handling returned, the tick ends with the check of
    the command that is then current. *)
Lemma run_body_after_take w w1 :
  take_command settings backend loads_session try_decode w = (Ok tt, w1) ->
  run_body settings backend loads_session try_decode w =
    check_alarm_queue settings backend loads_session try_decode
      (Thr.alarm_status (thr w1)) w1.
Proof. intros H. unfold run_body. rewrite (bind_ok _ _ _ _ _ H). reflexivity. Qed.

(** Taking an SOS command: the check of the SOS runs from [sos_taken],
    then the remembered command is put back. *)
Lemma take_command_sos w rest :
  alarm_queue (sh w) = "sos" :: rest ->
  take_command settings backend loads_session try_decode w =
    bind (Instasolution.check_alarm_queue settings backend loads_session try_decode "sos")
         (fun _ => bind (gets (fun w => Thr.alarm_status_old (thr w)))
                        set_thr_alarm_status)
         (sos_taken w rest).
Proof.
  intros Hq. destruct w as [[g q se rd] [a o sa ss] ck n tr]. cbn in Hq. subst q.
  reflexivity.
Qed.

Lemma sos_taken_frame w rest :
  redis (sh (sos_taken w rest)) = redis (sh w) /\
  requests (sos_taken w rest) = requests w /\
  trace (sos_taken w rest) = trace w /\
  Thr.alarm_status_old (thr (sos_taken w rest)) = Thr.alarm_status (thr w) /\
  alarm_queue (sh (sos_taken w rest)) = rest.
Proof. repeat split. Qed.

(** A check against an unreachable store ends at the read. *)
Lemma check_alarm_queue_down_trace s w :
  redis (sh w) = Down ->
  trace (snd (Instasolution.check_alarm_queue settings backend loads_session
                try_decode s w)) =
    trace w ++ [ERedis (RGet "trigger_dev")].
Proof.
  intros Hd. unfold Instasolution.check_alarm_queue, r_get,
    set_alarm_system_status, emit, bind, modify, gets, throw.
  cbn. rewrite Hd. reflexivity.
Qed.

(** The two ways a taken SOS command can end: the check returned and the
    remembered command was put back, or the check raised and the tick
    ends in the world of the raise. *)
Lemma take_command_sos_cases w rest :
  alarm_queue (sh w) = "sos" :: rest ->
  let checked_sos := Instasolution.check_alarm_queue settings backend loads_session
                       try_decode "sos" (sos_taken w rest) in
  let take := take_command settings backend loads_session try_decode w in
  frame (sos_taken w rest) (snd checked_sos) /\
  ((fst checked_sos = Ok tt /\
    take = (Ok tt, snd (set_thr_alarm_status (Thr.alarm_status (thr w)) (snd checked_sos)))) \/
   (exists e, fst checked_sos = Raise e /\ take = (Raise e, snd checked_sos))).
Proof.
  intros Hq checked_sos take. subst take checked_sos.
  pose proof (keeps_check_alarm_queue settings backend loads_session try_decode
                "sos" (sos_taken w rest)) as K.
  split; [exact K|].
  destruct K as (_ & _ & _ & Ho & _).
  destruct (Instasolution.check_alarm_queue settings backend loads_session try_decode
              "sos" (sos_taken w rest)) as [[[]|e] w0] eqn:E; cbn [fst snd] in *.
  - left. split; [reflexivity|].
    rewrite (take_command_sos w rest Hq). unfold bind at 1. rewrite E.
    unfold bind, gets. rewrite Ho. reflexivity.
  - right. exists e. split; [reflexivity|].
    rewrite (take_command_sos w rest Hq). unfold bind at 1. rewrite E. reflexivity.
Qed.

Ltac restored :=
  unfold set_thr_alarm_status, modify, with_thr;
  cbn [fst snd thr sh Thr.alarm_status Thr.alarm_status_old trace requests].

(** C6, amended.  A tick that takes an SOS command from the queue
    remembers the standing command, makes "sos" current and checks it.
    When the check returns, the SOS was forwarded to the remote alarm
    client (the check announced it and sent the login request) and the
    remembered command is current again when the handling ends and when
    the tick ends, so the next tick starts from the standing command in
    force before the SOS.  When the check raises, the restore is not
    reached: the exception leaves the tick, which ends in the world of the
    raise with "sos" still current.  On an unreachable store the check
    raises at its read, before anything is forwarded.  On a reachable
    store, with a login that is accepted and an episode POST that raises
    no generic exception, the check returns. *)
Theorem sos_is_one_shot w rest :
  let take := take_command settings backend loads_session try_decode in
  let body := run_body settings backend loads_session try_decode in
  alarm_queue (sh w) = "sos" :: rest ->
  Thr.alarm_status_old (thr (snd (take w))) = Thr.alarm_status (thr w) /\
  alarm_queue (sh (snd (take w))) = rest /\
  (fst (take w) = Ok tt ->
   (exists tl,
      trace (snd (take w)) =
        trace w ++ [ERedis (RGet "trigger_dev");
                    ELog INFO "SOS alarm was sent!";
                    ELog DEBUG "Preparing alarm request";
                    EHttp (login_request settings)
                          (backend (requests w) (login_request settings))] ++ tl) /\
   Thr.alarm_status (thr (snd (take w))) = Thr.alarm_status (thr w) /\
   Thr.alarm_status (thr (snd (body w))) = Thr.alarm_status (thr w) /\
   alarm_queue (sh (snd (body w))) = rest) /\
  (forall e, fst (take w) = Raise e ->
   Thr.alarm_status (thr (snd (take w))) = "sos" /\
   body w = (Raise e, snd (take w))) /\
  (redis (sh w) = Down ->
   fst (take w) = Raise ConnectionError /\
   sent (trace (snd (take w))) = sent (trace w)) /\
  (forall db text sid uid,
     redis (sh w) = Up db ->
     accepted settings backend loads_session w text sid uid ->
     (forall e, backend (S (requests w))
                  (episode_request settings (Some (sos_event_id settings)) sid)
                <> HException e) ->
     fst (take w) = Ok tt).
Proof.
  intros take body Hq. subst take body.
  destruct (take_command_sos_cases w rest Hq) as (K & Hcases).
  destruct (sos_taken_frame w rest) as (Hrd & Hn & Htr & Hold & Hrest).
  destruct K as (Hs & _ & Ha & Ho & _).
  assert (Hdown : redis (sh w) = Down ->
            fst (Instasolution.check_alarm_queue settings backend loads_session
                   try_decode "sos" (sos_taken w rest)) = Raise ConnectionError /\
            sent (trace (snd (Instasolution.check_alarm_queue settings backend
                                loads_session try_decode "sos" (sos_taken w rest)))) =
              sent (trace w)).
  { intros Hd. rewrite <- Hrd in Hd. split.
    - exact (check_alarm_queue_down settings backend loads_session try_decode
               "sos" (sos_taken w rest) Hd).
    - rewrite (check_alarm_queue_down_trace "sos" (sos_taken w rest) Hd), Htr.
      rewrite sent_app. cbn. now rewrite app_nil_r. }
  destruct Hcases as [(Hok & Et) | (e0 & Hraise & Et)].
  - assert (Hbody : run_body settings backend loads_session try_decode w =
                      check_alarm_queue settings backend loads_session try_decode
                        (Thr.alarm_status (thr w))
                        (snd (set_thr_alarm_status (Thr.alarm_status (thr w))
                                (snd (Instasolution.check_alarm_queue settings backend
                                        loads_session try_decode "sos"
                                        (sos_taken w rest)))))).
    { rewrite (run_body_after_take _ _ Et). reflexivity. }
    rewrite Et. cbn [fst snd]. split; [|split; [|split; [|split; [|split]]]].
    + restored. rewrite Ho. exact Hold.
    + restored. rewrite Hs. exact Hrest.
    + intros _. split; [|split; [|split]].
      * destruct (redis (sh w)) as [|db] eqn:Hup.
        { destruct (Hdown eq_refl) as [Hd _]. rewrite Hd in Hok. discriminate. }
        destruct (check_alarm_queue_sos_head settings backend loads_session try_decode
                    (sos_taken w rest) db Hrd) as [tl Htl].
        exists tl. restored. rewrite Htl, Htr, Hn. reflexivity.
      * restored. reflexivity.
      * rewrite Hbody.
        match goal with
        | |- context [check_alarm_queue _ _ _ _ ?c ?w2] =>
            pose proof (keeps_check_alarm_queue settings backend loads_session
                          try_decode c w2) as (_ & _ & Ha2 & _)
        end.
        unfold check_alarm_queue. rewrite Ha2. restored. reflexivity.
      * rewrite Hbody.
        match goal with
        | |- context [check_alarm_queue _ _ _ _ ?c ?w2] =>
            pose proof (keeps_check_alarm_queue settings backend loads_session
                          try_decode c w2) as (Hs2 & _)
        end.
        unfold check_alarm_queue. rewrite Hs2. restored. rewrite Hs. exact Hrest.
    + intros e [=].
    + intros Hd. destruct (Hdown Hd) as [Hd1 _]. rewrite Hd1 in Hok. discriminate.
    + reflexivity.
  - rewrite Et. cbn [fst snd]. split; [|split; [|split; [|split; [|split]]]].
    + rewrite Ho. exact Hold.
    + rewrite Hs. exact Hrest.
    + intros [=].
    + intros e [= <-]. split.
      * rewrite Ha. reflexivity.
      * unfold run_body. unfold bind at 1. rewrite Et. reflexivity.
    + intros Hd. destruct (Hdown Hd) as [Hd1 Hd2]. split; [|exact Hd2].
      rewrite Hraise in Hd1. exact Hd1.
    + intros db text sid uid Hup Hacc Hres. rewrite <- Hrd in Hup.
      pose proof (check_alarm_queue_sos_eq settings backend loads_session try_decode
                    (sos_taken w rest) db Hup) as Hsos.
      destruct (submission_sends_both settings backend loads_session try_decode
                  "sos" (sos_event_id settings)
                  (snd (logger INFO "SOS alarm was sent!"
                          (checked "sos" db (sos_taken w rest))))
                  text sid uid db (or_intror (conj eq_refl eq_refl)) Hacc Hres Hup)
        as (HokA & _).
      rewrite <- Hsos, Hraise in HokA. discriminate.
Qed.

(** C10, amended.  A tick that takes an SOS command while the standing
    command is "alarm" and a device identity is in the store begins with
    the check of "sos".  When that check returns, [check_alarm_queue] runs
    a second time within the tick, for the restored "alarm"; when it
    raises, the tick ends there and the second check is not run.  When
    both logins are accepted and the SOS episode POST raises no generic
    exception, the tick sends four requests: the login and the episode
    POST for the SOS event, then the login and the episode POST for the
    standard alarm event. *)
Theorem sos_and_alarm_in_one_tick w rest db dev :
  let take := take_command settings backend loads_session try_decode in
  let body := run_body settings backend loads_session try_decode in
  let login := login_request settings in
  alarm_queue (sh w) = "sos" :: rest ->
  Thr.alarm_status (thr w) = "alarm" ->
  redis (sh w) = Up db ->
  db !! "trigger_dev" = Some dev ->
  (exists tl,
     trace (snd (body w)) =
       trace w ++ [ERedis (RGet "trigger_dev");
                   ELog INFO "SOS alarm was sent!";
                   ELog DEBUG "Preparing alarm request";
                   EHttp login (backend (requests w) login)] ++ tl) /\
  (fst (take w) = Ok tt ->
   exists n tl1 tl2,
     trace (snd (body w)) =
       trace w ++ [ERedis (RGet "trigger_dev");
                   ELog INFO "SOS alarm was sent!";
                   ELog DEBUG "Preparing alarm request";
                   EHttp login (backend (requests w) login)] ++ tl1
               ++ [ERedis (RGet "trigger_dev");
                   ELog INFO ("Alarmsystem is active and a movement was detected at the "
                              ++ dev ++ " door")%string;
                   ELog DEBUG "Preparing alarm request";
                   EHttp login (backend n login)] ++ tl2) /\
  (forall e, fst (take w) = Raise e -> body w = (Raise e, snd (take w))) /\
  (forall text1 sid1 uid1 text2 sid2 uid2,
     accepted settings backend loads_session w text1 sid1 uid1 ->
     (forall e, backend (S (requests w))
                  (episode_request settings (Some (sos_event_id settings)) sid1)
                <> HException e) ->
     accepted settings backend loads_session
       {| sh := sh w; thr := thr w; clock := clock w;
          requests := S (S (requests w)); trace := trace w |} text2 sid2 uid2 ->
     fst (take w) = Ok tt /\
     sent (trace (snd (body w))) =
       sent (trace w)
         ++ [login; episode_request settings (Some (sos_event_id settings)) sid1;
             login; episode_request settings (Some (alarm_event_id settings)) sid2]).
Proof.
  intros take body login Hq Hst Hup Hdev. subst take body login.
  destruct (take_command_sos_cases w rest Hq) as (K & Hcases).
  destruct (sos_taken_frame w rest) as (Hrd & Hn & Htr & Hold & Hrest).
  rewrite Hup in Hrd.
  destruct (check_alarm_queue_sos_head settings backend loads_session try_decode
              (sos_taken w rest) db Hrd) as [tl1 Htl1].
  rewrite Htr, Hn in Htl1.
  pose proof (check_alarm_queue_sos_eq settings backend loads_session try_decode
                (sos_taken w rest) db Hrd) as Hsos.
  destruct K as (Hs & _ & Ha & Ho & _).
  set (w0 := snd (Instasolution.check_alarm_queue settings backend loads_session
                    try_decode "sos" (sos_taken w rest))) in *.
  set (w1 := snd (set_thr_alarm_status (Thr.alarm_status (thr w)) w0)) in *.
  assert (Hup1 : redis (sh w1) = Up db) by (subst w1; restored; rewrite Hs; exact Hrd).
  assert (Hbody1 : take_command settings backend loads_session try_decode w = (Ok tt, w1) ->
                   run_body settings backend loads_session try_decode w =
                     activate_alarm settings backend loads_session try_decode (Some "alarm")
                       (snd (logger INFO
                               ("Alarmsystem is active and a movement was detected at the "
                                ++ dev ++ " door")
                               (checked "alarm" db w1)))).
  { intros Et. rewrite (run_body_after_take _ _ Et).
    replace (Thr.alarm_status (thr w1)) with "alarm" by (subst w1; restored; now rewrite Hst).
    apply (check_alarm_queue_alarm_eq settings backend loads_session try_decode
             w1 db dev Hup1 Hdev). }
  assert (Hraise : forall e,
            take_command settings backend loads_session try_decode w = (Raise e, w0) ->
            run_body settings backend loads_session try_decode w = (Raise e, w0)).
  { intros e Et. unfold run_body. unfold bind at 1. rewrite Et. reflexivity. }
  split; [|split; [|split]].
  - destruct Hcases as [(Hok & Et) | (e0 & Hr & Et)].
    + rewrite (run_body_after_take _ _ Et).
      match goal with
      | |- context [check_alarm_queue _ _ _ _ ?c ?w2] =>
          pose proof (keeps_check_alarm_queue settings backend loads_session
                        try_decode c w2) as (_ & _ & _ & _ & tl2 & Htl2)
      end.
      unfold check_alarm_queue. rewrite Htl2. fold w0 w1. 
      replace (trace w1) with (trace w0) by reflexivity. rewrite Htl1.
      exists (tl1 ++ tl2). rewrite <- !app_assoc. reflexivity.
    + rewrite (Hraise e0 Et). cbn [snd]. exists tl1. exact Htl1.
  - intros Hok. destruct Hcases as [(_ & Et) | (e0 & _ & Et)];
      [| rewrite Et in Hok; discriminate].
    rewrite (run_body_after_take _ _ Et). fold w0 w1.
    replace (Thr.alarm_status (thr w1)) with "alarm" by (subst w1; restored; now rewrite Hst).
    destruct (check_alarm_queue_alarm_head settings backend loads_session try_decode
                w1 db dev Hup1 Hdev) as [tl2 Htl2].
    exists (requests w1), tl1, tl2.
    unfold check_alarm_queue. rewrite Htl2.
    replace (trace w1) with (trace w0) by reflexivity. rewrite Htl1.
    rewrite <- !app_assoc. reflexivity.
  - intros e He. destruct Hcases as [(_ & Et) | (e0 & _ & Et)].
    + rewrite Et in He. discriminate.
    + rewrite Et in He. cbn [fst] in He. injection He as <-.
      rewrite Et. cbn [snd]. exact (Hraise e0 Et).
  - intros text1 sid1 uid1 text2 sid2 uid2 Hacc1 Hres1 Hacc2.
    set (wA := snd (logger INFO "SOS alarm was sent!" (checked "sos" db (sos_taken w rest)))) in *.
    assert (HupA : redis (sh wA) = Up db) by exact Hrd.
    destruct (submission_sends_both settings backend loads_session try_decode
                "sos" (sos_event_id settings) wA text1 sid1 uid1 db
                (or_intror (conj eq_refl eq_refl)) Hacc1 Hres1 HupA)
      as (HokA & HsentA & HreqA).
    rewrite <- Hsos in HokA, HsentA, HreqA. fold w0 in HsentA, HreqA.
    destruct Hcases as [(_ & Et) | (e0 & Hr & _)]; [| rewrite Hr in HokA; discriminate].
    rewrite Et. split; [reflexivity|].
    rewrite (Hbody1 Et).
    set (wB := snd (logger INFO _ (checked "alarm" db w1))).
    assert (HupB : redis (sh wB) = Up db) by exact Hup1.
    assert (HaccB : accepted settings backend loads_session wB text2 sid2 uid2).
    { destruct Hacc2 as (H1 & H2 & H3). split; [|split; assumption].
      cbn [requests] in H1. replace (requests wB) with (requests w0) by reflexivity.
      rewrite HreqA. exact H1. }
    assert (HresB : forall e, backend (S (requests wB))
                               (episode_request settings (Some (alarm_event_id settings)) sid2)
                             <> HException e -> True) by (intros; exact I).
    clear HresB.
    destruct (backend (S (requests wB))
                (episode_request settings (Some (alarm_event_id settings)) sid2))
      as [e|e|e|code tx] eqn:EB.
    all: rewrite (submission_reaches_episode settings backend loads_session try_decode
                    "alarm" (alarm_event_id settings) wB text2 sid2 uid2
                    (or_introl (conj eq_refl eq_refl)) HaccB), EB.
    all: assert (HwB : sent (trace wB) = sent (trace w0))
           by (subst wB w1; cbn; rewrite !sent_app; cbn; now rewrite !app_nil_r).
    all: assert (HwA : sent (trace wA) = sent (trace w))
           by (subst wA; cbn; rewrite !sent_app; cbn; now rewrite !app_nil_r).
    all: rewrite HwA in HsentA.
    + unfold logger, emit, modify, submitted. cbn [snd trace].
      rewrite <- !app_assoc, !sent_app, HwB, HsentA. cbn.
      rewrite ?app_nil_r, <- ?app_assoc. reflexivity.
    + unfold logger, emit, modify, submitted. cbn [snd trace].
      rewrite <- !app_assoc, !sent_app, HwB, HsentA. cbn.
      rewrite ?app_nil_r, <- ?app_assoc. reflexivity.
    + unfold logger, emit, bind, modify, throw, submitted. cbn [snd trace].
      rewrite <- !app_assoc, !sent_app, HwB, HsentA. cbn.
      rewrite ?app_nil_r, <- ?app_assoc. reflexivity.
    + destruct (negb ((code =? 200)%Z || (code =? 201)%Z)).
      * destruct (code =? 400)%Z;
          unfold logger, emit, bind, modify, submitted; cbn [snd trace];
          rewrite <- !app_assoc, !sent_app, HwB, HsentA; cbn;
          rewrite ?app_nil_r, <- ?app_assoc; reflexivity.
      * unfold save_frame, r_get, logger, emit, bind, modify, gets, ret, submitted.
        cbn [fst snd trace sh]. rewrite HupB.
        destruct (db !! "frame") as [f|];
          [destruct (try_decode f) as [[stem bytes]|err]|];
          cbn [fst snd trace];
          rewrite <- !app_assoc, !sent_app, HwB, HsentA; cbn;
          rewrite ?app_nil_r, <- ?app_assoc; reflexivity.
Qed.




End Worker.

(** The standing command is "alarm", a detection is in the store, and an
    SOS is queued. *)
Lemma sos_is_one_shot_witness :
  let w := Scenario.worker_world "alarm" ["sos"] Scenario.detection_store in
  fst (Scenario.tick 201 w) = Ok tt /\
  Thr.alarm_status (thr (snd (Scenario.tick 201 w))) = "alarm" /\
  alarm_queue (sh (snd (Scenario.tick 201 w))) = [].
Proof.
  intros w.
  destruct (sos_is_one_shot Scenario.api0 (Scenario.backend_with 201)
              Scenario.session_body Scenario.decode_ok w [] eq_refl)
    as (_ & _ & Hret & _ & _ & Hsuff).
  assert (Hacc : accepted Scenario.api0 (Scenario.backend_with 201)
                   Scenario.session_body w "session" (JStr "S1") (JNum 7))
    by (split; [reflexivity | split; [apply session_body_reads | reflexivity]]).
  assert (Hres : forall e,
            Scenario.backend_with 201 (S (requests w))
              (episode_request Scenario.api0 (Some (sos_event_id Scenario.api0)) (JStr "S1"))
            <> HException e)
    by (intros e H; vm_compute in H; discriminate H).
  pose proof (Hsuff _ "session" (JStr "S1") (JNum 7) eq_refl Hacc Hres) as Hok.
  destruct (Hret Hok) as (_ & _ & H4 & H5).
  split; [reflexivity | exact (conj H4 H5)].
Defined.

(** C6, as stated, fails: not every tick that takes an SOS command
    forwards it and restores the standing command.  With the store
    unreachable the check raises at its read: nothing is sent, and "sos"
    stays current in place of "alarm".  With a login that is answered with
    status 200 and a body that is not JSON the check raises after the login
    request, and "sos" stays current as well. *)
Lemma raising_sos_check_leaves_sos_current :
  let down := Scenario.worker_world "alarm" ["sos"] Down in
  let w := Scenario.worker_world "alarm" ["sos"] Scenario.detection_store in
  let unreadable := run_body Scenario.api0 (Scenario.backend_with 201)
                      Scenario.body_not_json Scenario.decode_ok in
  (fst (Scenario.tick 201 down) = Raise ConnectionError /\
   sent (trace (snd (Scenario.tick 201 down))) = [] /\
   Thr.alarm_status (thr down) = "alarm" /\
   Thr.alarm_status (thr (snd (Scenario.tick 201 down))) = "sos") /\
  (fst (unreadable w) = Raise JSONDecodeError /\
   Thr.alarm_status (thr w) = "alarm" /\
   Thr.alarm_status (thr (snd (unreadable w))) = "sos").
Proof. vm_compute. repeat split. Qed.

Lemma sos_and_alarm_in_one_tick_witness :
  let w := Scenario.worker_world "alarm" ["sos"] Scenario.detection_store in
  let login := login_request Scenario.api0 in
  fst (Scenario.tick 201 w) = Ok tt /\
  sent (trace (snd (Scenario.tick 201 w))) =
    [login; episode_request Scenario.api0 (Some "18") (JStr "S1");
     login; episode_request Scenario.api0 (Some "17") (JStr "S1")].
Proof.
  intros w login.
  assert (Hdev : (<["frame" := CameraSensor.frame_json "2021_06_01_12_00_00" "QUJD"]>
                    (<["trigger_dev" := "front"]> {[ "trigger_status" := "1" ]})
                  : gmap string string) !! "trigger_dev" = Some "front")
    by (vm_compute; reflexivity).
  assert (Hacc : forall v,
            accepted Scenario.api0 (Scenario.backend_with 201) Scenario.session_body
              v "session" (JStr "S1") (JNum 7))
    by (intros v; split; [reflexivity | split; [apply session_body_reads | reflexivity]]).
  assert (Hres : forall e,
            Scenario.backend_with 201 (S (requests w))
              (episode_request Scenario.api0 (Some (sos_event_id Scenario.api0)) (JStr "S1"))
            <> HException e)
    by (intros e H; vm_compute in H; discriminate H).
  destruct (sos_and_alarm_in_one_tick Scenario.api0 (Scenario.backend_with 201)
              Scenario.session_body Scenario.decode_ok w []
              (<["frame" := CameraSensor.frame_json "2021_06_01_12_00_00" "QUJD"]>
                 (<["trigger_dev" := "front"]> {[ "trigger_status" := "1" ]}))
              "front" eq_refl eq_refl eq_refl Hdev) as (_ & _ & _ & Hboth).
  destruct (Hboth "session" (JStr "S1") (JNum 7) "session" (JStr "S1") (JNum 7)
              (Hacc _) Hres (Hacc _)) as (_ & Hsent).
  split; [reflexivity | exact Hsent].
Defined.

(** C10, as stated, fails: under the claim's conditions the SOS login can
    be answered with status 200 and a body that is not JSON.  The check of
    "sos" then raises, the tick ends there, and the check of the restored
    "alarm" is not run: the store is read once, the SOS announcement is
    the only INFO entry, and the login is the only request. *)
Lemma unreadable_sos_login_skips_the_alarm_check :
  let w := Scenario.worker_world "alarm" ["sos"] Scenario.detection_store in
  let out := run_body Scenario.api0 (Scenario.backend_with 201)
               Scenario.body_not_json Scenario.decode_ok w in
  fst out = Raise JSONDecodeError /\
  store_ops (trace (snd out)) = [RGet "trigger_dev"] /\
  logged INFO (trace (snd out)) = ["SOS alarm was sent!"] /\
  sent (trace (snd out)) = [login_request Scenario.api0].
Proof. vm_compute. repeat split. Qed.



End WorkerProofs.


(** ** Properties of the control panel *)

Module PanelProofs.

Import PinGui PyFacts.

Section Panel.

Variable pw : passwords.
Variable verify : string -> string -> option bool.
Variable others : Z -> Z -> shared -> shared.

(** One tick of the countdown: the index is printed and shown, a second
    passes. *)
Lemma countdown_ticks l w :
  exists w',
    for_each l (fun i =>
      print [PInt (Z.of_nat i)] ;;
      progress_configure i ;;
      time_sleep others 1000 ;;
      when (Nat.eqb i 9) (progress_configure 0)) w = (Ok tt, w') /\
    trace w' = trace w ++ ticks l /\
    clock w' = clock w + 1000 * Z.of_nat (length l).
Proof.
  revert w. induction l as [|i l IH]; intros w.
  - exists w. cbn. rewrite app_nil_r. repeat split. lia.
  - cbn [for_each].
    set (body := fun i : nat => _).
    assert (Hstep : exists w1, body i w = (Ok tt, w1) /\
                      trace w1 = trace w ++ [EPrint [PInt (Z.of_nat i)]; ESleep 1000] /\
                      clock w1 = clock w + 1000).
    { subst body. unfold print, progress_configure, time_sleep, pass_time, emit, when,
        bind, modify, ret. cbn.
      destruct (Nat.eqb i 9); eexists; (split; [reflexivity|]); cbn;
        rewrite <- ?app_assoc; auto. }
    destruct Hstep as (w1 & H1 & Ht1 & Hc1).
    destruct (IH w1) as (w' & H' & Ht' & Hc').
    exists w'. rewrite (bind_ok _ _ _ _ _ H1). split; [exact H'|].
    rewrite Ht', Ht1, Hc', Hc1. cbn [ticks flat_map length]. split.
    + rewrite <- !app_assoc. reflexivity.
    + lia.
Qed.

Lemma countdown_spec w :
  exists w9,
    countdown others w = (Ok tt, w9) /\
    trace w9 = trace w ++ ticks (seq 1 9) /\
    clock w9 = clock w + 9000.
Proof.
  unfold countdown.
  erewrite bind_ok by reflexivity. erewrite bind_ok by reflexivity.
  erewrite bind_ok by reflexivity. erewrite bind_ok by reflexivity.
  match goal with
  | |- context [for_each _ _ ?w0] => destruct (countdown_ticks (seq 1 9) w0) as (w9 & H & Ht & Hc)
  end.
  exists w9. split; [exact H|]. rewrite Ht, Hc. cbn. split; [reflexivity | lia].
Qed.

(** C5.  Whatever the other threads do meanwhile (an abort re-confirm
    included), [do_cooldown] goes through its nine ticks, each a sleep of
    one second: nine seconds pass before the abort flag is read.  The flag
    is read in the state reached after the ninth tick; [do_cooldown]
    returns [False] exactly when it is set there, and in both outcomes the
    flag and the cooldown counter are reset. *)
Theorem do_cooldown_waits_in_full w :
  exists w9,
    countdown others w = (Ok tt, w9) /\
    trace w9 = trace w ++ ticks (seq 1 9) /\
    sleeps (trace w9) = sleeps (trace w) ++ repeat 1000 9 /\
    clock w9 = clock w + 9000 /\
    let stop := Gui.stop_cooldown (gui (sh w9)) in
    let out := do_cooldown others w in
    fst out = Ok (negb stop) /\
    Gui.stop_cooldown (gui (sh (snd out))) = false /\
    Gui.cooldown_counter (gui (sh (snd out))) = 0 /\
    trace (snd out) =
      trace w9 ++ [EPrint [PStr (if stop then "cooldown quit" else "cooldown done")]] /\
    clock (snd out) = clock w9.
Proof.
  destruct (countdown_spec w) as (w9 & H & Ht & Hc).
  exists w9. split; [exact H|]. split; [exact Ht|]. split.
  { rewrite Ht, sleeps_app. reflexivity. }
  split; [exact Hc|].
  cbv zeta. unfold do_cooldown. rewrite (bind_ok _ _ _ _ _ H).
  unfold self, print, set_stop_cooldown, set_cooldown_counter, emit, bind, modify, gets, ret.
  cbn. destruct (Gui.stop_cooldown (gui (sh w9))); cbn; repeat split.
Qed.

(** *** The bound on the PIN buffer *)

Lemma bounded_ret {A} (a : A) : bounded (ret a).
Proof. intros w H. exact H. Qed.

Lemma bounded_throw {A} e : bounded (@throw world A e).
Proof. intros w H. exact H. Qed.

Lemma bounded_gets {A} (f : world -> A) : bounded (gets f).
Proof. intros w H. exact H. Qed.

Lemma bounded_self {A} (f : Gui.t -> A) : bounded (self f).
Proof. intros w H. exact H. Qed.

Lemma bounded_bind {A B} (m : M world A) (k : A -> M world B) :
  bounded m -> (forall a, bounded (k a)) -> bounded (bind m k).
Proof.
  intros Hm Hk w H. unfold bind. specialize (Hm w H).
  destruct (m w) as [[a|e] w1]; cbn [snd] in *; [apply Hk|]; exact Hm.
Qed.

Lemma bounded_for_each {A} (l : list A) (body : A -> M world unit) :
  (forall a, bounded (body a)) -> bounded (for_each l body).
Proof.
  intros Hb. induction l as [|a l IH]; cbn [for_each].
  - apply bounded_ret.
  - apply bounded_bind; [apply Hb | intros _; exact IH].
Qed.

Lemma bounded_thread_start m : bounded m -> bounded (thread_start m).
Proof.
  intros Hm w H. unfold thread_start. specialize (Hm w H).
  destruct (m w) as [[[]|e] w1]; cbn [snd] in *; exact Hm.
Qed.

(** A step that does not assign the PIN buffer. *)
Lemma bounded_modify f :
  (forall w, Gui.pin_entry (gui (sh (f w))) = Gui.pin_entry (gui (sh w))) ->
  bounded (modify f).
Proof. intros Hf w H. unfold pin_ok, modify in *. cbn [snd]. now rewrite Hf. Qed.

Lemma bounded_clear : bounded (set_pin_entry "").
Proof. intros w _. unfold pin_ok. cbn. lia. Qed.

Lemma bounded_emit e : bounded (emit e).
Proof. apply bounded_modify. reflexivity. Qed.

Lemma bounded_r_set k v : bounded (Instasolution.r_set k v).
Proof.
  intros w H. unfold Instasolution.r_set, emit, bind, modify, gets, throw.
  cbn. destruct (redis (sh w)); exact H.
Qed.

Lemma bounded_r_flushall : bounded Instasolution.r_flushall.
Proof.
  intros w H. unfold Instasolution.r_flushall, emit, bind, modify, gets, throw.
  cbn. destruct (redis (sh w)); exact H.
Qed.

Lemma bounded_bcrypt_verify secret hash : bounded (bcrypt_verify verify secret hash).
Proof. intros w H. unfold bcrypt_verify. destruct (verify secret hash); exact H. Qed.

(** The other threads keep the bound: they are key presses and confirm
    handlings of this same panel, and the worker and the camera do not
    touch the buffer. *)
Hypothesis others_bounded : forall t d s, pin_ok s -> pin_ok (others t d s).

Lemma bounded_time_sleep d : bounded (time_sleep others d).
Proof.
  intros w H. unfold time_sleep, pass_time, emit, bind, modify. cbn.
  apply others_bounded. exact H.
Qed.

Create HintDb bounded discriminated.
#[local] Hint Resolve bounded_ret bounded_throw bounded_gets bounded_self bounded_clear
  bounded_emit bounded_r_set bounded_r_flushall bounded_bcrypt_verify
  bounded_time_sleep : bounded.

Ltac bounded_step :=
  match goal with
  | |- bounded (bind _ _) => apply bounded_bind; [| intros ?]
  | |- bounded (for_each _ _) => apply bounded_for_each; intros ?
  | |- bounded (thread_start _) => apply bounded_thread_start
  | |- bounded (when ?c _) => unfold when
  | |- bounded (match ?x with _ => _ end) => destruct x
  | |- bounded (modify _) => apply bounded_modify; reflexivity
  | |- bounded _ => solve [auto with bounded]
  end.

Ltac bounded_auto := repeat bounded_step.

Lemma bounded_compare_pin : bounded (compare_pin pw verify others).
Proof.
  unfold compare_pin, do_cooldown, countdown, start_redis_script, start_sos,
    stop_redis_script, change_screen_state, toggle_full_screen, quit_full_screen,
    Threads.flusher, Threads.change_status, Instasolution.clear_redis,
    Instasolution.set_status, print, logger,
    set_cooldown, set_cooldown_counter, set_stop_cooldown, set_alarm_status,
    set_full_screen_state, set_fullscreen, display_configure, status_bar_configure,
    progress_configure.
  bounded_auto.
Qed.

Lemma length_append s t :
  String.length (s ++ t)%string = (String.length s + String.length t)%nat.
Proof. induction s as [|c s IH]; simpl; [reflexivity | now rewrite IH]. Qed.

Lemma is_digit_length key : is_digit key = true -> String.length key = 1%nat.
Proof.
  unfold is_digit, digits. cbn [existsb]. intros H.
  repeat (apply orb_prop in H as [H|H];
          [apply String.eqb_eq in H; subst key; reflexivity|]).
  discriminate.
Qed.

(** A digit key: the buffer grows by the digit, or starts again from the
    digit when it already held four. *)
Lemma pressed_digit key w :
  is_digit key = true ->
  let out := pressed pw verify others key w in
  let pin := Gui.pin_entry (gui (sh w)) in
  fst out = Ok tt /\
  Gui.pin_entry (gui (sh (snd out))) =
    (if (3 <? len pin)%Z then key else pin ++ key)%string /\
  ((3 <? len pin)%Z = true -> Gui.display (gui (sh (snd out))) = stars_1).
Proof.
  intros Hd out pin. subst out pin. unfold pressed. rewrite Hd.
  unfold self, display_configure, set_pin_entry, when, bind, modify, gets, ret,
    with_gui, with_sh.
  destruct w as [[g q se rd] th ck n tr]. cbn.
  repeat (match goal with
          | |- context [if ?c then _ else _] => destruct c eqn:?
          end; cbn);
    repeat split; auto; discriminate.
Qed.

Lemma bounded_pressed key : bounded (pressed pw verify others key).
Proof.
  destruct (is_digit key) eqn:Hd.
  - intros w H. destruct (pressed_digit key w Hd) as (_ & Hp & _).
    unfold pin_ok in *. rewrite Hp.
    destruct (Z.ltb_spec 3 (len (Gui.pin_entry (gui (sh w))))) as [Hlt|Hge];
      cbv beta iota.
    + rewrite (is_digit_length key Hd). lia.
    + rewrite length_append, (is_digit_length key Hd). unfold len in Hge. lia.
  - unfold pressed. rewrite Hd. unfold display_configure.
    pose proof bounded_compare_pin. bounded_auto.
Qed.

Lemma pressed_ok key w : fst (pressed pw verify others key w) = Ok tt.
Proof.
  destruct (is_digit key) eqn:Hd.
  - apply (pressed_digit key w Hd).
  - unfold pressed. rewrite Hd.
    destruct (String.eqb key "del"); [reflexivity|].
    destruct (String.eqb key "ok"); [|reflexivity].
    unfold thread_start. destruct (compare_pin pw verify others w) as [[[]|e] w1];
      reflexivity.
Qed.

(** Every key of a sequence is handled, and the bound is kept. *)
Lemma press_all_bounded keys w :
  pin_ok (sh w) ->
  fst (press_all pw verify others keys w) = Ok tt /\
  pin_ok (sh (snd (press_all pw verify others keys w))).
Proof.
  unfold press_all. revert w.
  induction keys as [|k keys IH]; intros w H; cbn [for_each].
  - split; [reflexivity | exact H].
  - unfold bind. pose proof (pressed_ok k w) as Hk.
    pose proof (bounded_pressed k w H) as Hb.
    destruct (pressed pw verify others k w) as [[[]|e] w1]; cbn [fst snd] in *;
      [apply IH; exact Hb | discriminate].
Qed.

(** C1.  Whatever keys are pressed (digits, "del", "ok", in any order and
    number) from a state whose PIN buffer holds at most four digits, such
    as the initial one, every key is handled and the buffer still holds at
    most four digits; in particular it does in the state in which an "ok"
    of the sequence arrives, which is the state [compare_pin] is started
    in.  A digit pressed on a buffer of four digits resets it, so that it
    holds exactly that digit. *)
Theorem pin_entry_at_most_four keys w :
  pin_ok (sh w) ->
  let out := press_all pw verify others keys w in
  fst out = Ok tt /\
  pin_ok (sh (snd out)) /\
  (forall pre post,
     keys = pre ++ "ok" :: post ->
     pin_ok (sh (snd (press_all pw verify others pre w)))) /\
  (forall d,
     is_digit d = true ->
     String.length (Gui.pin_entry (gui (sh (snd out)))) = 4%nat ->
     Gui.pin_entry (gui (sh (snd (pressed pw verify others d (snd out))))) = d).
Proof.
  intros H out. subst out.
  destruct (press_all_bounded keys w H) as [Hok Hb].
  split; [exact Hok|]. split; [exact Hb|]. split.
  - intros pre post _. apply (press_all_bounded pre w H).
  - intros d Hd Hlen.
    destruct (pressed_digit d (snd (press_all pw verify others keys w)) Hd)
      as (_ & Hp & _).
    rewrite Hp. unfold len. rewrite Hlen. reflexivity.
Qed.

(** A confirm handling that returned went through its last two
    statements. *)
Lemma compare_pin_returns w w' :
  compare_pin pw verify others w = (Ok tt, w') ->
  Gui.pin_entry (gui (sh w')) = "" /\ Gui.display (gui (sh w')) = stars_0.
Proof.
  unfold compare_pin. intros H.
  apply bind_ok_inv in H as (pin & w1 & _ & H).
  apply bind_ok_inv in H as (m1 & w2 & _ & H).
  apply bind_ok_inv in H as ([] & w3 & _ & H).
  unfold display_configure, set_pin_entry, bind, modify in H.
  injection H as <-. split; reflexivity.
Qed.

(** C2, amended.  A confirm handling in which [compare_pin] runs to its
    end leaves the PIN buffer empty and the star indicator at its empty
    image, whatever the outcome was.  A hash verification that raises is
    not caught: [compare_pin] ends at the raise with nothing changed (no
    command queued, no arming or disarming, the PIN buffer and the
    indicator as they were).  That is not the outcome of a PIN that matches
    none of the hashes, which flashes the failure indicator for a second
    and then clears the buffer and the indicator. *)
Theorem compare_pin_clears_when_it_returns w :
  let out := compare_pin pw verify others w in
  let pin := Gui.pin_entry (gui (sh w)) in
  (fst out = Ok tt ->
   Gui.pin_entry (gui (sh (snd out))) = "" /\ Gui.display (gui (sh (snd out))) = stars_0) /\
  (verify pin (on_off pw) = None \/
   (verify pin (on_off pw) = Some false /\ verify pin (silent pw) = None) \/
   (verify pin (on_off pw) = Some false /\ verify pin (silent pw) = Some false /\
    verify pin (resize pw) = None) ->
   out = (Raise ValueError, w)) /\
  (verify pin (on_off pw) = Some false -> verify pin (silent pw) = Some false ->
   verify pin (resize pw) = Some false ->
   fst out = Ok tt /\
   trace (snd out) = trace w ++ [EPrint [PStr "all wrong"]; ESleep 1000] /\
   Gui.pin_entry (gui (sh (snd out))) = "" /\ Gui.display (gui (sh (snd out))) = stars_0).
Proof.
  intros out pin. subst out pin. split; [|split].
  - intros Hok.
    destruct (compare_pin pw verify others w) as [r w'] eqn:E. cbn [fst snd] in *.
    subst r. exact (compare_pin_returns w w' E).
  - unfold compare_pin, bcrypt_verify, self, bind, gets, throw, ret.
    cbn [fst snd].
    intros [H1 | [[H1 H2] | (H1 & H2 & H3)]]; rewrite H1; cbn; try rewrite H2; cbn;
      try rewrite H3; reflexivity.
  - intros H1 H2 H3.
    unfold compare_pin, bcrypt_verify, self, print, display_configure, set_pin_entry,
      time_sleep, pass_time, emit, bind, gets, modify, throw, ret.
    cbn [fst snd]. rewrite H1. cbn. rewrite H2. cbn. rewrite H3. cbn.
    rewrite <- !app_assoc. repeat split.
Qed.

End Panel.

(** Eleven keys, with the operator entering the PIN and confirming again
    during the second tick of the countdown that the first confirm starts:
    the other thread keeps the bound by this same theorem. *)
Lemma pin_entry_at_most_four_witness :
  let keys := ["1"; "2"; "3"; "4"; "5"; "del"; "1"; "2"; "3"; "4"; "ok";
               "5"; "6"; "7"; "8"] in
  let out := Scenario.press Scenario.verifier (Scenario.reconfirm_at 1000) keys
               (initial (Up ∅)) in
  fst out = Ok tt /\
  pin_ok (sh (snd out)) /\
  Gui.pin_entry (gui (sh (snd (pressed Scenario.hashes Scenario.verifier
                                 (Scenario.reconfirm_at 1000) "9" (snd out))))) = "9".
Proof.
  intros keys out.
  assert (Hrely : forall t d s, pin_ok s -> pin_ok (Scenario.reconfirm_at 1000 t d s)).
  { intros t d s H. unfold Scenario.reconfirm_at.
    destruct (t =? 1000)%Z; [|exact H].
    apply (pin_entry_at_most_four Scenario.hashes Scenario.verifier Scenario.idle
             (fun _ _ _ H => H) ["1"; "2"; "3"; "4"; "ok"]
             {| sh := s; thr := initial_thr; clock := t; requests := 0%nat; trace := [] |}
             H). }
  assert (H0 : pin_ok (sh (initial (Up ∅)))) by (unfold pin_ok; cbn; lia).
  destruct (pin_entry_at_most_four Scenario.hashes Scenario.verifier
              (Scenario.reconfirm_at 1000) Hrely keys (initial (Up ∅)) H0)
    as (H1 & H2 & H3).
  destruct H3 as [_ H3].
  split; [exact H1 | split; [exact H2|]].
  apply H3; vm_compute; reflexivity.
Defined.

(** C2, as stated, fails: with hashes that the verifier rejects as
    malformed, a confirm of "1234" ends the handling thread at the raise;
    the PIN buffer still holds "1234" and the indicator still shows four
    stars, and no failure flash happened.  With a verifier that answers,
    the wrong PIN "123" gives the no-match outcome: the flash, then an
    empty buffer and indicator. *)
Lemma raising_verification_keeps_pin :
  let raised := snd (Scenario.press Scenario.broken_verifier Scenario.idle
                       ["1"; "2"; "3"; "4"; "ok"] (initial (Up ∅))) in
  let wrong := snd (Scenario.press Scenario.verifier Scenario.idle
                      ["1"; "2"; "3"; "ok"] (initial (Up ∅))) in
  Gui.pin_entry (gui (sh raised)) = "1234" /\
  Gui.display (gui (sh raised)) = stars_4 /\
  trace raised = [EThreadDied ValueError] /\
  Gui.pin_entry (gui (sh wrong)) = "" /\
  Gui.display (gui (sh wrong)) = stars_0 /\
  trace wrong = [EPrint [PStr "all wrong"]; ESleep 1000].
Proof. vm_compute. repeat split. Qed.

Lemma compare_pin_clears_when_it_returns_witness :
  let typed := snd (Scenario.press Scenario.verifier Scenario.idle
                      ["1"; "2"; "3"] (initial (Up ∅))) in
  (let out := compare_pin Scenario.hashes Scenario.verifier Scenario.idle typed in
   Gui.pin_entry (gui (sh (snd out))) = "" /\ Gui.display (gui (sh (snd out))) = stars_0) /\
  compare_pin Scenario.hashes Scenario.broken_verifier Scenario.idle typed =
    (Raise ValueError, typed).
Proof.
  intros typed. split.
  - destruct (compare_pin_clears_when_it_returns Scenario.hashes Scenario.verifier
                Scenario.idle typed) as (H1 & _ & H3).
    destruct (H3 eq_refl eq_refl eq_refl) as (Hok & _).
    exact (H1 Hok).
  - destruct (compare_pin_clears_when_it_returns Scenario.hashes Scenario.broken_verifier
                Scenario.idle typed) as (_ & H2 & _).
    exact (H2 (or_introl eq_refl)).
Defined.

(** An abort re-confirm during the second tick of the countdown: the nine
    ticks still elapse, then the arming is dropped. *)
Example abort_reconfirm_still_waits_nine_ticks :
  let out := Scenario.press Scenario.verifier (Scenario.reconfirm_at 1000)
               ["1"; "2"; "3"; "4"; "ok"] (initial (Up ∅)) in
  fst out = Ok tt /\
  sleeps (trace (snd out)) = repeat 1000 9 /\
  clock (snd out) = 9000 /\
  Gui.alarm_status (gui (sh (snd out))) = false /\
  Gui.cooldown (gui (sh (snd out))) = false /\
  Gui.stop_cooldown (gui (sh (snd out))) = false /\
  Gui.cooldown_counter (gui (sh (snd out))) = 0 /\
  alarm_queue (sh (snd out)) = [].
Proof. vm_compute. repeat split. Qed.

(** The same at whichever of the nine ticks the re-confirm comes. *)
Lemma abort_reconfirm_at_any_tick k :
  0 <= k < 9 ->
  let out := Scenario.press Scenario.verifier (Scenario.reconfirm_at (1000 * k))
               ["1"; "2"; "3"; "4"; "ok"] (initial (Up ∅)) in
  fst out = Ok tt /\
  sleeps (trace (snd out)) = repeat 1000 9 /\
  clock (snd out) = 9000 /\
  Gui.alarm_status (gui (sh (snd out))) = false /\
  alarm_queue (sh (snd out)) = [].
Proof.
  intros Hk.
  assert (Hcases : k = 0 \/ k = 1 \/ k = 2 \/ k = 3 \/ k = 4 \/ k = 5 \/ k = 6 \/
                   k = 7 \/ k = 8) by lia.
  repeat (destruct Hcases as [-> | Hcases]; [vm_compute; repeat split|]).
  subst k. vm_compute. repeat split.
Qed.

(** Without the re-confirm the same countdown ends armed. *)
Example undisturbed_countdown_arms :
  let out := Scenario.press Scenario.verifier Scenario.idle
               ["1"; "2"; "3"; "4"; "ok"] (initial (Up ∅)) in
  fst out = Ok tt /\
  sleeps (trace (snd out)) = repeat 1000 9 /\
  clock (snd out) = 9000 /\
  Gui.alarm_status (gui (sh (snd out))) = true /\
  alarm_queue (sh (snd out)) = ["alarm"].
Proof. vm_compute. repeat split. Qed.

End PanelProofs.


(** ** How the presence monitor polls, detects and publishes *)

Module MonitorBehaviour.

Import CameraSensor PyFacts.

Lemma literal_eval_str n : literal_eval (str n) = Ok n.
Proof.
  unfold literal_eval, str.
  assert (H : NilZero.int_of_string (NilZero.string_of_int (Z.to_int n)) = Some (Z.to_int n)).
  { apply NilZero.isi; destruct n; cbn; intros [= E];
      revert E; apply DecimalPos.Unsigned.to_uint_nonnil. }
  rewrite H. rewrite DecimalZ.of_to. fold (str n). rewrite String.eqb_refl. reflexivity.
Qed.

Lemma bind_cong {W A B} (m : M W A) (k k' : A -> M W B) w :
  (forall a w1, k a w1 = k' a w1) -> bind m k w = bind m k' w.
Proof. intros H. unfold bind. destruct (m w) as [[a|e] w1]; [apply H | reflexivity]. Qed.

Lemma extend_extend w t u : extend (extend w t) u = extend w (t ++ u).
Proof. unfold extend. cbn. now rewrite app_assoc. Qed.

Lemma extend_nil w : extend w [] = w.
Proof. unfold extend. rewrite app_nil_r. now destruct w. Qed.

Lemma read_status_spec w db b v :
  redis w = Up db -> db !! "trigger_status" = Some b -> literal_eval b = Ok v ->
  read_status w = (Ok v, extend w [ERedis (RGet "trigger_status")]).
Proof.
  intros Hup Hkey Hlit. unfold read_status, r_get, emit, bind, modify, gets, ret, extend.
  cbn. rewrite Hup, Hkey, Hlit. reflexivity.
Qed.

Section Monitor.

Variables (timeout : Z) (device_name : string) (others : Z -> Z -> conn -> conn).
Variables (video_read : Z -> option image) (forward_ms : image -> Z).
Variables (kept : image -> list detection) (draw : image -> Z * Z * Z * Z -> image).
Variables (jpg_b64 : image -> string) (strftime : Z -> string).

(** One poll that finds a status in the store. *)
Lemma main_iter_reads l w db b v :
  redis w = Up db -> db !! "trigger_status" = Some b -> literal_eval b = Ok v ->
  (v <> 1 \/ is_last_frame l < 5) ->
  main_iter timeout device_name others video_read forward_ms kept draw jpg_b64 strftime l w =
    (Ok {| is_last_frame := if (v =? 1)%Z then is_last_frame l + 1 else is_last_frame l;
           trigger_status := v |},
     extend w (polls 1)).
Proof.
  intros Hup Hkey Hlit Hcase. unfold main_iter.
  assert (Hex : r_exists "trigger_status" w =
                  (Ok true, extend w [ERedis (RExists "trigger_status")])).
  { unfold r_exists, emit, bind, modify, gets, ret, extend. cbn. rewrite Hup.
    rewrite bool_decide_eq_true_2 by (rewrite Hkey; eauto). reflexivity. }
  rewrite (bind_ok _ _ _ _ _ Hex). cbv iota.
  rewrite (bind_ok _ _ _ _ _
             (read_status_spec (extend w [ERedis (RExists "trigger_status")])
                db b v Hup Hkey Hlit)).
  rewrite extend_extend. cbn [app polls repeat concat].
  destruct (Z.eqb_spec v 1) as [->|Hne].
  - destruct Hcase as [Hc|Hc]; [congruence|].
    destruct (Z.leb_spec 5 (is_last_frame l)); [lia | reflexivity].
  - reflexivity.
Qed.

Lemma polls_app n m : polls n ++ polls m = polls (n + m).
Proof. unfold polls. now rewrite repeat_app, concat_app. Qed.

(** While the store says disarmed the monitor only polls, however long:
    the frame counter stays where it is, no time is spent, the detector
    is not run and the store is not written. *)
Theorem disarmed_monitor_only_polls n l w db b v :
  redis w = Up db -> db !! "trigger_status" = Some b -> literal_eval b = Ok v ->
  v <> 1 ->
  exists l',
    main_loop timeout device_name others video_read forward_ms kept draw jpg_b64
      strftime n l w = (Ok l', extend w (polls n)) /\
    is_last_frame l' = is_last_frame l.
Proof.
  intros Hup Hkey Hlit Hne. revert l w Hup.
  induction n as [|n IH]; intros l w Hup; cbn [main_loop].
  - exists l. unfold ret. cbn [polls repeat concat]. now rewrite extend_nil.
  - rewrite (bind_ok _ _ _ _ _ (main_iter_reads l w db b v Hup Hkey Hlit (or_introl Hne))).
    destruct (Z.eqb_spec v 1) as [E|_]; [contradiction|].
    destruct (IH {| is_last_frame := is_last_frame l; trigger_status := v |}
                 (extend w (polls 1)) Hup) as (l' & Hrun & Hl').
    exists l'. rewrite Hrun, extend_extend, polls_app. auto.
Qed.

(** Iterations compose. *)
Lemma main_loop_add n m l w :
  main_loop timeout device_name others video_read forward_ms kept draw jpg_b64
    strftime (n + m) l w =
  bind (main_loop timeout device_name others video_read forward_ms kept draw jpg_b64
          strftime n l)
       (main_loop timeout device_name others video_read forward_ms kept draw jpg_b64
          strftime m) w.
Proof.
  revert l w. induction n as [|n IH]; intros l w; cbn [main_loop Nat.add].
  - reflexivity.
  - rewrite bind_assoc. apply bind_cong. intros l1 w1. apply IH.
Qed.

(** While armed, the first five polls only count. *)
Lemma armed_monitor_counts n k ts w db b :
  redis w = Up db -> db !! "trigger_status" = Some b -> literal_eval b = Ok 1 ->
  k + Z.of_nat n <= 5 ->
  main_loop timeout device_name others video_read forward_ms kept draw jpg_b64
    strftime n {| is_last_frame := k; trigger_status := ts |} w =
    (Ok {| is_last_frame := k + Z.of_nat n;
           trigger_status := match n with O => ts | S _ => 1 end |},
     extend w (polls n)).
Proof.
  intros Hup Hkey Hlit. revert k ts w Hup.
  induction n as [|n IH]; intros k ts w Hup Hk; cbn [main_loop].
  - unfold ret. cbn [polls repeat concat]. now rewrite extend_nil, Z.add_0_r.
  - assert (Hlt : is_last_frame {| is_last_frame := k; trigger_status := ts |} < 5)
      by (cbn [is_last_frame]; lia).
    rewrite (bind_ok _ _ _ _ _
               (main_iter_reads {| is_last_frame := k; trigger_status := ts |} w db b 1
                  Hup Hkey Hlit (or_intror Hlt))).
    cbn [Z.eqb Pos.eqb is_last_frame].
    assert (Hk' : k + 1 + Z.of_nat n <= 5) by lia.
    rewrite (IH (k + 1) 1 (extend w (polls 1)) Hup Hk').
    rewrite extend_extend, polls_app.
    replace (k + 1 + Z.of_nat n) with (k + Z.of_nat (S n)) by lia.
    replace (match n with O => 1 | S _ => 1 end) with 1 by now destruct n.
    reflexivity.
Qed.

(** Nothing but persons is published: an image in which the detector
    keeps no person costs the inference time and nothing else; the store
    is neither read nor written and the gate does not wait. *)
Theorem detect_person_ignores_other_classes img w :
  Forall (fun d => label d <> "person") (kept img) ->
  detect_person timeout device_name others forward_ms kept draw jpg_b64 strftime img w =
    (Ok tt,
     {| redis := others (clock w) (forward_ms img) (redis w);
        clock := clock w + forward_ms img;
        trace := trace w |}).
Proof.
  intros Hall. unfold detect_person, time_time, pass_time, bind, gets, modify.
  cbn [fst snd].
  set (w1 := {| redis := _; clock := _; trace := _ |}).
  clearbody w1. revert w1.
  generalize img at 2 as i.
  induction Hall as [|d ds Hd _ IH]; intros i w1; cbn [persons].
  - reflexivity.
  - apply String.eqb_neq in Hd. rewrite Hd. apply IH.
Qed.

(** An armed poll whose count has reached five takes a frame and runs the
    detector. *)
Lemma main_iter_samples l w db b img :
  redis w = Up db -> db !! "trigger_status" = Some b -> literal_eval b = Ok 1 ->
  5 <= is_last_frame l ->
  video_read (clock w) = Some img ->
  Forall (fun d => label d <> "person") (kept img) ->
  main_iter timeout device_name others video_read forward_ms kept draw jpg_b64 strftime l w =
    (Ok {| is_last_frame := 0; trigger_status := 1 |},
     {| redis := others (clock w) (forward_ms img) (redis w);
        clock := clock w + forward_ms img;
        trace := trace w ++ polls 1 |}).
Proof.
  intros Hup Hkey Hlit Hfive Hvid Hall. unfold main_iter.
  assert (Hex : r_exists "trigger_status" w =
                  (Ok true, extend w [ERedis (RExists "trigger_status")])).
  { unfold r_exists, emit, bind, modify, gets, ret, extend. cbn. rewrite Hup.
    rewrite bool_decide_eq_true_2 by (rewrite Hkey; eauto). reflexivity. }
  rewrite (bind_ok _ _ _ _ _ Hex). cbv iota.
  rewrite (bind_ok _ _ _ _ _
             (read_status_spec (extend w [ERedis (RExists "trigger_status")])
                db b 1 Hup Hkey Hlit)).
  cbn [Z.eqb Pos.eqb].
  destruct (Z.leb_spec 5 (is_last_frame l)); [|lia].
  unfold time_time at 1. unfold bind at 1, gets at 1. cbn [extend clock].
  rewrite Hvid.
  rewrite (bind_ok _ _ _ _ _ (detect_person_ignores_other_classes img _ Hall)).
  unfold ret. cbn. rewrite <- !app_assoc. reflexivity.
Qed.

(** While armed the monitor samples every sixth poll: five polls only
    count, the sixth takes a frame, runs the detector and starts the
    count again. *)
Theorem monitor_samples_every_sixth_poll ts w db b img :
  redis w = Up db -> db !! "trigger_status" = Some b -> literal_eval b = Ok 1 ->
  video_read (clock w) = Some img ->
  Forall (fun d => label d <> "person") (kept img) ->
  (forall n, (n <= 5)%nat ->
     exists l',
       main_loop timeout device_name others video_read forward_ms kept draw jpg_b64
         strftime n {| is_last_frame := 0; trigger_status := ts |} w =
         (Ok l', extend w (polls n)) /\
       is_last_frame l' = Z.of_nat n) /\
  main_loop timeout device_name others video_read forward_ms kept draw jpg_b64
    strftime 6 {| is_last_frame := 0; trigger_status := ts |} w =
    (Ok {| is_last_frame := 0; trigger_status := 1 |},
     {| redis := others (clock w) (forward_ms img) (redis w);
        clock := clock w + forward_ms img;
        trace := trace w ++ polls 6 |}).
Proof.
  intros Hup Hkey Hlit Hvid Hall. split.
  - intros n Hn.
    assert (H0 : 0 + Z.of_nat n <= 5) by lia.
    eexists. split; [exact (armed_monitor_counts n 0 ts w db b Hup Hkey Hlit H0) |].
    reflexivity.
  - change 6%nat with (5 + 1)%nat. rewrite main_loop_add.
    assert (H0 : 0 + Z.of_nat 5 <= 5) by (cbn; lia).
    rewrite (bind_ok _ _ _ _ _ (armed_monitor_counts 5 0 ts w db b Hup Hkey Hlit H0)).
    cbn [main_loop Z.add Z.of_nat Pos.of_succ_nat Pos.succ].
    rewrite (bind_ok _ _ _ _ _
               (main_iter_samples {| is_last_frame := 5; trigger_status := 1 |}
                  (extend w (polls 5)) db b img Hup Hkey Hlit ltac:(cbn; lia) Hvid Hall)).
    unfold ret, extend. cbn. rewrite <- !app_assoc. reflexivity.
Qed.

(** What stops a publication after the wait: the exception comes only
    when the whole wait is over, and nothing is written.  An unreachable
    store raises [ConnectionError]; a store without a status (flushed
    meanwhile) raises [AttributeError], as [None] has no [decode]. *)
Theorem save_image_fails_after_the_wait img w :
  let w1 := snd (gate_wait timeout others w) in
  let out := save_image timeout device_name others jpg_b64 strftime img w in
  (redis w1 = Down \/ (exists db, redis w1 = Up db /\ db !! "trigger_status" = None)) ->
  fst out = Raise (match redis w1 with Down => ConnectionError | Up _ => AttributeError end) /\
  redis (snd out) = redis w1 /\
  writes (trace (snd out)) = writes (trace w) /\
  sleeps (trace (snd out)) =
    sleeps (trace w) ++ (if (0 <=? timeout)%Z then [timeout] else []).
Proof.
  intros w1 out Hcase. subst out. unfold save_image.
  pose proof (CameraSensorProofs.gate_wait_writes timeout others w) as Hw.
  pose proof (CameraSensorProofs.gate_wait_sleeps timeout others w) as Hs.
  pose proof (CameraSensorProofs.gate_wait_ok timeout others w) as Hok.
  destruct (gate_wait timeout others w) as [r1 w1'] eqn:Hg.
  cbn [fst snd] in *. subst r1 w1.
  rewrite (bind_ok _ _ _ _ _ Hg).
  destruct w1' as [rd ck tr]. cbn [redis clock trace] in *.
  unfold read_status, r_get, time_time, emit, bind, modify, gets, ret, throw.
  cbn [redis clock trace fst snd].
  destruct Hcase as [-> | (db & -> & Hkey)]; [| rewrite Hkey];
    cbn [fst snd redis trace]; rewrite writes_app, sleeps_app, Hw, Hs; cbn;
    rewrite !app_nil_r; auto.
Qed.

(** One wait and one publication while the store says armed. *)
Lemma save_image_armed img w b :
  0 <= timeout ->
  (forall t d c, says b c -> says b (others t d c)) ->
  literal_eval b = Ok 1 ->
  says b (redis w) ->
  let out := save_image timeout device_name others jpg_b64 strftime img w in
  fst out = Ok tt /\
  sleeps (trace (snd out)) = sleeps (trace w) ++ [timeout] /\
  map fst (writes (trace (snd out))) =
    map fst (writes (trace w)) ++ ["trigger_dev"; "frame"] /\
  clock (snd out) = clock w + timeout /\
  says b (redis (snd out)).
Proof.
  intros Hpos Hrely Hlit Hsays out. subst out. unfold save_image.
  pose proof (CameraSensorProofs.gate_wait_spec timeout others w) as Hg.
  destruct (Z.leb_spec 0 timeout) as [_|Hneg]; [|lia].
  rewrite (bind_ok _ _ _ _ _ Hg).
  destruct (Hrely (clock w) timeout _ Hsays) as (db & Hup & Hkey).
  unfold read_status, r_get, r_set, time_time, print, logger, emit,
    bind, modify, gets, ret, throw.
  cbn [redis clock trace fst snd]. rewrite Hup. cbn [redis clock trace fst snd].
  rewrite Hkey, Hlit. cbn [Z.eqb Pos.eqb redis clock trace fst snd].
  repeat split.
  - rewrite !sleeps_app. cbn. now rewrite !app_nil_r.
  - rewrite !writes_app, !map_app. cbn. rewrite !app_nil_r, <- !app_assoc. reflexivity.
  - eexists. split; [reflexivity|].
    rewrite lookup_insert_ne by discriminate.
    rewrite lookup_insert_ne by discriminate. exact Hkey.
Qed.

Lemma persons_armed ds img w b :
  0 <= timeout ->
  (forall t d c, says b c -> says b (others t d c)) ->
  literal_eval b = Ok 1 ->
  says b (redis w) ->
  let out := persons timeout device_name others draw jpg_b64 strftime ds img w in
  fst out = Ok tt /\
  sleeps (trace (snd out)) = sleeps (trace w) ++ repeat timeout (persons_in ds) /\
  map fst (writes (trace (snd out))) =
    map fst (writes (trace w)) ++ concat (repeat ["trigger_dev"; "frame"] (persons_in ds)) /\
  clock (snd out) = clock w + timeout * Z.of_nat (persons_in ds) /\
  says b (redis (snd out)).
Proof.
  intros Hpos Hrely Hlit. revert img w.
  induction ds as [|d ds IH]; intros img w Hsays out.
  - subst out. cbn. rewrite !app_nil_r. repeat split; auto. lia.
  - unfold persons_in in *. cbn [List.filter].
    destruct (String.eqb (label d) "person") eqn:E.
    + set (w0 := {| redis := redis w; clock := clock w;
                    trace := (trace w ++ [EPrint [PStr "person detected"]])
                               ++ [ELog WARNING "Person detected!"] |}).
      assert (Hout : out =
                bind (save_image timeout device_name others jpg_b64 strftime
                        (draw img (box d)))
                     (fun _ => persons timeout device_name others draw jpg_b64 strftime
                                 ds (draw img (box d))) w0).
      { subst out. cbn [persons]. rewrite E. reflexivity. }
      clearbody out. subst out.
      assert (Hs0 : says b (redis w0)) by exact Hsays.
      destruct (save_image_armed (draw img (box d)) w0 b Hpos Hrely Hlit Hs0)
        as (Hok & Hsl & Hwr & Hck & Hsy).
      unfold bind.
      destruct (save_image timeout device_name others jpg_b64 strftime
                  (draw img (box d)) w0) as [[[]|e] w1]; cbn [fst snd] in *;
        [|discriminate].
      destruct (IH (draw img (box d)) w1 Hsy) as (Hok' & Hsl' & Hwr' & Hck' & Hsy').
      split; [exact Hok'|]. cbn [length repeat concat].
      rewrite Hsl', Hsl, Hwr', Hwr, Hck', Hck.
      assert (Hw0 : sleeps (trace w0) = sleeps (trace w) /\
                    writes (trace w0) = writes (trace w) /\ clock w0 = clock w).
      { subst w0. cbn. rewrite !sleeps_app, !writes_app. cbn. now rewrite !app_nil_r. }
      destruct Hw0 as (-> & -> & ->).
      repeat split; auto.
      * rewrite <- !app_assoc. reflexivity.
      * rewrite <- !app_assoc. reflexivity.
      * lia.
    + assert (Hout : out = persons timeout device_name others draw jpg_b64 strftime
                             ds img w).
      { subst out. cbn [persons]. rewrite E. reflexivity. }
      clearbody out. subst out. apply IH. exact Hsays.
Qed.

(** Every person the detector keeps in one image gets a wait of the whole
    quiet window and a publication of its own, one after the other, as long
    as the store keeps saying armed: an image with [k] persons holds the
    monitor for [k] quiet windows and writes the trigger record [k]
    times. *)
Theorem each_person_waits_and_publishes img w b :
  0 <= timeout ->
  (forall t d c, says b c -> says b (others t d c)) ->
  literal_eval b = Ok 1 ->
  says b (redis w) ->
  let out := detect_person timeout device_name others forward_ms kept draw jpg_b64
               strftime img w in
  let k := persons_in (kept img) in
  fst out = Ok tt /\
  sleeps (trace (snd out)) = sleeps (trace w) ++ repeat timeout k /\
  map fst (writes (trace (snd out))) =
    map fst (writes (trace w)) ++ concat (repeat ["trigger_dev"; "frame"] k) /\
  clock (snd out) = clock w + forward_ms img + timeout * Z.of_nat k.
Proof.
  intros Hpos Hrely Hlit Hsays out k. subst out k.
  unfold detect_person, time_time, pass_time, bind, gets, modify. cbn [fst snd].
  match goal with
  | |- context [persons _ _ _ _ _ _ ?ds ?i ?w1] =>
      destruct (persons_armed ds i w1 b Hpos Hrely Hlit) as (H1 & H2 & H3 & H4 & _);
        [cbn [redis]; apply Hrely; exact Hsays |]
  end.
  cbn [trace clock] in *. auto.
Qed.

End Monitor.

(** What the panel writes as the armed status is what the monitor reads:
    for every integer [n], after [set_status n] on a reachable store the
    monitor's read of the status evaluates to [n]. *)
Theorem status_written_is_status_read n w db :
  Process.redis (Process.sh w) = Up db ->
  let out := Instasolution.set_status n w in
  fst out = Ok tt /\
  (forall cw, redis cw = Process.redis (Process.sh (snd out)) ->
              fst (read_status cw) = Ok n).
Proof.
  intros Hup out. subst out.
  unfold Instasolution.set_status, Instasolution.r_set, Process.logger, Process.emit,
    bind, modify, gets. cbn. rewrite Hup. cbn. split; [reflexivity|].
  intros cw Hcw.
  erewrite read_status_spec; [reflexivity | exact Hcw | apply lookup_insert_eq |].
  apply literal_eval_str.
Qed.

Lemma no_person_kept : Forall (fun d => label d <> "person") (Scenario.no_person "img").
Proof.
  unfold Scenario.no_person.
  repeat (apply List.Forall_cons; [discriminate|]). apply List.Forall_nil.
Defined.

Lemma disarmed_monitor_only_polls_witness :
  exists l',
    Scenario.poll 4 init (Scenario.camera_world Scenario.disarmed_store) =
      (Ok l', extend (Scenario.camera_world Scenario.disarmed_store) (polls 4)) /\
    is_last_frame l' = 0.
Proof.
  exact (disarmed_monitor_only_polls 10000 "front" Scenario.idle
           (fun _ => Some "img") (fun _ => 300) Scenario.one_person
           (fun img _ => img) (fun _ => "QUJD") (fun _ => "2021_06_01_12_00_00")
           4 init (Scenario.camera_world Scenario.disarmed_store)
           {[ "trigger_status" := "0" ]} "0" 0 eq_refl eq_refl eq_refl
           ltac:(discriminate)).
Defined.

Lemma detect_person_ignores_other_classes_witness :
  Scenario.detect_with Scenario.no_person (Scenario.camera_world Scenario.armed_store) =
    (Ok tt, {| redis := Scenario.armed_store; clock := 300; trace := [] |}).
Proof.
  exact (detect_person_ignores_other_classes 10000 "front" Scenario.idle
           (fun _ => 300) Scenario.no_person (fun img _ => img) (fun _ => "QUJD")
           (fun _ => "2021_06_01_12_00_00") "img"
           (Scenario.camera_world Scenario.armed_store) no_person_kept).
Defined.

Lemma monitor_samples_every_sixth_poll_witness :
  Scenario.poll_with Scenario.no_person 6 init
    (Scenario.camera_world Scenario.armed_store) =
    (Ok {| is_last_frame := 0; trigger_status := 1 |},
     {| redis := Scenario.armed_store; clock := 300; trace := polls 6 |}).
Proof.
  exact (proj2 (monitor_samples_every_sixth_poll 10000 "front" Scenario.idle
                  (fun _ => Some "img") (fun _ => 300) Scenario.no_person
                  (fun img _ => img) (fun _ => "QUJD")
                  (fun _ => "2021_06_01_12_00_00") 0
                  (Scenario.camera_world Scenario.armed_store)
                  {[ "trigger_status" := "1" ]} "1" "img"
                  eq_refl eq_refl eq_refl eq_refl no_person_kept)).
Defined.

Lemma save_image_fails_after_the_wait_witness :
  (let out := Scenario.save Scenario.store_lost
                (Scenario.camera_world Scenario.armed_store) in
   fst out = Raise ConnectionError /\ sleeps (trace (snd out)) = [10000] /\
   writes (trace (snd out)) = []) /\
  (let out := Scenario.save Scenario.flushed_meanwhile
                (Scenario.camera_world Scenario.armed_store) in
   fst out = Raise AttributeError /\ sleeps (trace (snd out)) = [10000] /\
   writes (trace (snd out)) = []).
Proof.
  split.
  - destruct (save_image_fails_after_the_wait 10000 "front" Scenario.store_lost
                (fun _ => "QUJD") (fun _ => "2021_06_01_12_00_00") "img"
                (Scenario.camera_world Scenario.armed_store) (or_introl eq_refl))
      as (H1 & _ & H3 & H4).
    exact (conj H1 (conj H4 H3)).
  - destruct (save_image_fails_after_the_wait 10000 "front" Scenario.flushed_meanwhile
                (fun _ => "QUJD") (fun _ => "2021_06_01_12_00_00") "img"
                (Scenario.camera_world Scenario.armed_store)
                (or_intror (ex_intro _ ∅ (conj eq_refl eq_refl))))
      as (H1 & _ & H3 & H4).
    exact (conj H1 (conj H4 H3)).
Defined.

Lemma each_person_waits_and_publishes_witness :
  let out := Scenario.detect_with Scenario.two_persons
               (Scenario.camera_world Scenario.armed_store) in
  fst out = Ok tt /\
  sleeps (trace (snd out)) = [10000; 10000] /\
  map fst (writes (trace (snd out))) = ["trigger_dev"; "frame"; "trigger_dev"; "frame"] /\
  clock (snd out) = 20300.
Proof.
  exact (each_person_waits_and_publishes 10000 "front" Scenario.idle
           (fun _ => 300) Scenario.two_persons (fun img _ => img) (fun _ => "QUJD")
           (fun _ => "2021_06_01_12_00_00") "img"
           (Scenario.camera_world Scenario.armed_store) "1"
           ltac:(discriminate) (fun _ _ _ H => H) eq_refl
           (ex_intro _ {[ "trigger_status" := "1" ]} (conj eq_refl eq_refl))).
Defined.

Lemma status_written_is_status_read_witness :
  let out := Instasolution.set_status 1 (Process.initial (Up ∅)) in
  fst out = Ok tt /\
  fst (read_status (Scenario.camera_world (Process.redis (Process.sh (snd out))))) = Ok 1.
Proof.
  destruct (status_written_is_status_read 1 (Process.initial (Up ∅)) ∅ eq_refl)
    as (H1 & H2).
  split; [exact H1 |].
  apply H2. reflexivity.
Defined.

End MonitorBehaviour.


(** ** How the remote alarm client ends a submission *)

Module ClientBehaviour.

Import Instasolution PyFacts ClientProofs.

(** Observations on a trace that is given as what was added to another. *)
Ltac observe :=
  rewrite ?sent_app, ?store_ops_app, ?logged_app, ?persistence_app, ?writes_app;
  cbn -[String.append];
  rewrite ?app_nil_r, <- ?app_assoc;
  repeat split; auto.

Section Client.

Variable settings : api.
Variable backend : nat -> request -> http_result.
Variable loads_session : string -> option jval.
Variable try_decode : string -> (string * string) + string.

(** A kind that is neither "alarm" nor "sos" is dropped before any request
    is made, with DEBUG entries only. *)
Theorem unknown_kind_sends_nothing t w :
  t <> "alarm" -> t <> "sos" ->
  let out := activate_alarm settings backend loads_session try_decode (Some t) w in
  fst out = Ok tt /\
  sent (trace (snd out)) = sent (trace w) /\
  store_ops (trace (snd out)) = store_ops (trace w) /\
  logged DEBUG (trace (snd out)) =
    logged DEBUG (trace w) ++ ["Preparing alarm request"; "Trigger_msg not recognized";
                               ("Trigger_msg was: " ++ t)%string;
                               "Canceling the alarm triggering because of event"] /\
  logged ERROR (trace (snd out)) = logged ERROR (trace w) /\
  logged WARNING (trace (snd out)) = logged WARNING (trace w).
Proof.
  intros Ha Hs out. subst out.
  apply String.eqb_neq in Ha. apply String.eqb_neq in Hs.
  unfold activate_alarm, get_alarm_type, print, logger, emit, bind, modify, gets, ret.
  cbn -[String.append sent store_ops logged]. rewrite Ha, Hs.
  cbn -[String.append sent store_ops logged]. observe.
Qed.

Lemma jval_eqb_str x key : jval_eqb x (JStr key) = true <-> x = JStr key.
Proof.
  destruct x; cbn; try (split; [discriminate | intros [=]]).
  rewrite String.eqb_eq. split; [now intros -> | now intros [=]].
Qed.

Lemma str_in_list key items :
  existsb (fun x => jval_eqb x (JStr key)) items = true <-> In (JStr key) items.
Proof.
  rewrite existsb_exists. split.
  - intros (x & Hin & Hx). apply jval_eqb_str in Hx. now subst x.
  - intros Hin. exists (JStr key). split; [exact Hin | now apply jval_eqb_str].
Qed.

Lemma str_not_in_list key items :
  Forall (fun x => x <> JStr key) items ->
  existsb (fun x => jval_eqb x (JStr key)) items = false.
Proof.
  intros Hall. destruct (existsb _ items) eqn:E; [|reflexivity].
  apply str_in_list in E. rewrite List.Forall_forall in Hall.
  now destruct (Hall _ E).
Qed.

(** Every decoded body is of one of the three kinds: it holds a session,
    the test for "sessionId" finds nothing in it, or reading it raises. *)
Lemma session_body_cases v :
  (exists body user sid uid,
     v = JObj body /\ obj_get "sessionId" body = Some sid /\
     obj_get "user" body = Some (JObj user) /\ obj_get "id" user = Some uid) \/
  without_session v \/
  exists e, unreadable (Some v) e.
Proof.
  destruct v as [s|n|r m|b| |items|items].
  - destruct (String.index 0 "sessionId" s) as [n|] eqn:E.
    + right. right. exists TypeError. exact (str_with_session s n E).
    + right. left. exact E.
  - right. right. exists TypeError. exact (not_iterable (JNum n) I).
  - right. right. exists TypeError. exact (not_iterable (JFloat r m) I).
  - right. right. exists TypeError. exact (not_iterable (JBool b) I).
  - right. right. exists TypeError. exact (not_iterable JNull I).
  - destruct (existsb (fun x => jval_eqb x (JStr "sessionId")) items) eqn:E.
    + right. right. exists TypeError. apply list_with_session. now apply str_in_list.
    + right. left. cbn. apply List.Forall_forall. intros x Hin ->.
      apply str_in_list in Hin. rewrite Hin in E. discriminate.
  - destruct (obj_get "sessionId" items) as [sid|] eqn:Hs; [|right; left; exact Hs].
    destruct (obj_get "user" items) as [user|] eqn:Hu;
      [|right; right; exists KeyError; exact (without_user items sid Hs Hu)].
    destruct user as [s|n|r m|b| |us|us];
      try (right; right; exists TypeError;
           refine (user_not_a_dict items sid _ Hs Hu I)).
    destruct (obj_get "id" us) as [uid|] eqn:Hi.
    + left. exists items, us, sid, uid. auto.
    + right. right. exists KeyError. exact (user_without_id items sid us Hs Hu Hi).
Qed.

(** The world after the login request. *)
Lemma get_session_id_posts w :
  get_session_id settings backend loads_session w =
    bind (ret (backend (requests w) (login_request settings)))
         (fun response =>
            match response with
            | HTimeout e =>
                bind (logger ERROR ("There was a Timeout error while sending the request to get the sessionId: " ++ e))
                     (fun _ => ret (JNum (-1), JNum (-1)))
            | HRequestException e =>
                bind (logger ERROR ("There was an error while sending the request to get the sessionId: " ++ e))
                     (fun _ => ret (JNum (-1), JNum (-1)))
            | HException e =>
                bind (logger ERROR ("There was an error while sending the request to get the sessionId: " ++ e))
                     (fun _ => ret (JNum (-1), JNum (-1)))
            | HResponse status_code text =>
                if negb (status_code =? 200)%Z then
                  bind (logger ERROR ("An error happened when getting / creating session Id: " ++ text))
                    (fun _ => bind (logger WARNING ("An error happened when getting / creating session id: " ++ text))
                    (fun _ => bind (logger DEBUG ("payload: " ++ repr_dict (login_payload settings)))
                    (fun _ => ret (JNum (-1), JNum (-1)))))
                else
                  match loads_session text with
                  | None => throw JSONDecodeError
                  | Some response_value =>
                      bind (lift (py_in "sessionId" response_value)) (fun found =>
                      if negb found then
                        bind (logger ERROR ("An error happened; No sessionId: " ++ text))
                          (fun _ => bind (logger DEBUG ("payload: " ++ repr_dict (login_payload settings)))
                          (fun _ => ret (JNum (-1), JNum (-1))))
                      else
                        bind (lift (py_getitem response_value "sessionId")) (fun session_id =>
                        bind (lift (py_getitem response_value "user")) (fun user =>
                        bind (lift (py_getitem user "id")) (fun user_id =>
                        ret (session_id, user_id)))))
                  end
            end)
         {| sh := sh w; thr := thr w; clock := clock w;
            requests := S (requests w);
            trace := trace w ++ [EHttp (login_request settings)
                                   (backend (requests w) (login_request settings))] |}.
Proof.
  unfold get_session_id. rewrite (bind_ok _ _ _ _ _ (requests_post_spec _ _ _)).
  reflexivity.
Qed.

(** A login that fails gives the failure value after one ERROR entry. *)
Lemma get_session_id_fails w :
  ((forall text, backend (requests w) (login_request settings) <> HResponse 200 text) \/
   (exists text v, backend (requests w) (login_request settings) = HResponse 200 text /\
                   loads_session text = Some v /\ without_session v)) ->
  exists err tl,
    get_session_id settings backend loads_session w =
      (Ok (JNum (-1), JNum (-1)),
       {| sh := sh w; thr := thr w; clock := clock w;
          requests := S (requests w);
          trace := trace w ++ EHttp (login_request settings)
                                (backend (requests w) (login_request settings))
                           :: ELog ERROR err :: tl |}) /\
    logged ERROR tl = [] /\ sent tl = [] /\ persistence tl = [].
Proof.
  intros Hfail. rewrite get_session_id_posts.
  unfold logger, emit, lift, bind, modify, ret, throw. cbn [fst snd].
  destruct Hfail as [Hne | (text0 & v & Hres & Hbody & Hv)].
  - destruct (backend (requests w) (login_request settings)) as [e|e|e|code text] eqn:E.
    + do 2 eexists. cbn. rewrite <- app_assoc. split; [reflexivity|]. repeat split.
    + do 2 eexists. cbn. rewrite <- app_assoc. split; [reflexivity|]. repeat split.
    + do 2 eexists. cbn. rewrite <- app_assoc. split; [reflexivity|]. repeat split.
    + destruct (Z.eqb_spec code 200) as [->|Hc]; [exfalso; exact (Hne text eq_refl)|].
      do 2 eexists. cbn. rewrite <- !app_assoc. split; [reflexivity|]. repeat split.
  - rewrite Hres. cbn [negb Z.eqb Pos.eqb]. rewrite Hbody.
    assert (Hin : py_in "sessionId" v = Ok false).
    { destruct v as [s| | | | |items|items]; cbn in Hv; try contradiction; unfold py_in.
      - now rewrite Hv.
      - now rewrite (str_not_in_list _ _ Hv).
      - now rewrite Hv. }
    rewrite Hin. do 2 eexists. cbn. rewrite <- !app_assoc.
    split; [reflexivity|]. repeat split.
Qed.

(** A body that cannot be read raises right after the login request. *)
Lemma get_session_id_raises w text e :
  backend (requests w) (login_request settings) = HResponse 200 text ->
  unreadable (loads_session text) e ->
  get_session_id settings backend loads_session w =
    (Raise e,
     {| sh := sh w; thr := thr w; clock := clock w;
        requests := S (requests w);
        trace := trace w ++ [EHttp (login_request settings) (HResponse 200 text)] |}).
Proof.
  intros Hres Hbody. rewrite get_session_id_posts.
  unfold lift, bind, ret, throw. cbn [fst snd]. rewrite Hres. cbn [negb Z.eqb Pos.eqb].
  remember (loads_session text) as b eqn:Hb.
  destruct Hbody as [ | v Hv | items Hin | s n Hn | items sid Hs Hu
                    | items sid user Hs Hu Hnd | items sid user Hs Hu Hi ].
  - reflexivity.
  - destruct v; try contradiction; reflexivity.
  - unfold py_in. apply str_in_list in Hin. rewrite Hin. reflexivity.
  - unfold py_in. rewrite Hn. reflexivity.
  - unfold py_in, py_getitem. rewrite Hs, Hu. reflexivity.
  - unfold py_in, py_getitem. rewrite Hs, Hu. destruct user; try contradiction; reflexivity.
  - unfold py_in, py_getitem. rewrite Hs, Hu, Hi. reflexivity.
Qed.

(** A login that fails ends the submission: the request raises, the
    status is not 200, or the test for "sessionId" in the decoded body
    finds nothing (a dict without the key, a list without the element, a
    str without the substring).  [activate_alarm] returns normally, the
    login is the only request sent, no frame is persisted, and the last
    ERROR entries say that no session id could be had. *)
Theorem failed_login_sends_no_episode t w :
  t = "alarm" \/ t = "sos" ->
  ((forall text, backend (requests w) (login_request settings) <> HResponse 200 text) \/
   (exists text v, backend (requests w) (login_request settings) = HResponse 200 text /\
                   loads_session text = Some v /\ without_session v)) ->
  let out := activate_alarm settings backend loads_session try_decode (Some t) w in
  fst out = Ok tt /\
  sent (trace (snd out)) = sent (trace w) ++ [login_request settings] /\
  persistence (trace (snd out)) = persistence (trace w) /\
  sh (snd out) = sh w /\
  exists err,
    logged ERROR (trace (snd out)) =
      logged ERROR (trace w) ++ [err; "Could not get Session Id from IS API";
                                 "Canceling the alarm triggering"].
Proof.
  intros Ht Hfail out. subst out.
  unfold activate_alarm, get_alarm_type, logger, emit, bind, modify, gets, ret.
  destruct Ht as [-> | ->];
    cbn -[get_session_id login_request];
    match goal with
    | |- context [get_session_id _ _ _ ?w1] =>
        destruct (get_session_id_fails w1 Hfail) as (err & tl & E & H1 & H2 & H3)
    end;
    rewrite E; cbn -[login_request sent logged persistence];
    rewrite <- !app_assoc, !sent_app, !persistence_app, !logged_app;
    cbn -[login_request];
    unfold logged in H1; cbn in H1; unfold sent in H2; unfold persistence in H3;
    rewrite H1, H2, H3;
    rewrite ?app_nil_r; repeat split; exists err; reflexivity.
Qed.

(** A login answered with status 200 and a body that cannot be read
    raises out of [activate_alarm]: [JSONDecodeError] for a text that is
    not JSON; [TypeError] for a number, a bool or [null], for a list or a
    str that holds "sessionId", and for a "user" that is not a dict;
    [KeyError] for a dict without "user" or a "user" without "id" (a value
    the submission never uses).  The login is the only request, nothing is
    logged at ERROR level, no frame is persisted. *)
Theorem unreadable_session_body_raises t w text e :
  t = "alarm" \/ t = "sos" ->
  backend (requests w) (login_request settings) = HResponse 200 text ->
  unreadable (loads_session text) e ->
  let out := activate_alarm settings backend loads_session try_decode (Some t) w in
  fst out = Raise e /\
  sent (trace (snd out)) = sent (trace w) ++ [login_request settings] /\
  logged ERROR (trace (snd out)) = logged ERROR (trace w) /\
  persistence (trace (snd out)) = persistence (trace w).
Proof.
  intros Ht Hres Hbody out. subst out.
  unfold activate_alarm, get_alarm_type, logger, emit, bind, modify, gets, ret.
  destruct Ht as [-> | ->];
    cbn -[get_session_id login_request];
    (erewrite get_session_id_raises; [| exact Hres | exact Hbody]);
    cbn -[login_request sent logged persistence]; observe.
Qed.

(** A submission that the backend accepts (status 200 or 201) persists
    the frame that is in the store: one file, named by the time stamp of
    the frame, holding the decoded bytes; the store is left as it was. *)
Theorem accepted_episode_persists_frame alarm_type event_id w text sid uid
    code text' db f stem bytes :
  event_of settings alarm_type event_id ->
  accepted settings backend loads_session w text sid uid ->
  backend (S (requests w)) (episode_request settings (Some event_id) sid) =
    HResponse code text' ->
  code = 200 \/ code = 201 ->
  redis (sh w) = Up db ->
  db !! "frame" = Some f ->
  try_decode f = inl (stem, bytes) ->
  let out := activate_alarm settings backend loads_session try_decode (Some alarm_type) w in
  fst out = Ok tt /\
  trace (snd out) =
    trace w ++ submitted settings w text event_id sid (HResponse code text')
            ++ [ERedis (RGet "frame");
                EFileWrite ("frames/" ++ stem ++ ".jpg")%string bytes;
                ELog INFO "Successfully triggered the alarm"] /\
  sh (snd out) = sh w.
Proof.
  intros Hkind Hacc Hpost Hcode Hup Hframe Hdec out. subst out.
  rewrite (submission_reaches_episode settings backend loads_session try_decode
             alarm_type event_id w text sid uid Hkind Hacc).
  rewrite Hpost.
  replace (negb ((code =? 200)%Z || (code =? 201)%Z)) with false
    by (destruct Hcode as [-> | ->]; reflexivity).
  unfold save_frame, r_get, logger, emit, bind, modify, gets, ret.
  cbn -[submitted String.append]. rewrite Hup. cbn -[submitted String.append].
  rewrite Hframe, Hdec. cbn -[submitted String.append].
  rewrite <- !app_assoc. repeat split.
Qed.

(** A submission that the backend accepts without a usable frame: with no
    frame in the store it returns with two warnings and writes no file;
    with a frame that does not decode it warns, writes no file and still
    logs the success line; with the store unreachable it raises
    [ConnectionError] after both requests were sent. *)
Theorem accepted_episode_without_frame alarm_type event_id w text sid uid code text' :
  event_of settings alarm_type event_id ->
  accepted settings backend loads_session w text sid uid ->
  backend (S (requests w)) (episode_request settings (Some event_id) sid) =
    HResponse code text' ->
  code = 200 \/ code = 201 ->
  let out := activate_alarm settings backend loads_session try_decode (Some alarm_type) w in
  let done := submitted settings w text event_id sid (HResponse code text') in
  (forall db, redis (sh w) = Up db -> db !! "frame" = None ->
     fst out = Ok tt /\
     trace (snd out) =
       trace w ++ done ++ [ERedis (RGet "frame");
                           ELog WARNING "No frame in Redis";
                           ELog WARNING "Triggered the alarm without save frame"]) /\
  (forall db f e, redis (sh w) = Up db -> db !! "frame" = Some f -> try_decode f = inr e ->
     fst out = Ok tt /\
     trace (snd out) =
       trace w ++ done ++ [ERedis (RGet "frame");
                           ELog WARNING ("Save frame error: " ++ e)%string;
                           ELog INFO "Successfully triggered the alarm"]) /\
  (redis (sh w) = Down ->
     fst out = Raise ConnectionError /\
     trace (snd out) = trace w ++ done ++ [ERedis (RGet "frame")]).
Proof.
  intros Hkind Hacc Hpost Hcode out done. subst out done.
  rewrite (submission_reaches_episode settings backend loads_session try_decode
             alarm_type event_id w text sid uid Hkind Hacc).
  rewrite Hpost.
  replace (negb ((code =? 200)%Z || (code =? 201)%Z)) with false
    by (destruct Hcode as [-> | ->]; reflexivity).
  unfold save_frame, r_get, logger, emit, bind, modify, gets, ret, throw.
  cbn -[submitted String.append].
  split; [|split].
  - intros db Hup Hframe. rewrite Hup. cbn -[submitted String.append].
    rewrite Hframe. cbn -[submitted String.append]. rewrite <- !app_assoc. auto.
  - intros db f e Hup Hframe Hdec. rewrite Hup. cbn -[submitted String.append].
    rewrite Hframe, Hdec. cbn -[submitted String.append]. rewrite <- !app_assoc. auto.
  - intros Hdown. rewrite Hdown. cbn -[submitted String.append].
    rewrite <- !app_assoc. auto.
Qed.

(** A status that is neither success nor 400 is a warning: the submission
    returns normally with one WARNING entry and the payload at DEBUG
    level, nothing at ERROR level, and no frame is persisted. *)
Theorem rejected_episode_is_a_warning alarm_type event_id w text sid uid code text' :
  event_of settings alarm_type event_id ->
  accepted settings backend loads_session w text sid uid ->
  backend (S (requests w)) (episode_request settings (Some event_id) sid) =
    HResponse code text' ->
  code <> 200 -> code <> 201 -> code <> 400 ->
  let out := activate_alarm settings backend loads_session try_decode (Some alarm_type) w in
  fst out = Ok tt /\
  logged WARNING (trace (snd out)) =
    logged WARNING (trace w) ++ ["An error happened when creating alarm request!"] /\
  logged ERROR (trace (snd out)) = logged ERROR (trace w) /\
  persistence (trace (snd out)) = persistence (trace w) /\
  sh (snd out) = sh w.
Proof.
  intros Hkind Hacc Hpost H200 H201 H400 out. subst out.
  rewrite (submission_reaches_episode settings backend loads_session try_decode
             alarm_type event_id w text sid uid Hkind Hacc).
  rewrite Hpost.
  apply Z.eqb_neq in H200, H201, H400. rewrite H200, H201, H400.
  unfold submitted, logger, emit, bind, modify.
  cbn -[login_request episode_request sent logged persistence String.append repr_dict].
  observe.
Qed.

(** An episode POST that raises.  A timeout or another [requests]
    exception is logged at ERROR level and the submission returns.  Any
    other exception is logged too, but its handler does not return:
    [response] is still [None] where its status is read, and
    [AttributeError] leaves [activate_alarm].  No frame is persisted in
    either case. *)
Theorem episode_exception_outcomes alarm_type event_id w text sid uid e :
  event_of settings alarm_type event_id ->
  accepted settings backend loads_session w text sid uid ->
  let res := backend (S (requests w)) (episode_request settings (Some event_id) sid) in
  let out := activate_alarm settings backend loads_session try_decode (Some alarm_type) w in
  (res = HTimeout e \/ res = HRequestException e ->
   fst out = Ok tt /\
   (exists msg, logged ERROR (trace (snd out)) = logged ERROR (trace w) ++ [msg]) /\
   persistence (trace (snd out)) = persistence (trace w)) /\
  (res = HException e ->
   fst out = Raise AttributeError /\
   logged ERROR (trace (snd out)) =
     logged ERROR (trace w)
       ++ [("There was a general error while sending the alarm requests" ++ e)%string] /\
   persistence (trace (snd out)) = persistence (trace w)).
Proof.
  intros Hkind Hacc res out. subst res out.
  rewrite (submission_reaches_episode settings backend loads_session try_decode
             alarm_type event_id w text sid uid Hkind Hacc).
  split.
  - intros [Hres | Hres]; rewrite Hres;
      unfold submitted, logger, emit, bind, modify;
      cbn -[login_request episode_request sent logged persistence String.append];
      observe; eexists; reflexivity.
  - intros Hres. rewrite Hres.
    unfold submitted, logger, emit, bind, modify, throw;
      cbn -[login_request episode_request sent logged persistence String.append];
      observe.
Qed.

Lemma check_alarm_queue_quiet status w db :
  redis (sh w) = Up db ->
  status <> "sos" ->
  status <> "alarm" \/ db !! "trigger_dev" = None ->
  check_alarm_queue settings backend loads_session try_decode status w =
    (Ok tt, checked status db w).
Proof.
  intros Hup Hsos Hcase.
  apply String.eqb_neq in Hsos.
  unfold check_alarm_queue, r_get, set_alarm_system_status, set_sensor_activator,
    logger, emit, bind, modify, gets, ret, checked.
  cbn -[activate_alarm String.append]. rewrite Hup.
  cbn -[activate_alarm String.append]. rewrite Hsos.
  destruct Hcase as [Ha | Hd].
  - apply String.eqb_neq in Ha. rewrite Ha. reflexivity.
  - rewrite Hd. cbn -[activate_alarm String.append].
    rewrite andb_false_r. reflexivity.
Qed.

(** The check of a standing command that calls for no alarm reads the
    device identity and does nothing else: the command is not "sos", and
    it is not "alarm" or no device identity is in the store. *)
Theorem check_alarm_queue_stays_quiet status w db :
  redis (sh w) = Up db ->
  status <> "sos" ->
  status <> "alarm" \/ db !! "trigger_dev" = None ->
  let out := check_alarm_queue settings backend loads_session try_decode status w in
  fst out = Ok tt /\
  trace (snd out) = trace w ++ [ERedis (RGet "trigger_dev")] /\
  sh (snd out) = sh w.
Proof.
  intros Hup Hsos Hcase out. subst out.
  apply String.eqb_neq in Hsos.
  unfold check_alarm_queue, r_get, set_alarm_system_status, set_sensor_activator,
    logger, emit, bind, modify, gets, ret.
  cbn -[activate_alarm String.append]. rewrite Hup.
  cbn -[activate_alarm String.append]. rewrite Hsos.
  destruct Hcase as [Ha | Hd].
  - apply String.eqb_neq in Ha. rewrite Ha. cbn. auto.
  - rewrite Hd. cbn -[activate_alarm String.append].
    rewrite andb_false_r. cbn. auto.
Qed.

End Client.

Lemma event_alarm : event_of Scenario.api0 "alarm" "17".
Proof. left. split; reflexivity. Defined.

Lemma login_accepted episode w :
  accepted Scenario.api0 (Scenario.backend_reply episode) Scenario.session_body
    w "session" (JStr "S1") (JNum 7).
Proof. split; [reflexivity | split; [apply session_body_reads | reflexivity]]. Defined.

Lemma unknown_kind_sends_nothing_witness :
  let out := activate_alarm Scenario.api0 (Scenario.backend_with 201)
               Scenario.session_body Scenario.decode_ok (Some "test")
               (initial Scenario.detection_store) in
  fst out = Ok tt /\ sent (trace (snd out)) = [] /\ store_ops (trace (snd out)) = [].
Proof.
  destruct (unknown_kind_sends_nothing Scenario.api0 (Scenario.backend_with 201)
              Scenario.session_body Scenario.decode_ok "test"
              (initial Scenario.detection_store)
              ltac:(discriminate) ltac:(discriminate)) as (H1 & H2 & H3 & _).
  exact (conj H1 (conj H2 H3)).
Defined.

Lemma failed_login_sends_no_episode_witness :
  (let out := activate_alarm Scenario.api0 Scenario.backend_timeout
                Scenario.session_body Scenario.decode_ok (Some "alarm")
                (initial Scenario.detection_store) in
   fst out = Ok tt /\ sent (trace (snd out)) = [login_request Scenario.api0] /\
   persistence (trace (snd out)) = []) /\
  (let out := activate_alarm Scenario.api0 (Scenario.backend_with 201)
                Scenario.body_without_session Scenario.decode_ok (Some "sos")
                (initial Scenario.detection_store) in
   fst out = Ok tt /\ sent (trace (snd out)) = [login_request Scenario.api0] /\
   persistence (trace (snd out)) = []).
Proof.
  split.
  - assert (Hne : forall text,
              Scenario.backend_timeout (requests (initial Scenario.detection_store))
                (login_request Scenario.api0) <> HResponse 200 text)
      by (intros text H; unfold Scenario.backend_timeout in H; discriminate H).
    destruct (failed_login_sends_no_episode Scenario.api0 Scenario.backend_timeout
                Scenario.session_body Scenario.decode_ok "alarm"
                (initial Scenario.detection_store) (or_introl eq_refl)
                (or_introl Hne))
      as (H1 & H2 & H3 & _).
    exact (conj H1 (conj H2 H3)).
  - destruct (failed_login_sends_no_episode Scenario.api0 (Scenario.backend_with 201)
                Scenario.body_without_session Scenario.decode_ok "sos"
                (initial Scenario.detection_store) (or_intror eq_refl)
                (or_intror (ex_intro _ "session"
                              (ex_intro _ (JObj [("message", JStr "unknown device")])
                                 (conj eq_refl (conj eq_refl eq_refl))))))
      as (H1 & H2 & H3 & _).
    exact (conj H1 (conj H2 H3)).
Defined.

Lemma unreadable_session_body_raises_witness :
  let run := fun body =>
    fst (activate_alarm Scenario.api0 (Scenario.backend_with 201) body
           Scenario.decode_ok (Some "alarm") (initial Scenario.detection_store)) in
  run Scenario.body_not_json = Raise JSONDecodeError /\
  run Scenario.body_without_user = Raise KeyError /\
  run Scenario.body_null = Raise TypeError /\
  run Scenario.body_quoting_key = Raise TypeError /\
  run Scenario.body_with_null_user = Raise TypeError.
Proof.
  intros run. subst run. cbv beta. split; [|split; [|split; [|split]]].
  - exact (proj1 (unreadable_session_body_raises Scenario.api0 (Scenario.backend_with 201)
                    Scenario.body_not_json Scenario.decode_ok "alarm"
                    (initial Scenario.detection_store) "session" JSONDecodeError
                    (or_introl eq_refl) eq_refl (not_json))).
  - exact (proj1 (unreadable_session_body_raises Scenario.api0 (Scenario.backend_with 201)
                    Scenario.body_without_user Scenario.decode_ok "alarm"
                    (initial Scenario.detection_store) "session" KeyError
                    (or_introl eq_refl) eq_refl
                    (without_user [("sessionId", JStr "S1")] (JStr "S1")
                       eq_refl eq_refl))).
  - exact (proj1 (unreadable_session_body_raises Scenario.api0 (Scenario.backend_with 201)
                    Scenario.body_null Scenario.decode_ok "alarm"
                    (initial Scenario.detection_store) "session" TypeError
                    (or_introl eq_refl) eq_refl (not_iterable JNull I))).
  - exact (proj1 (unreadable_session_body_raises Scenario.api0 (Scenario.backend_with 201)
                    Scenario.body_quoting_key Scenario.decode_ok "alarm"
                    (initial Scenario.detection_store) "session" TypeError
                    (or_introl eq_refl) eq_refl
                    (str_with_session "sessionId expired" 0 eq_refl))).
  - exact (proj1 (unreadable_session_body_raises Scenario.api0 (Scenario.backend_with 201)
                    Scenario.body_with_null_user Scenario.decode_ok "alarm"
                    (initial Scenario.detection_store) "session" TypeError
                    (or_introl eq_refl) eq_refl
                    (user_not_a_dict [("sessionId", JStr "S1"); ("user", JNull)]
                       (JStr "S1") JNull eq_refl eq_refl I))).
Defined.

Lemma accepted_episode_persists_frame_witness :
  let out := activate_alarm Scenario.api0 (Scenario.backend_reply (HResponse 201 ""))
               Scenario.session_body Scenario.decode_ok (Some "alarm")
               (initial Scenario.detection_store) in
  fst out = Ok tt /\
  persistence (trace (snd out)) =
    [ERedis (RGet "frame"); EFileWrite "frames/2021_06_01_12_00_00.jpg" "jpeg bytes"] /\
  sh (snd out) = sh (initial Scenario.detection_store).
Proof.
  destruct (accepted_episode_persists_frame Scenario.api0
              (Scenario.backend_reply (HResponse 201 ""))
              Scenario.session_body Scenario.decode_ok "alarm" "17"
              (initial Scenario.detection_store) "session" (JStr "S1") (JNum 7)
              201 ""
              (<["frame" := CameraSensor.frame_json "2021_06_01_12_00_00" "QUJD"]>
                 (<["trigger_dev" := "front"]> {[ "trigger_status" := "1" ]}))
              (CameraSensor.frame_json "2021_06_01_12_00_00" "QUJD")
              "2021_06_01_12_00_00" "jpeg bytes"
              event_alarm (login_accepted _ _) eq_refl (or_intror eq_refl)
              eq_refl eq_refl eq_refl) as (H1 & H2 & H3).
  split; [exact H1 | split; [| exact H3]].
  rewrite H2. reflexivity.
Defined.

Lemma accepted_episode_without_frame_witness :
  (let out := activate_alarm Scenario.api0 (Scenario.backend_reply (HResponse 200 ""))
                Scenario.session_body Scenario.decode_ok (Some "alarm")
                (initial Scenario.armed_store) in
   fst out = Ok tt /\
   logged WARNING (trace (snd out)) =
     ["No frame in Redis"; "Triggered the alarm without save frame"]) /\
  (let out := activate_alarm Scenario.api0 (Scenario.backend_reply (HResponse 200 ""))
                Scenario.session_body Scenario.decode_bad (Some "alarm")
                (initial Scenario.detection_store) in
   fst out = Ok tt /\
   logged WARNING (trace (snd out)) = ["Save frame error: Incorrect padding"] /\
   persistence (trace (snd out)) = [ERedis (RGet "frame")]) /\
  fst (activate_alarm Scenario.api0 (Scenario.backend_reply (HResponse 200 ""))
         Scenario.session_body Scenario.decode_ok (Some "alarm") (initial Down)) =
    Raise ConnectionError.
Proof.
  split; [|split].
  - destruct (accepted_episode_without_frame Scenario.api0
                (Scenario.backend_reply (HResponse 200 ""))
                Scenario.session_body Scenario.decode_ok "alarm" "17"
                (initial Scenario.armed_store) "session" (JStr "S1") (JNum 7) 200 ""
                event_alarm (login_accepted _ _) eq_refl (or_introl eq_refl))
      as (H & _).
    destruct (H {[ "trigger_status" := "1" ]} eq_refl eq_refl) as (H1 & H2).
    split; [exact H1 | rewrite H2; reflexivity].
  - destruct (accepted_episode_without_frame Scenario.api0
                (Scenario.backend_reply (HResponse 200 ""))
                Scenario.session_body Scenario.decode_bad "alarm" "17"
                (initial Scenario.detection_store) "session" (JStr "S1") (JNum 7) 200 ""
                event_alarm (login_accepted _ _) eq_refl (or_introl eq_refl))
      as (_ & H & _).
    destruct (H _ _ "Incorrect padding" eq_refl eq_refl eq_refl) as (H1 & H2).
    split; [exact H1 | rewrite H2; split; reflexivity].
  - destruct (accepted_episode_without_frame Scenario.api0
                (Scenario.backend_reply (HResponse 200 ""))
                Scenario.session_body Scenario.decode_ok "alarm" "17"
                (initial Down) "session" (JStr "S1") (JNum 7) 200 ""
                event_alarm (login_accepted _ _) eq_refl (or_introl eq_refl))
      as (_ & _ & H).
    exact (proj1 (H eq_refl)).
Defined.

Lemma rejected_episode_is_a_warning_witness :
  let out := activate_alarm Scenario.api0 (Scenario.backend_reply (HResponse 500 "oops"))
               Scenario.session_body Scenario.decode_ok (Some "alarm")
               (initial Scenario.detection_store) in
  fst out = Ok tt /\
  logged WARNING (trace (snd out)) = ["An error happened when creating alarm request!"] /\
  logged ERROR (trace (snd out)) = [] /\
  persistence (trace (snd out)) = [].
Proof.
  destruct (rejected_episode_is_a_warning Scenario.api0
              (Scenario.backend_reply (HResponse 500 "oops"))
              Scenario.session_body Scenario.decode_ok "alarm" "17"
              (initial Scenario.detection_store) "session" (JStr "S1") (JNum 7)
              500 "oops" event_alarm (login_accepted _ _) eq_refl
              ltac:(discriminate) ltac:(discriminate) ltac:(discriminate))
    as (H1 & H2 & H3 & H4 & _).
  exact (conj H1 (conj H2 (conj H3 H4))).
Defined.

Lemma episode_exception_outcomes_witness :
  fst (activate_alarm Scenario.api0 (Scenario.backend_reply (HTimeout "read timed out"))
         Scenario.session_body Scenario.decode_ok (Some "alarm")
         (initial Scenario.detection_store)) = Ok tt /\
  fst (activate_alarm Scenario.api0 (Scenario.backend_reply (HException "boom"))
         Scenario.session_body Scenario.decode_ok (Some "alarm")
         (initial Scenario.detection_store)) = Raise AttributeError.
Proof.
  split.
  - destruct (episode_exception_outcomes Scenario.api0
                (Scenario.backend_reply (HTimeout "read timed out"))
                Scenario.session_body Scenario.decode_ok "alarm" "17"
                (initial Scenario.detection_store) "session" (JStr "S1") (JNum 7)
                "read timed out" event_alarm (login_accepted _ _)) as (H & _).
    exact (proj1 (H (or_introl eq_refl))).
  - destruct (episode_exception_outcomes Scenario.api0
                (Scenario.backend_reply (HException "boom"))
                Scenario.session_body Scenario.decode_ok "alarm" "17"
                (initial Scenario.detection_store) "session" (JStr "S1") (JNum 7)
                "boom" event_alarm (login_accepted _ _)) as (_ & H).
    exact (proj1 (H eq_refl)).
Defined.

Lemma check_alarm_queue_stays_quiet_witness :
  (let out := check_alarm_queue Scenario.api0 (Scenario.backend_with 201)
                Scenario.session_body Scenario.decode_ok ""
                (initial Scenario.detection_store) in
   fst out = Ok tt /\ trace (snd out) = [ERedis (RGet "trigger_dev")]) /\
  (let out := check_alarm_queue Scenario.api0 (Scenario.backend_with 201)
                Scenario.session_body Scenario.decode_ok "alarm"
                (initial Scenario.armed_store) in
   fst out = Ok tt /\ trace (snd out) = [ERedis (RGet "trigger_dev")]).
Proof.
  split.
  - assert (Hsos : "" <> "sos") by discriminate.
    assert (Hcase : "" <> "alarm" \/
              (<["frame" := CameraSensor.frame_json "2021_06_01_12_00_00" "QUJD"]>
                 (<["trigger_dev" := "front"]> {[ "trigger_status" := "1" ]})
               : gmap string string) !! "trigger_dev" = None)
      by (left; discriminate).
    destruct (check_alarm_queue_stays_quiet Scenario.api0 (Scenario.backend_with 201)
                Scenario.session_body Scenario.decode_ok ""
                (initial Scenario.detection_store) _ eq_refl Hsos Hcase)
      as (H1 & H2 & _).
    exact (conj H1 H2).
  - assert (Hsos : "alarm" <> "sos") by discriminate.
    assert (Hcase : "alarm" <> "alarm" \/
              ({[ "trigger_status" := "1" ]} : gmap string string) !! "trigger_dev" = None)
      by (right; vm_compute; reflexivity).
    destruct (check_alarm_queue_stays_quiet Scenario.api0 (Scenario.backend_with 201)
                Scenario.session_body Scenario.decode_ok "alarm"
                (initial Scenario.armed_store) _ eq_refl Hsos Hcase)
      as (H1 & H2 & _).
    exact (conj H1 H2).
Defined.

End ClientBehaviour.


(** ** How the dispatch worker takes commands, polls and stops *)

Module WorkerBehaviour.

Import Instasolution Threads PyFacts ClientProofs WorkerProofs ClientBehaviour.

Section Worker.

Variable settings : api.
Variable backend : nat -> request -> http_result.
Variable loads_session : string -> option jval.
Variable try_decode : string -> (string * string) + string.
Variable others : Z -> Z -> shared -> shared.

(** The queue after the handling of a command. *)
Lemma take_command_pops w :
  alarm_queue (sh (snd (take_command settings backend loads_session try_decode w))) =
    tl (alarm_queue (sh w)).
Proof.
  destruct (alarm_queue (sh w)) as [|status rest] eqn:Hq.
  - unfold take_command, bind, gets. rewrite Hq. cbn. exact Hq.
  - destruct (String.eqb_spec status "sos") as [->|Hne].
    + rewrite (take_command_sos settings backend loads_session try_decode w rest Hq).
      pose proof (keeps_check_alarm_queue settings backend loads_session try_decode
                    "sos" (sos_taken w rest)) as (Hs & _).
      unfold bind.
      destruct (Instasolution.check_alarm_queue _ _ _ _ _ _) as [[[]|e] w1];
        cbn [snd] in *; cbn; now rewrite Hs.
    + unfold take_command, bind, gets. rewrite Hq.
      apply String.eqb_neq in Hne. cbn. rewrite Hne. reflexivity.
Qed.

(** Every tick takes at most one command off the queue, the oldest one,
    and does so whatever becomes of the tick afterwards (a submission that
    fails or raises does not put the command back). *)
Theorem tick_consumes_the_oldest_command w :
  alarm_queue (sh (snd (run_body settings backend loads_session try_decode w))) =
    tl (alarm_queue (sh w)).
Proof.
  unfold run_body. pose proof (take_command_pops w) as Ht.
  unfold bind at 1.
  destruct (take_command settings backend loads_session try_decode w) as [[[]|e] w1];
    cbn [snd] in *; [| exact Ht].
  unfold bind, gets.
  match goal with
  | |- context [check_alarm_queue _ _ _ _ ?c ?w2] =>
      pose proof (keeps_check_alarm_queue settings backend loads_session try_decode
                    c w2) as (Hs2 & _)
  end.
  unfold check_alarm_queue. now rewrite Hs2.
Qed.

(** A command other than "sos" becomes the standing command. *)
Lemma take_command_plain w c rest :
  alarm_queue (sh w) = c :: rest -> c <> "sos" ->
  take_command settings backend loads_session try_decode w =
    (Ok tt, snd (set_thr_alarm_status c (with_queue (fun _ => rest) w))).
Proof.
  intros Hq Hne. unfold take_command, bind, gets. rewrite Hq.
  apply String.eqb_neq in Hne. cbn. rewrite Hne. reflexivity.
Qed.

(** A command that is neither "sos" nor "alarm" (the disarm command is
    the empty text) becomes the standing command and silences the worker:
    the tick only reads the device identity and sends nothing, whatever
    detection the store holds. *)
Theorem disarm_command_silences_the_worker w c rest db :
  alarm_queue (sh w) = c :: rest ->
  c <> "sos" -> c <> "alarm" ->
  redis (sh w) = Up db ->
  let out := run_body settings backend loads_session try_decode w in
  fst out = Ok tt /\
  Thr.alarm_status (thr (snd out)) = c /\
  trace (snd out) = trace w ++ [ERedis (RGet "trigger_dev")] /\
  redis (sh (snd out)) = Up db.
Proof.
  intros Hq Hsos Halarm Hup out. subst out.
  rewrite (run_body_after_take settings backend loads_session try_decode w _
             (take_command_plain w c rest Hq Hsos)).
  unfold check_alarm_queue. cbn [snd set_thr_alarm_status modify with_thr thr Thr.alarm_status].
  rewrite (check_alarm_queue_quiet settings backend loads_session try_decode c _ db);
    [| cbn; exact Hup | exact Hsos | left; exact Halarm].
  cbn. rewrite Hup. auto.
Qed.

(** A wait during which the others never set the stop event runs its
    whole second and answers [False]. *)
Lemma not_woken t d s :
  (forall e, stop_event (others t e s) = false) -> woken others t d s = None.
Proof.
  intros H. unfold woken.
  induction (map Z.of_nat (seq 0 (S (Z.to_nat d)))) as [|x l IH]; cbn [List.find].
  - reflexivity.
  - rewrite H. exact IH.
Qed.

Lemma stop_event_wait_timeout w :
  stop_event (sh w) = false ->
  (forall e, stop_event (others (clock w) e (sh w)) = false) ->
  stop_event_wait others 1000 w =
    (Ok false, {| sh := others (clock w) 1000 (sh w); thr := thr w;
                  clock := clock w + 1000; requests := requests w;
                  trace := trace w |}).
Proof.
  intros Hstop Hnever. unfold stop_event_wait, bind, gets. rewrite Hstop.
  cbn [fst snd]. rewrite (not_woken _ _ _ Hnever). reflexivity.
Qed.

(** A worker with nothing to do: with an empty queue, a standing command
    that calls for no alarm on the store as it is, and nobody acting
    meanwhile, [n] ticks are [n] waits of a second and [n] reads of the
    device identity; no request is sent. *)
Theorem idle_worker_polls_the_store n w db :
  (forall t d s, others t d s = s) ->
  alarm_queue (sh w) = [] ->
  stop_event (sh w) = false ->
  redis (sh w) = Up db ->
  Thr.alarm_status (thr w) <> "sos" ->
  Thr.alarm_status (thr w) <> "alarm" \/ db !! "trigger_dev" = None ->
  let out := run settings backend loads_session try_decode others n w in
  fst out = Ok tt /\
  trace (snd out) = trace w ++ repeat (ERedis (RGet "trigger_dev")) n /\
  clock (snd out) = clock w + 1000 * Z.of_nat n /\
  sh (snd out) = sh w.
Proof.
  intros Hidle. revert w.
  induction n as [|n IH]; intros w Hq Hstop Hup Hsos Hcase out; subst out.
  - cbn. rewrite app_nil_r. repeat split. lia.
  - set (w0 := {| sh := sh w; thr := thr w; clock := clock w + 1000;
                  requests := requests w; trace := trace w |}).
    assert (Hbody : run_body settings backend loads_session try_decode w0 =
                      (Ok tt, checked (Thr.alarm_status (thr w)) db w0)).
    { assert (Ht : take_command settings backend loads_session try_decode w0 = (Ok tt, w0)).
      { unfold take_command, bind, gets. cbn [sh w0]. rewrite Hq. reflexivity. }
      rewrite (run_body_after_take settings backend loads_session try_decode w0 w0 Ht).
      unfold check_alarm_queue.
      apply (check_alarm_queue_quiet settings backend loads_session try_decode
               _ w0 db Hup Hsos Hcase). }
    assert (Hrun : run settings backend loads_session try_decode others (S n) w =
                   run settings backend loads_session try_decode others n
                     (checked (Thr.alarm_status (thr w)) db w0)).
    { cbn [run].
      assert (Hnever : forall e, stop_event (others (clock w) e (sh w)) = false)
        by (intros e; rewrite Hidle; exact Hstop).
      rewrite (bind_ok _ _ _ _ _ (stop_event_wait_timeout w Hstop Hnever)).
      rewrite Hidle. fold w0. rewrite (bind_ok _ _ _ _ _ Hbody). reflexivity. }
    rewrite Hrun.
    destruct (IH (checked (Thr.alarm_status (thr w)) db w0) Hq Hstop Hup Hsos Hcase)
      as (H1 & H2 & H3 & H4).
    split; [exact H1|]. rewrite H2, H3, H4. cbn [checked trace clock sh w0 repeat].
    repeat split.
    + rewrite <- app_assoc. reflexivity.
    + lia.
Qed.

(** With the stop event set the wait returns at once, and the worker
    ends where it stands, however many iterations were still to come. *)
Lemma stop_event_ends_the_worker n w :
  stop_event (sh w) = true ->
  run settings backend loads_session try_decode others (S n) w = (Ok tt, w).
Proof.
  intros Hstop. cbn [run]. unfold stop_event_wait, bind, gets, ret.
  rewrite Hstop. reflexivity.
Qed.

End Worker.

Lemma disarm_command_silences_the_worker_witness :
  let out := run_body Scenario.api0 (Scenario.backend_with 201) Scenario.session_body
               Scenario.decode_ok
               (Scenario.worker_world "alarm" [""] Scenario.detection_store) in
  fst out = Ok tt /\
  Thr.alarm_status (thr (snd out)) = "" /\
  trace (snd out) = [ERedis (RGet "trigger_dev")].
Proof.
  assert (H1 : "" <> "sos") by discriminate.
  assert (H2 : "" <> "alarm") by discriminate.
  destruct (disarm_command_silences_the_worker Scenario.api0 (Scenario.backend_with 201)
              Scenario.session_body Scenario.decode_ok
              (Scenario.worker_world "alarm" [""] Scenario.detection_store) "" []
              (<["frame" := CameraSensor.frame_json "2021_06_01_12_00_00" "QUJD"]>
                 (<["trigger_dev" := "front"]> {[ "trigger_status" := "1" ]}))
              eq_refl H1 H2 eq_refl) as (A & B & C & _).
  exact (conj A (conj B C)).
Defined.

Lemma idle_worker_polls_the_store_witness :
  let out := run Scenario.api0 (Scenario.backend_with 201) Scenario.session_body
               Scenario.decode_ok Scenario.idle 3
               (Scenario.worker_world "alarm" [] Scenario.armed_store) in
  fst out = Ok tt /\
  trace (snd out) = repeat (ERedis (RGet "trigger_dev")) 3 /\
  clock (snd out) = 3000.
Proof.
  assert (H1 : Thr.alarm_status
                 (thr (Scenario.worker_world "alarm" [] Scenario.armed_store)) <> "sos")
    by (cbn; discriminate).
  assert (H2 : Thr.alarm_status
                 (thr (Scenario.worker_world "alarm" [] Scenario.armed_store)) <> "alarm" \/
               ({[ "trigger_status" := "1" ]} : gmap string string) !! "trigger_dev" = None)
    by (right; vm_compute; reflexivity).
  destruct (idle_worker_polls_the_store Scenario.api0 (Scenario.backend_with 201)
              Scenario.session_body Scenario.decode_ok Scenario.idle 3
              (Scenario.worker_world "alarm" [] Scenario.armed_store)
              {[ "trigger_status" := "1" ]}
              (fun _ _ _ => eq_refl) eq_refl eq_refl eq_refl H1 H2) as (A & B & C & _).
  exact (conj A (conj B C)).
Defined.

End WorkerBehaviour.


(** ** What the control panel does on each confirm, and on closing *)

Module PanelBehaviour.

Import PinGui PyFacts PanelProofs ClientBehaviour.

Ltac decide_conditions :=
  repeat (match goal with
          | |- context [if ?c then _ else _] =>
              let b := eval vm_compute in c in
              progress (change c with b)
          end; cbv beta iota).

Ltac run_panel :=
  cbv [start_redis_script stop_redis_script start_sos Threads.flusher
       Threads.change_status Instasolution.clear_redis Instasolution.set_status
       Instasolution.r_flushall Instasolution.r_set toggle_full_screen
       quit_full_screen change_screen_state set_fullscreen
       set_full_screen_state set_cooldown set_stop_cooldown set_cooldown_counter
       set_alarm_status status_bar_configure display_configure
       progress_configure set_pin_entry time_sleep pass_time when print logger
       emit self bind modify gets ret throw with_gui with_queue with_redis
       with_stop_event with_sh sh thr clock requests trace gui alarm_queue
       stop_event redis Gui.pin_entry Gui.cooldown Gui.cooldown_counter
       Gui.stop_cooldown Gui.alarm_status Gui.full_screen_state Gui.fullscreen
       Gui.display Gui.status_bar Gui.progress negb fst snd].

Section Panel.

Variable pw : passwords.
Variable verify : string -> string -> option bool.
Variable others : Z -> Z -> shared -> shared.

(** After a digit key the star indicator shows as many stars as the
    buffer holds digits, from one to four, whatever the buffer held
    before. *)
Theorem indicator_mirrors_the_buffer key w :
  is_digit key = true ->
  let g := gui (sh (snd (pressed pw verify others key w))) in
  let n := String.length (Gui.pin_entry g) in
  (n = 1%nat /\ Gui.display g = stars_1) \/
  (n = 2%nat /\ Gui.display g = stars_2) \/
  (n = 3%nat /\ Gui.display g = stars_3) \/
  (n = 4%nat /\ Gui.display g = stars_4).
Proof.
  intros Hd g n. subst n g.
  pose proof (is_digit_length key Hd) as Hlen.
  destruct (pressed_digit pw verify others key w Hd) as (_ & Hpin & Hdisp).
  destruct (Z.ltb_spec 3 (len (Gui.pin_entry (gui (sh w))))) as [Hlt|Hge].
  - rewrite Hpin, Hlen, Hdisp by reflexivity. auto.
  - clear Hpin Hdisp. unfold pressed. rewrite Hd.
    unfold self, display_configure, set_pin_entry, when, bind, modify, gets, ret,
      with_gui, with_sh.
    destruct w as [[[p c cc sc a fs f d sb pr] q se rd] th ck n tr].
    destruct p as [|c1 [|c2 [|c3 [|c4 rest]]]];
      [..| exfalso; unfold len in Hge; cbn [sh gui Gui.pin_entry String.length] in Hge; lia];
      decide_conditions; cbn -[String.append]; rewrite length_append, Hlen; cbn; auto 8.
Qed.

(** Arming: the store is flushed first, then the command is queued, then
    the status 1 is written, so that the store holds the status and
    nothing else (a detection left from an earlier session is gone).  If
    the store is unreachable the flush raises and nothing is queued. *)
Theorem arming_flushes_the_store kind w :
  let out := start_redis_script kind w in
  (forall db, redis (sh w) = Up db ->
     fst out = Ok tt /\
     redis (sh (snd out)) = Up {[ "trigger_status" := "1" ]} /\
     alarm_queue (sh (snd out)) = alarm_queue (sh w) ++ [kind] /\
     store_ops (trace (snd out)) =
       store_ops (trace w) ++ [RFlushAll; RSet "trigger_status" "1"]) /\
  (redis (sh w) = Down ->
     fst out = Raise ConnectionError /\ sh (snd out) = sh w).
Proof.
  intros out. subst out.
  unfold start_redis_script, Threads.flusher, Threads.change_status,
    Instasolution.clear_redis, Instasolution.set_status, Instasolution.r_flushall,
    Instasolution.r_set, toggle_full_screen, self, set_fullscreen,
    set_full_screen_state, when, logger, emit, bind, modify, gets, ret, throw,
    with_gui, with_queue, with_redis, with_sh.
  destruct w as [[g q se rd] th ck n tr]. cbn -[store_ops]. split.
  - intros db ->. cbn -[store_ops].
    destruct (Gui.full_screen_state g); cbn -[store_ops]; observe.
  - intros ->. cbn. auto.
Qed.

(** A confirm of the arm/disarm PIN while armed, on a reachable store:
    the disarm command is queued, the status 0 is written over the old
    one and nothing else in the store is touched (a recorded detection
    stays), the panel is disarmed, and the buffer and the indicator are
    cleared, all without a sleep. *)
Theorem confirm_while_armed_disarms w db :
  verify (Gui.pin_entry (gui (sh w))) (on_off pw) = Some true ->
  Gui.alarm_status (gui (sh w)) = true ->
  redis (sh w) = Up db ->
  let out := compare_pin pw verify others w in
  fst out = Ok tt /\
  Gui.alarm_status (gui (sh (snd out))) = false /\
  alarm_queue (sh (snd out)) = alarm_queue (sh w) ++ [""] /\
  redis (sh (snd out)) = Up (<["trigger_status" := "0"]> db) /\
  Gui.pin_entry (gui (sh (snd out))) = "" /\
  Gui.display (gui (sh (snd out))) = stars_0 /\
  Gui.status_bar (gui (sh (snd out))) = camera_off /\
  clock (snd out) = clock w.
Proof.
  intros Hv Ha Hup out. subst out.
  destruct (compare_pin pw verify others w) as [r w'] eqn:E. revert E.
  unfold compare_pin.
  rewrite (bind_ok (self Gui.pin_entry) _ w _ w eq_refl).
  unfold bcrypt_verify. rewrite Hv.
  rewrite (bind_ok (ret true) _ w _ w eq_refl). cbv beta iota.
  rewrite bind_assoc.
  rewrite (bind_ok (self Gui.alarm_status) _ w true w) by (unfold self, gets; now rewrite Ha).
  cbv beta iota.
  unfold stop_redis_script, Threads.change_status,
    Instasolution.set_status, Instasolution.r_set, self, set_alarm_status,
    status_bar_configure, display_configure, set_pin_entry, print, logger, emit,
    bind, modify, gets, ret, throw, with_gui, with_queue, with_redis, with_sh.
  destruct w as [[g q se rd] th ck n tr]. cbn in Hup. subst rd.
  cbn. intros E. injection E as <- <-. cbn. repeat split.
Qed.

(** The same confirm with the store unreachable: the disarm command is
    already queued when the write of the status raises, so the worker will
    stand down while the panel still counts as armed, and the buffer is
    not cleared. *)
Theorem confirm_while_armed_store_unreachable w :
  verify (Gui.pin_entry (gui (sh w))) (on_off pw) = Some true ->
  Gui.alarm_status (gui (sh w)) = true ->
  redis (sh w) = Down ->
  let out := compare_pin pw verify others w in
  fst out = Raise ConnectionError /\
  alarm_queue (sh (snd out)) = alarm_queue (sh w) ++ [""] /\
  Gui.alarm_status (gui (sh (snd out))) = true /\
  Gui.pin_entry (gui (sh (snd out))) = Gui.pin_entry (gui (sh w)).
Proof.
  intros Hv Ha Hup out. subst out.
  destruct (compare_pin pw verify others w) as [r w'] eqn:E. revert E.
  unfold compare_pin.
  rewrite (bind_ok (self Gui.pin_entry) _ w _ w eq_refl).
  unfold bcrypt_verify. rewrite Hv.
  rewrite (bind_ok (ret true) _ w _ w eq_refl). cbv beta iota.
  rewrite bind_assoc.
  rewrite (bind_ok (self Gui.alarm_status) _ w true w) by (unfold self, gets; now rewrite Ha).
  cbv beta iota.
  unfold stop_redis_script, Threads.change_status,
    Instasolution.set_status, Instasolution.r_set, self, set_alarm_status,
    status_bar_configure, display_configure, set_pin_entry, print, logger, emit,
    bind, modify, gets, ret, throw, with_gui, with_queue, with_redis, with_sh.
  destruct w as [[g q se rd] th ck n tr]. cbn in Hup, Ha. subst rd.
  cbn. intros E. injection E as <- <-. cbn. auto.
Qed.

(** A confirm of the SOS PIN: the SOS command is queued at once and the
    store is not touched; the handling then shows its success animation
    for a second and a half.  When nobody else acts meanwhile, the arm
    state is what it was. *)
Theorem confirm_of_sos_pin w :
  let pin := Gui.pin_entry (gui (sh w)) in
  verify pin (on_off pw) = Some false ->
  verify pin (silent pw) = Some true ->
  let out := compare_pin pw verify others w in
  fst out = Ok tt /\
  trace (snd out) =
    trace w ++ [ELog INFO "sos alarm was send"; ELog INFO "SOS alarm sent";
                ESleep 500; ESleep 1000; EPrint [PStr "send sos alarm!"]] /\
  clock (snd out) = clock w + 1500 /\
  ((forall t d s, others t d s = s) ->
   alarm_queue (sh (snd out)) = alarm_queue (sh w) ++ ["sos"] /\
   Gui.alarm_status (gui (sh (snd out))) = Gui.alarm_status (gui (sh w)) /\
   redis (sh (snd out)) = redis (sh w)).
Proof.
  intros pin H1 H2 out. subst pin out.
  destruct (compare_pin pw verify others w) as [r w'] eqn:E. revert E.
  unfold compare_pin.
  rewrite (bind_ok (self Gui.pin_entry) _ w _ w eq_refl).
  unfold bcrypt_verify. rewrite H1.
  rewrite (bind_ok (ret false) _ w _ w eq_refl). cbv beta iota.
  rewrite bind_assoc.
  rewrite (bind_ok (self Gui.pin_entry) _ w _ w eq_refl).
  rewrite H2. rewrite bind_assoc.
  rewrite (bind_ok (ret true) _ w _ w eq_refl). cbv beta iota.
  destruct w as [[g q se rd] th ck n tr].
  cbv [start_sos self progress_configure display_configure set_pin_entry
       time_sleep pass_time print logger emit bind modify gets ret
       with_gui with_queue with_sh sh thr clock requests trace gui alarm_queue
       stop_event redis Gui.pin_entry Gui.cooldown Gui.cooldown_counter
       Gui.stop_cooldown Gui.alarm_status Gui.full_screen_state Gui.fullscreen
       Gui.display Gui.status_bar Gui.progress fst snd].
  intros E. injection E as <- <-. cbn.
  rewrite <- !app_assoc. split; [reflexivity|]. split; [reflexivity|].
  split; [lia|]. intros Hidle. rewrite !Hidle. cbn. auto.
Qed.

(** A confirm of the arm/disarm PIN while disarmed and with no countdown
    under way runs the countdown; what follows is decided by the abort
    flag as it stands after the ninth tick.  With the flag clear the store
    is flushed, the arm command queued and the status 1 written; with the
    flag set nothing is queued and the store is not touched.  The arm state
    tested is the one read before the countdown. *)
Theorem confirm_while_disarmed_runs_the_countdown w :
  verify (Gui.pin_entry (gui (sh w))) (on_off pw) = Some true ->
  Gui.alarm_status (gui (sh w)) = false ->
  Gui.cooldown_counter (gui (sh w)) <= 0 ->
  let w1 := {| sh := sh w; thr := thr w; clock := clock w; requests := requests w;
               trace := trace w ++
                 [EPrint [PStr "alarm_status was False"];
                  EPrint [PStr "stop_cooldown";
                          PInt (Gui.cooldown_counter (gui (sh w)))]] |} in
  let out := compare_pin pw verify others w in
  exists w9,
    countdown others w1 = (Ok tt, w9) /\
    clock w9 = clock w + 9000 /\
    (Gui.stop_cooldown (gui (sh w9)) = false ->
     forall db, redis (sh w9) = Up db ->
       fst out = Ok tt /\
       Gui.alarm_status (gui (sh (snd out))) = true /\
       Gui.status_bar (gui (sh (snd out))) = camera_on /\
       alarm_queue (sh (snd out)) = alarm_queue (sh w9) ++ ["alarm"] /\
       redis (sh (snd out)) = Up {[ "trigger_status" := "1" ]} /\
       clock (snd out) = clock w9) /\
    (Gui.stop_cooldown (gui (sh w9)) = true ->
     fst out = Ok tt /\
     Gui.alarm_status (gui (sh (snd out))) = Gui.alarm_status (gui (sh w9)) /\
     alarm_queue (sh (snd out)) = alarm_queue (sh w9) /\
     redis (sh (snd out)) = redis (sh w9) /\
     store_ops (trace (snd out)) = store_ops (trace w) /\
     clock (snd out) = clock w9).
Proof.
  intros Hv Ha Hc w1 out.
  destruct (countdown_spec others w1) as (w9 & H9 & Ht9 & Hc9).
  exists w9. split; [exact H9|]. split; [exact Hc9|].
  subst out.
  destruct (compare_pin pw verify others w) as [r w'] eqn:E. revert E.
  unfold compare_pin.
  rewrite (bind_ok (self Gui.pin_entry) _ w _ w eq_refl).
  unfold bcrypt_verify. rewrite Hv.
  rewrite (bind_ok (ret true) _ w _ w eq_refl). cbv beta iota.
  rewrite bind_assoc.
  rewrite (bind_ok (self Gui.alarm_status) _ w false w)
    by (unfold self, gets; now rewrite Ha).
  cbv beta iota. rewrite bind_assoc.
  rewrite (bind_ok (self Gui.alarm_status) _ w false w)
    by (unfold self, gets; now rewrite Ha).
  unfold when. cbn [negb]. rewrite !bind_assoc.
  rewrite (bind_ok (print [PStr "alarm_status was False"]) _ w tt _ eq_refl).
  rewrite !bind_assoc.
  rewrite (bind_ok (self Gui.cooldown_counter) _ _ _ _ eq_refl).
  rewrite !bind_assoc.
  rewrite (bind_ok (print _) _ _ tt _ eq_refl).
  rewrite !bind_assoc.
  rewrite (bind_ok (self Gui.cooldown_counter) _ _ _ _ eq_refl).
  cbn [sh thr clock requests trace gui Gui.cooldown_counter].
  rewrite <- app_assoc. cbn [app]. fold w1.
  assert (Hle : (Gui.cooldown_counter (gui (sh w)) <=? 0)%Z = true)
    by (apply Z.leb_le; exact Hc).
  rewrite Hle. unfold do_cooldown. rewrite !bind_assoc.
  rewrite (bind_ok _ _ _ _ _ H9).
  assert (Hs9 : store_ops (trace w9) = store_ops (trace w)).
  { rewrite Ht9. subst w1. cbn [trace]. rewrite !store_ops_app. cbn.
    rewrite !app_nil_r. reflexivity. }
  clearbody w1. clear H9 Ht9.
  destruct w9 as [[[p c cc sc a fs f d sb pr] q se rd] th ck n tr].
  cbn [sh thr clock requests trace gui alarm_queue redis Gui.stop_cooldown
       Gui.alarm_status] in *.
  intros E. split.
  - intros -> db ->. revert E. destruct fs; run_panel;
      intros E; injection E as <- <-; cbn; repeat split.
  - intros ->. revert E. run_panel.
    intros E; injection E as <- <-. cbn [fst snd trace]. rewrite !store_ops_app, Hs9.
    cbn. rewrite !app_nil_r. repeat split.
Qed.

(** A confirm of the arm/disarm PIN while disarmed and with a countdown
    under way starts no second countdown: it raises the abort flag, zeroes
    the counter and returns at once, with nothing queued and the store not
    touched. *)
Theorem confirm_during_countdown_raises_the_abort_flag w :
  verify (Gui.pin_entry (gui (sh w))) (on_off pw) = Some true ->
  Gui.alarm_status (gui (sh w)) = false ->
  0 < Gui.cooldown_counter (gui (sh w)) ->
  let out := compare_pin pw verify others w in
  fst out = Ok tt /\
  Gui.stop_cooldown (gui (sh (snd out))) = true /\
  Gui.cooldown_counter (gui (sh (snd out))) = 0 /\
  Gui.alarm_status (gui (sh (snd out))) = false /\
  alarm_queue (sh (snd out)) = alarm_queue (sh w) /\
  redis (sh (snd out)) = redis (sh w) /\
  sleeps (trace (snd out)) = sleeps (trace w) /\
  clock (snd out) = clock w.
Proof.
  intros Hv Ha Hc out. subst out.
  destruct (compare_pin pw verify others w) as [r w'] eqn:E. revert E.
  unfold compare_pin.
  rewrite (bind_ok (self Gui.pin_entry) _ w _ w eq_refl).
  unfold bcrypt_verify. rewrite Hv.
  rewrite (bind_ok (ret true) _ w _ w eq_refl). cbv beta iota.
  rewrite bind_assoc.
  rewrite (bind_ok (self Gui.alarm_status) _ w false w)
    by (unfold self, gets; now rewrite Ha).
  cbv beta iota. rewrite bind_assoc.
  rewrite (bind_ok (self Gui.alarm_status) _ w false w)
    by (unfold self, gets; now rewrite Ha).
  unfold when. cbn [negb]. rewrite !bind_assoc.
  rewrite (bind_ok (print [PStr "alarm_status was False"]) _ w tt _ eq_refl).
  rewrite !bind_assoc.
  rewrite (bind_ok (self Gui.cooldown_counter) _ _ _ _ eq_refl).
  rewrite !bind_assoc.
  rewrite (bind_ok (print _) _ _ tt _ eq_refl).
  rewrite !bind_assoc.
  rewrite (bind_ok (self Gui.cooldown_counter) _ _ _ _ eq_refl).
  cbn [sh thr clock requests trace gui Gui.cooldown_counter].
  assert (Hle : (Gui.cooldown_counter (gui (sh w)) <=? 0)%Z = false)
    by (apply Z.leb_gt; exact Hc).
  rewrite Hle.
  destruct w as [[[p c cc sc a fs f d sb pr] q se rd] th ck n tr].
  cbn [sh gui Gui.alarm_status] in Ha. subst a.
  run_panel. intros E. injection E as <- <-.
  cbn [fst snd]. rewrite !sleeps_app. cbn. rewrite !app_nil_r. repeat split.
Qed.

(** A confirm of the resize PIN sets the window attribute to the screen
    flag and inverts the flag, so two confirms in a row restore the flag
    and leave the window in the opposite mode to the one the first confirm
    gave it. *)
Theorem resize_alternates_the_window w :
  let w1 := snd (change_screen_state w) in
  let w2 := snd (change_screen_state w1) in
  fst (change_screen_state w) = Ok tt /\
  Gui.fullscreen (gui (sh w1)) = Gui.full_screen_state (gui (sh w)) /\
  Gui.full_screen_state (gui (sh w1)) = negb (Gui.full_screen_state (gui (sh w))) /\
  Gui.fullscreen (gui (sh w2)) = negb (Gui.fullscreen (gui (sh w1))) /\
  Gui.full_screen_state (gui (sh w2)) = Gui.full_screen_state (gui (sh w)).
Proof.
  destruct w as [[[p c cc sc a fs f d sb pr] q se rd] th ck n tr].
  destruct fs; run_panel; repeat split.
Qed.

(** Closing the window with the store reachable: the disarm command is
    queued and the status 0 written, then the stop event is set, and only
    then does the handler wait for the worker.  With the store
    unreachable the write raises and the stop event is never set, so the
    worker is not told to end. *)
Theorem closing_disarms_before_it_stops join_ms w :
  let out := on_closing others join_ms w in
  (forall db, redis (sh w) = Up db ->
     fst out = Ok tt /\
     sh (snd out) =
       others (clock w) join_ms
         {| gui := gui (sh (snd (status_bar_configure camera_off w)));
            alarm_queue := alarm_queue (sh w) ++ [""];
            stop_event := true;
            redis := Up (<["trigger_status" := "0"]> db) |} /\
     clock (snd out) = clock w + join_ms /\
     store_ops (trace (snd out)) =
       store_ops (trace w) ++ [RSet "trigger_status" "0"]) /\
  (redis (sh w) = Down ->
     fst out = Raise ConnectionError /\
     stop_event (sh (snd out)) = stop_event (sh w) /\
     alarm_queue (sh (snd out)) = alarm_queue (sh w) ++ [""] /\
     clock (snd out) = clock w).
Proof.
  intros out. subst out. unfold on_closing.
  destruct w as [[[p c cc sc a fs f d sb pr] q se rd] th ck n tr].
  cbn [sh redis]. split.
  - intros db ->. run_panel. cbn [fst snd trace]. observe.
  - intros ->. run_panel. repeat split.
Qed.

End Panel.

Lemma indicator_mirrors_the_buffer_witness :
  let full := snd (Scenario.press Scenario.verifier Scenario.idle
                     ["1"; "2"; "3"; "4"] (initial (Up ∅))) in
  let g := gui (sh (snd (pressed Scenario.hashes Scenario.verifier Scenario.idle
                           "5" full))) in
  Gui.pin_entry (gui (sh full)) = "1234" /\
  Gui.pin_entry g = "5" /\ Gui.display g = stars_1.
Proof.
  intros full g. split; [reflexivity|].
  destruct (indicator_mirrors_the_buffer Scenario.hashes Scenario.verifier Scenario.idle
              "5" full eq_refl) as [[H1 H2] | [[H1 _] | [[H1 _] | [H1 _]]]].
  - split; [reflexivity | exact H2].
  - discriminate H1.
  - discriminate H1.
  - discriminate H1.
Defined.

Lemma arming_flushes_the_store_witness :
  (let out := start_redis_script "alarm" (initial Scenario.detection_store) in
   fst out = Ok tt /\
   redis (sh (snd out)) = Scenario.armed_store /\
   alarm_queue (sh (snd out)) = ["alarm"]) /\
  (let out := start_redis_script "alarm" (initial Down) in
   fst out = Raise ConnectionError /\ alarm_queue (sh (snd out)) = []).
Proof.
  destruct (arming_flushes_the_store "alarm" (initial Scenario.detection_store))
    as [Hup _].
  destruct (arming_flushes_the_store "alarm" (initial Down)) as [_ Hdown].
  destruct (Hup (<["frame" := CameraSensor.frame_json "2021_06_01_12_00_00" "QUJD"]>
                   (<["trigger_dev" := "front"]> {[ "trigger_status" := "1" ]}))
              eq_refl) as (A & B & C & _).
  destruct (Hdown eq_refl) as (D & E).
  split.
  - exact (conj A (conj B C)).
  - split; [exact D|]. cbv zeta. rewrite E. reflexivity.
Defined.

Lemma closing_disarms_before_it_stops_witness :
  (let out := on_closing Scenario.idle 1000
                (Scenario.panel_world "" true 0 Scenario.armed_store) in
   fst out = Ok tt /\
   stop_event (sh (snd out)) = true /\
   alarm_queue (sh (snd out)) = [""] /\
   redis (sh (snd out)) = Scenario.disarmed_store) /\
  (let out := on_closing Scenario.idle 1000 (Scenario.panel_world "" true 0 Down) in
   fst out = Raise ConnectionError /\
   stop_event (sh (snd out)) = false /\
   alarm_queue (sh (snd out)) = [""]).
Proof.
  destruct (closing_disarms_before_it_stops Scenario.idle 1000
              (Scenario.panel_world "" true 0 Scenario.armed_store)) as [Hup _].
  destruct (closing_disarms_before_it_stops Scenario.idle 1000
              (Scenario.panel_world "" true 0 Down)) as [_ Hdown].
  destruct (Hup {[ "trigger_status" := "1" ]} eq_refl) as (A & B & _).
  destruct (Hdown eq_refl) as (D & E & F & _).
  split.
  - split; [exact A|]. cbv zeta. rewrite B. vm_compute. repeat split.
  - exact (conj D (conj E F)).
Defined.

Lemma confirm_while_armed_disarms_witness :
  let out := compare_pin Scenario.hashes Scenario.verifier Scenario.idle
               (Scenario.panel_world "1234" true 0 Scenario.detection_store) in
  fst out = Ok tt /\
  Gui.alarm_status (gui (sh (snd out))) = false /\
  alarm_queue (sh (snd out)) = [""] /\
  redis (sh (snd out)) =
    Up (<["trigger_status" := "0"]>
          (<["frame" := CameraSensor.frame_json "2021_06_01_12_00_00" "QUJD"]>
             (<["trigger_dev" := "front"]> {[ "trigger_status" := "1" ]}))).
Proof.
  destruct (confirm_while_armed_disarms Scenario.hashes Scenario.verifier Scenario.idle
              (Scenario.panel_world "1234" true 0 Scenario.detection_store)
              (<["frame" := CameraSensor.frame_json "2021_06_01_12_00_00" "QUJD"]>
                 (<["trigger_dev" := "front"]> {[ "trigger_status" := "1" ]}))
              eq_refl eq_refl eq_refl) as (A & B & C & D & _).
  exact (conj A (conj B (conj C D))).
Defined.

Lemma confirm_while_armed_store_unreachable_witness :
  let out := compare_pin Scenario.hashes Scenario.verifier Scenario.idle
               (Scenario.panel_world "1234" true 0 Down) in
  fst out = Raise ConnectionError /\
  alarm_queue (sh (snd out)) = [""] /\
  Gui.alarm_status (gui (sh (snd out))) = true /\
  Gui.pin_entry (gui (sh (snd out))) = "1234".
Proof.
  exact (confirm_while_armed_store_unreachable Scenario.hashes Scenario.verifier
           Scenario.idle (Scenario.panel_world "1234" true 0 Down)
           eq_refl eq_refl eq_refl).
Defined.

Lemma confirm_of_sos_pin_witness :
  let out := compare_pin Scenario.hashes Scenario.verifier Scenario.idle
               (Scenario.panel_world "9999" true 0 Scenario.armed_store) in
  fst out = Ok tt /\
  sleeps (trace (snd out)) = [500; 1000] /\
  alarm_queue (sh (snd out)) = ["sos"] /\
  Gui.alarm_status (gui (sh (snd out))) = true /\
  redis (sh (snd out)) = Scenario.armed_store.
Proof.
  destruct (confirm_of_sos_pin Scenario.hashes Scenario.verifier Scenario.idle
              (Scenario.panel_world "9999" true 0 Scenario.armed_store)
              eq_refl eq_refl) as (A & B & _ & D).
  destruct (D (fun _ _ _ => eq_refl)) as (D1 & D2 & D3).
  split; [exact A|]. split; [rewrite B; reflexivity|].
  exact (conj D1 (conj D2 D3)).
Defined.

Lemma confirm_while_disarmed_runs_the_countdown_witness :
  let w := Scenario.panel_world "1234" false 0 (Up ∅) in
  let out := compare_pin Scenario.hashes Scenario.verifier Scenario.idle w in
  exists w9,
    clock w9 = 9000 /\
    fst out = Ok tt /\
    Gui.alarm_status (gui (sh (snd out))) = true /\
    alarm_queue (sh (snd out)) = ["alarm"] /\
    redis (sh (snd out)) = Up {[ "trigger_status" := "1" ]} /\
    clock (snd out) = clock w9.
Proof.
  intros w out.
  assert (Hc : Gui.cooldown_counter (gui (sh w)) <= 0) by (cbn; lia).
  destruct (confirm_while_disarmed_runs_the_countdown Scenario.hashes Scenario.verifier
              Scenario.idle w eq_refl eq_refl Hc) as (w9 & H9 & Hck & Harm & _).
  exists w9. split; [exact Hck|].
  assert (E : w9 = snd (countdown Scenario.idle
                          {| sh := sh w; thr := thr w; clock := clock w;
                             requests := requests w;
                             trace := trace w ++
                               [EPrint [PStr "alarm_status was False"];
                                EPrint [PStr "stop_cooldown";
                                        PInt (Gui.cooldown_counter (gui (sh w)))]] |}))
    by (rewrite H9; reflexivity).
  assert (Hflag : Gui.stop_cooldown (gui (sh w9)) = false)
    by (rewrite E; vm_compute; reflexivity).
  assert (Hup : redis (sh w9) = Up ∅) by (rewrite E; vm_compute; reflexivity).
  destruct (Harm Hflag ∅ Hup) as (A & B & _ & D & F & G).
  split; [exact A|]. split; [exact B|]. split.
  - subst out. rewrite D, E. vm_compute. reflexivity.
  - exact (conj F G).
Defined.

Lemma confirm_during_countdown_raises_the_abort_flag_witness :
  let out := compare_pin Scenario.hashes Scenario.verifier Scenario.idle
               (Scenario.panel_world "1234" false 1 (Up ∅)) in
  fst out = Ok tt /\
  Gui.stop_cooldown (gui (sh (snd out))) = true /\
  Gui.cooldown_counter (gui (sh (snd out))) = 0 /\
  alarm_queue (sh (snd out)) = [] /\
  clock (snd out) = 0.
Proof.
  assert (Hc : 0 < Gui.cooldown_counter
                     (gui (sh (Scenario.panel_world "1234" false 1 (Up ∅)))))
    by (cbn; lia).
  destruct (confirm_during_countdown_raises_the_abort_flag Scenario.hashes
              Scenario.verifier Scenario.idle
              (Scenario.panel_world "1234" false 1 (Up ∅)) eq_refl eq_refl Hc)
    as (A & B & C & _ & D & _ & _ & F).
  exact (conj A (conj B (conj C (conj D F)))).
Defined.

End PanelBehaviour.


(** ** From the camera's publication to the worker's submission *)

Module EndToEnd.

Import Instasolution PyFacts.

Section Chain.

Variables (timeout : Z) (device_name : string).
Variable camera_others : Z -> Z -> conn -> conn.
Variables (jpg_b64 : CameraSensor.image -> string) (strftime : Z -> string).
Variable settings : api.
Variable backend : nat -> request -> http_result.
Variable loads_session : string -> option jval.
Variable try_decode : string -> (string * string) + string.

(** What [save_image] leaves in a store that says armed after the wait. *)
Lemma save_image_store img wc b db :
  0 <= timeout ->
  camera_others (CameraSensor.clock wc) timeout (CameraSensor.redis wc) = Up db ->
  db !! "trigger_status" = Some b ->
  literal_eval b = Ok 1 ->
  let out := CameraSensor.save_image timeout device_name camera_others jpg_b64 strftime
               img wc in
  fst out = Ok tt /\
  CameraSensor.redis (snd out) =
    Up (<["frame" := CameraSensor.frame_json
                       (strftime (CameraSensor.clock wc + timeout)) (jpg_b64 img)]>
          (<["trigger_dev" := device_name]> db)).
Proof.
  intros Hpos Hup Hkey Hlit out. subst out. unfold CameraSensor.save_image.
  pose proof (CameraSensorProofs.gate_wait_spec timeout camera_others wc) as Hg.
  destruct (Z.leb_spec 0 timeout) as [_|Hneg]; [|lia].
  rewrite (bind_ok _ _ _ _ _ Hg).
  unfold CameraSensor.read_status, CameraSensor.r_get, CameraSensor.r_set,
    CameraSensor.time_time, CameraSensor.print, CameraSensor.logger,
    CameraSensor.emit, bind, modify, gets, ret, throw.
  cbn [CameraSensor.redis CameraSensor.clock CameraSensor.trace fst snd].
  rewrite Hup. cbn [CameraSensor.redis CameraSensor.clock CameraSensor.trace fst snd].
  rewrite Hkey, Hlit.
  cbn [Z.eqb Pos.eqb CameraSensor.redis CameraSensor.clock CameraSensor.trace fst snd].
  split; reflexivity.
Qed.

(** The two programs agree on the store's keys.  When the camera has
    published a detection while armed, a worker that holds the standard
    command and reads that store finds the camera's device name under the
    key it looks up, reports a movement at that door and opens the login
    of a submission; the frame it would persist is the JSON record the
    camera wrote, stamped with the time at the end of the quiet window. *)
Theorem published_detection_reaches_the_worker img wc b db w :
  0 <= timeout ->
  camera_others (CameraSensor.clock wc) timeout (CameraSensor.redis wc) = Up db ->
  db !! "trigger_status" = Some b ->
  literal_eval b = Ok 1 ->
  let published := CameraSensor.redis (snd (CameraSensor.save_image timeout device_name
                     camera_others jpg_b64 strftime img wc)) in
  redis (sh w) = published ->
  (exists db', published = Up db' /\
     db' !! "trigger_status" = Some b /\
     db' !! "frame" =
       Some (CameraSensor.frame_json (strftime (CameraSensor.clock wc + timeout))
               (jpg_b64 img))) /\
  exists tl,
    trace (snd (check_alarm_queue settings backend loads_session try_decode "alarm" w)) =
      trace w ++ [ERedis (RGet "trigger_dev");
                  ELog INFO ("Alarmsystem is active and a movement was detected at the "
                             ++ device_name ++ " door")%string;
                  ELog DEBUG "Preparing alarm request";
                  EHttp (login_request settings)
                        (backend (requests w) (login_request settings))] ++ tl.
Proof.
  intros Hpos Hup Hkey Hlit published Hw.
  destruct (save_image_store img wc b db Hpos Hup Hkey Hlit) as [_ Hst].
  subst published. rewrite Hst in *. split.
  - eexists. split; [reflexivity|]. split.
    + rewrite lookup_insert_ne by discriminate.
      rewrite lookup_insert_ne by discriminate. exact Hkey.
    + apply lookup_insert_eq.
  - apply (ClientProofs.check_alarm_queue_alarm_head settings backend loads_session
             try_decode w _ device_name Hw).
    rewrite lookup_insert_ne by discriminate. apply lookup_insert_eq.
Qed.

End Chain.

Section Shutdown.

Variables panel_others worker_others : Z -> Z -> shared -> shared.
Variable settings : api.
Variable backend : nat -> request -> http_result.
Variable loads_session : string -> option jval.
Variable try_decode : string -> (string * string) + string.

(** Closing the window ends the worker.  Nothing in the program clears
    the stop event; under that assumption on the threads that run during
    the join, a worker that comes to its wait in the shared state the
    closing handler leaves behind ends there: the wait returns at once, no
    time passes, there is no store command and no request, and the disarm
    command that the handler queued just before is not taken. *)
Theorem closing_ends_the_worker join_ms w db n ww :
  redis (sh w) = Up db ->
  (forall t d s, stop_event s = true -> stop_event (panel_others t d s) = true) ->
  sh ww = sh (snd (PinGui.on_closing panel_others join_ms w)) ->
  Threads.run settings backend loads_session try_decode worker_others (S n) ww =
    (Ok tt, ww).
Proof.
  intros Hup Hp Hsh.
  assert (Hset : stop_event (sh ww) = true).
  { rewrite Hsh. unfold PinGui.on_closing.
    destruct w as [[g q se rd] th ck m tr]. cbn [sh redis] in Hup. subst rd.
    PanelBehaviour.run_panel. apply Hp. reflexivity. }
  exact (WorkerBehaviour.stop_event_ends_the_worker settings backend loads_session
           try_decode worker_others n ww Hset).
Qed.

End Shutdown.

Lemma published_detection_reaches_the_worker_witness :
  let w := Scenario.worker_world "alarm" [] Scenario.detection_store in
  redis (sh w) =
    CameraSensor.redis (snd (Scenario.save Scenario.idle
                               (Scenario.camera_world Scenario.armed_store))) /\
  exists tl,
    trace (snd (check_alarm_queue Scenario.api0 (Scenario.backend_with 201)
                  Scenario.session_body Scenario.decode_ok "alarm" w)) =
      [ERedis (RGet "trigger_dev");
       ELog INFO "Alarmsystem is active and a movement was detected at the front door";
       ELog DEBUG "Preparing alarm request";
       EHttp (login_request Scenario.api0) (HResponse 200 "session")] ++ tl.
Proof.
  intros w.
  assert (Hpos : 0 <= 10000) by lia.
  assert (Hkey : ({[ "trigger_status" := "1" ]} : gmap string string) !! "trigger_status"
                 = Some "1") by (vm_compute; reflexivity).
  assert (Hlit : literal_eval "1" = Ok 1) by (vm_compute; reflexivity).
  assert (Hw : redis (sh w) =
               CameraSensor.redis (snd (Scenario.save Scenario.idle
                                          (Scenario.camera_world Scenario.armed_store))))
    by (vm_compute; reflexivity).
  split; [exact Hw|].
  destruct (published_detection_reaches_the_worker 10000 "front" Scenario.idle
              (fun _ => "QUJD") (fun _ => "2021_06_01_12_00_00")
              Scenario.api0 (Scenario.backend_with 201) Scenario.session_body
              Scenario.decode_ok "img" (Scenario.camera_world Scenario.armed_store)
              "1" {[ "trigger_status" := "1" ]} w Hpos eq_refl Hkey Hlit Hw)
    as (_ & tl & Htl).
  exists tl. exact Htl.
Defined.

Lemma closing_ends_the_worker_witness :
  let closed := snd (PinGui.on_closing Scenario.idle 1000
                       (Scenario.panel_world "" true 0 Scenario.armed_store)) in
  let ww := {| sh := sh closed; thr := thr (Scenario.worker_world "alarm" [] Down);
               clock := clock closed; requests := 0%nat; trace := [] |} in
  alarm_queue (sh ww) = [""] /\
  Threads.run Scenario.api0 (Scenario.backend_with 201) Scenario.session_body
    Scenario.decode_ok Scenario.idle 5 ww = (Ok tt, ww).
Proof.
  intros closed ww. split; [reflexivity|].
  exact (closing_ends_the_worker Scenario.idle Scenario.idle Scenario.api0
           (Scenario.backend_with 201) Scenario.session_body Scenario.decode_ok
           1000 (Scenario.panel_world "" true 0 Scenario.armed_store)
           {[ "trigger_status" := "1" ]} 4 ww
           eq_refl (fun _ _ _ H => H) eq_refl).
Defined.

End EndToEnd.
